(** * AzurLaneAutoScript: page navigation, interrupt chain and bounded clicks

    A shallow embedding of [module/ui/ui.py] (class [UI]) and
    [module/coalition/ui.py] (class [CoalitionUI]).

    The program perceives the game through screenshots and acts through
    clicks.  One screenshot is a [Frame]: it answers every perception query
    the code asks until the next screenshot is taken.  The device, the log,
    the page graph's [parent] pointers and the instance attributes live in a
    [World] that is passed through a small state-and-error monad.  Loops are
    written with fuel; a run that needs a screenshot the scenario does not
    provide is [Starved] (still polling), never reported as a result.

    Times are in milliseconds.  [logger.info] and [logger.hr] lines are not
    modelled; warnings, errors, criticals and [logger.attr] are. *)

From Stdlib Require Import ZArith List String Ascii Bool Lia DecimalString.
Import ListNotations.
Open Scope string_scope.
Open Scope Z_scope.

(** ** Buttons, offsets, exceptions *)

Definition Button := string.

(** The [offset] argument of [appear]: [0] (the default), [True], a pair or
    a 4-tuple. *)
Inductive Offset : Type :=
| OffsetZero
| OffsetTrue
| Offset2 (x y : Z)
| Offset4 (a b c d : Z).

Inductive Exn : Type :=
| RequestHumanTakeover
| GamePageUnknownError
| GameNotRunningError
| ScriptError
| CampaignNameError
| KeyError
| AttributeError (attr : string).

Inductive LogLine : Type :=
| Warning (msg : string)
| Error (msg : string)
| Critical (msg : string)
| Attr (key value : string).

(** What the code does to the device and to the perception adapter. *)
Inductive Event : Type :=
| Click (b : Button)
| Screenshot
| Sleep (ms : Z)
| Handled (handler : string)
| IntervalReset (b : Button)
| IntervalClear (bs : list Button)
| IntervalSet (b : Button) (ms : Z)
| ClearOffset (b : Button)
| GetOrientation
| UninstallMinicap
| SwitchSet (switch state : string).

Definition is_click (b : Button) (e : Event) : bool :=
  match e with
  | Click b' => String.eqb b b'
  | _ => false
  end.

Definition is_any_click (e : Event) : bool :=
  match e with
  | Click _ => true
  | _ => false
  end.

Definition clicks_of (b : Button) (es : list Event) : Z :=
  Z.of_nat (List.length (filter (is_click b) es)).

Definition clicks (es : list Event) : Z :=
  Z.of_nat (List.length (filter is_any_click es)).

(** ** Timer *)

(** Modelled from the spec: class [Timer] of [module/base/timer.py] is not
    under src/.  The spec gives a timer a window ([limit]) that must have
    elapsed since the timer was last started or reset; every construction
    site in ui.py also passes [count], the number of polls that must have
    been exceeded as well.  A timer that was never started has no window
    pending. *)
Module Timer.

Record t : Type := mk {
  limit : Z;
  count : Z;
  current : option Z;
  reach_count : Z
}.

Definition new (limit count : Z) : t := mk limit count None count.

Definition started (tm : t) : bool :=
  match current tm with Some _ => true | None => false end.

Definition start (now : Z) (tm : t) : t :=
  if started tm then tm else mk (limit tm) (count tm) (Some now) 0.

Definition reset (now : Z) (tm : t) : t :=
  mk (limit tm) (count tm) (Some now) 0.

Definition window_over (now : Z) (tm : t) : bool :=
  match current tm with
  | None => true
  | Some c => limit tm <? now - c
  end.

(** [reached] counts the poll, then answers. *)
Definition poll (tm : t) : t :=
  mk (limit tm) (count tm) (current tm) (reach_count tm + 1).

Definition reached (now : Z) (tm : t) : bool * t :=
  (window_over now tm && (count tm <? reach_count (poll tm)), poll tm).

End Timer.

(** ** Frames and the world *)

(** Modelled from the spec: the perception adapter ([ModuleBase.appear],
    [Button.match_luma], the inherited [handle_*] popup handlers and
    [device.app_is_running]) is not under src/; the spec treats it as an
    external collaborator ([elementVisible(element, toleranceBox,
    minRecheckInterval)]).  A frame records the answers it gives while
    that screenshot is current. *)
Record Frame : Type := {
  now : Z;
  matches : Button -> Offset -> Z -> bool;
  recheck_ok : Button -> Z -> bool;
  match_luma : Button -> Offset -> bool;
  handler : string -> bool;
  app_is_running : bool
}.

Record Config : Type := {
  Emulator_ScreenshotMethod : string;
  Emulator_ControlMethod : string;
  SERVER : string
}.

Record World : Type := {
  image : Frame;
  has_cached_image : bool;
  pending : list Frame;
  events : list Event;
  logs : list LogLine;
  opsi_reset_fleet_preparation_click : Z;
  parent : string -> option string;
  ui_current : option string;
  config : Config
}.

Definition with_image (f : Frame) (rest : list Frame) (w : World) : World :=
  {| image := f; has_cached_image := true; pending := rest;
     events := events w; logs := logs w;
     opsi_reset_fleet_preparation_click := opsi_reset_fleet_preparation_click w;
     parent := parent w; ui_current := ui_current w; config := config w |}.

Definition with_events (es : list Event) (w : World) : World :=
  {| image := image w; has_cached_image := has_cached_image w;
     pending := pending w; events := es; logs := logs w;
     opsi_reset_fleet_preparation_click := opsi_reset_fleet_preparation_click w;
     parent := parent w; ui_current := ui_current w; config := config w |}.

Definition with_logs (ls : list LogLine) (w : World) : World :=
  {| image := image w; has_cached_image := has_cached_image w;
     pending := pending w; events := events w; logs := ls;
     opsi_reset_fleet_preparation_click := opsi_reset_fleet_preparation_click w;
     parent := parent w; ui_current := ui_current w; config := config w |}.

Definition with_opsi_click (n : Z) (w : World) : World :=
  {| image := image w; has_cached_image := has_cached_image w;
     pending := pending w; events := events w; logs := logs w;
     opsi_reset_fleet_preparation_click := n;
     parent := parent w; ui_current := ui_current w; config := config w |}.

Definition with_parent (p : string -> option string) (w : World) : World :=
  {| image := image w; has_cached_image := has_cached_image w;
     pending := pending w; events := events w; logs := logs w;
     opsi_reset_fleet_preparation_click := opsi_reset_fleet_preparation_click w;
     parent := p; ui_current := ui_current w; config := config w |}.

Definition with_ui_current (p : option string) (w : World) : World :=
  {| image := image w; has_cached_image := has_cached_image w;
     pending := pending w; events := events w; logs := logs w;
     opsi_reset_fleet_preparation_click := opsi_reset_fleet_preparation_click w;
     parent := parent w; ui_current := p; config := config w |}.

(** ** The monad *)

Inductive Outcome (A : Type) : Type :=
| Ret (a : A)
| Raise (e : Exn)
| Starved.
Arguments Ret {A} a.
Arguments Raise {A} e.
Arguments Starved {A}.

Definition M (A : Type) : Type := World -> Outcome A * World.

Definition ret {A} (a : A) : M A := fun w => (Ret a, w).

Definition raise {A} (e : Exn) : M A := fun w => (Raise e, w).

Definition starve {A} : M A := fun w => (Starved, w).

Definition bind {A B} (m : M A) (k : A -> M B) : M B :=
  fun w =>
    match m w with
    | (Ret a, w') => k a w'
    | (Raise e, w') => (Raise e, w')
    | (Starved, w') => (Starved, w')
    end.

Declare Scope ui_scope.
Delimit Scope ui_scope with ui.
Notation "x <- m ;; k" := (bind m (fun x => k))
  (at level 61, m at next level, right associativity) : ui_scope.
Notation "m ;; k" := (bind m (fun _ => k))
  (at level 61, right associativity) : ui_scope.
Open Scope ui_scope.

(** [if c: return True] followed by the rest of the function. *)
Definition or_else (c : M bool) (k : M bool) : M bool :=
  b <- c ;; if b then ret true else k.
Notation "c 'orelse' k" := (or_else c k)
  (at level 62, right associativity) : ui_scope.

Definition emit (e : Event) : M unit :=
  fun w => (Ret tt, with_events (events w ++ [e]) w).

Definition log (l : LogLine) : M unit :=
  fun w => (Ret tt, with_logs (logs w ++ [l]) w).

Definition frame : M Frame := fun w => (Ret (image w), w).

Definition clock : M Z := fun w => (Ret (now (image w)), w).

(** [self.device.screenshot()]: the next frame of the scenario becomes the
    current image. *)
Definition screenshot : M unit :=
  fun w =>
    match pending w with
    | [] => (Starved, w)
    | f :: rest => (Ret tt, with_image f rest (with_events (events w ++ [Screenshot]) w))
    end.

Definition click (b : Button) : M unit := emit (Click b).

Definition interval_reset (b : Button) : M unit := emit (IntervalReset b).

(** [self.appear(button, offset, interval, similarity)]: with an interval
    the match is attempted only when the button's interval timer lets it
    through. *)
Definition appear_on (f : Frame) (b : Button) (off : Offset) (sim interval : Z) : bool :=
  if interval =? 0 then matches f b off sim
  else recheck_ok f b interval && matches f b off sim.

Definition appear_sim (b : Button) (off : Offset) (sim interval : Z) : M bool :=
  f <- frame ;; ret (appear_on f b off sim interval).

Definition appear (b : Button) (off : Offset) (interval : Z) : M bool :=
  appear_sim b off 85 interval.

Definition appear_then_click (b : Button) (off : Offset) (interval : Z) : M bool :=
  a <- appear b off interval ;;
  if a then click b ;; ret true else ret false.

(** An inherited [handle_*] method: the frame says whether it handled
    something; what it did is recorded as one opaque event. *)
Definition handle (h : string) : M bool :=
  f <- frame ;;
  if handler f h then emit (Handled h) ;; ret true else ret false.

(** ** Assets named by ui.py *)

Definition BACK_ARROW : Button := "BACK_ARROW".
Definition GOTO_MAIN : Button := "GOTO_MAIN".
Definition GOTO_MAIN_WHITE : Button := "GOTO_MAIN_WHITE".
Definition RPG_HOME : Button := "RPG_HOME".
Definition LOGIN_ANNOUNCE : Button := "LOGIN_ANNOUNCE".
Definition LOGIN_ANNOUNCE_2 : Button := "LOGIN_ANNOUNCE_2".
Definition LOGIN_CHECK : Button := "LOGIN_CHECK".
Definition LOGIN_RETURN_SIGN : Button := "LOGIN_RETURN_SIGN".
Definition MAINTENANCE_ANNOUNCE : Button := "MAINTENANCE_ANNOUNCE".
Definition MONTHLY_PASS_NOTICE : Button := "MONTHLY_PASS_NOTICE".
Definition BATTLE_PASS_NOTICE : Button := "BATTLE_PASS_NOTICE".
Definition BATTLE_PASS_NEW_SEASON : Button := "BATTLE_PASS_NEW_SEASON".
Definition GAME_TIPS : Button := "GAME_TIPS".
Definition AUTO_SEARCH_MENU_EXIT : Button := "AUTO_SEARCH_MENU_EXIT".
Definition GET_ITEMS_1 : Button := "GET_ITEMS_1".
Definition GET_ITEMS_2 : Button := "GET_ITEMS_2".
Definition GET_SHIP : Button := "GET_SHIP".
Definition EVENT_LIST_CHECK : Button := "EVENT_LIST_CHECK".
Definition SHIPYARD_CHECK : Button := "SHIPYARD_CHECK".
Definition META_CHECK : Button := "META_CHECK".
Definition PLAYER_CHECK : Button := "PLAYER_CHECK".
Definition RESET_TICKET_POPUP : Button := "RESET_TICKET_POPUP".
Definition RESET_FLEET_PREPARATION : Button := "RESET_FLEET_PREPARATION".
Definition EXCHANGE_CHECK : Button := "EXCHANGE_CHECK".
Definition AUTO_SEARCH_REWARD : Button := "AUTO_SEARCH_REWARD".
Definition FLEET_PREPARATION : Button := "FLEET_PREPARATION".
Definition MAP_PREPARATION : Button := "MAP_PREPARATION".
Definition MAP_PREPARATION_CANCEL : Button := "MAP_PREPARATION_CANCEL".
Definition RAID_FLEET_PREPARATION : Button := "RAID_FLEET_PREPARATION".
Definition RAID_CHECK : Button := "RAID_CHECK".
Definition WITHDRAW : Button := "WITHDRAW".
Definition DORM_INFO : Button := "DORM_INFO".
Definition DORM_FEED_CANCEL : Button := "DORM_FEED_CANCEL".
Definition DORM_TROPHY_CONFIRM : Button := "DORM_TROPHY_CONFIRM".
Definition MEOWFFICER_INFO : Button := "MEOWFFICER_INFO".
Definition MEOWFFICER_BUY : Button := "MEOWFFICER_BUY".
Definition EXERCISE_PREPARATION : Button := "EXERCISE_PREPARATION".
Definition DAL_DIFFICULTY_EXIT : Button := "DAL_DIFFICULTY_EXIT".
Definition MAIN_GOTO_MEMORIES_WHITE : Button := "MAIN_GOTO_MEMORIES_WHITE".
Definition MAIN_TAB_SWITCH_WHITE : Button := "MAIN_TAB_SWITCH_WHITE".
Definition IDLE : Button := "IDLE".
Definition IDLE_2 : Button := "IDLE_2".
Definition IDLE_3 : Button := "IDLE_3".
Definition REWARD_GOTO_MAIN : Button := "REWARD_GOTO_MAIN".
Definition MEOWFFICER_GOTO_DORMMENU : Button := "MEOWFFICER_GOTO_DORMMENU".
Definition DORMMENU_GOTO_DORM : Button := "DORMMENU_GOTO_DORM".
Definition DORMMENU_GOTO_MEOWFFICER : Button := "DORMMENU_GOTO_MEOWFFICER".
Definition MAIN_GOTO_REWARD : Button := "MAIN_GOTO_REWARD".
Definition MAIN_GOTO_REWARD_WHITE : Button := "MAIN_GOTO_REWARD_WHITE".
Definition REWARD_GOTO_TACTICAL : Button := "REWARD_GOTO_TACTICAL".
Definition REWARD_GOTO_TACTICAL_WHITE : Button := "REWARD_GOTO_TACTICAL_WHITE".
Definition MAIN_GOTO_CAMPAIGN : Button := "MAIN_GOTO_CAMPAIGN".
Definition MAIN_GOTO_CAMPAIGN_WHITE : Button := "MAIN_GOTO_CAMPAIGN_WHITE".
Definition SHOP_GOTO_SUPPLY_PACK : Button := "SHOP_GOTO_SUPPLY_PACK".
Definition RPG_GOTO_STAGE : Button := "RPG_GOTO_STAGE".
Definition RPG_GOTO_STORY : Button := "RPG_GOTO_STORY".
Definition RPG_LEAVE_CITY : Button := "RPG_LEAVE_CITY".

(** ** Pages *)

(** Modelled from the spec: class [Page] of [module/ui/page.py] is not under
    src/.  A page has a [name], a [check_button] (absent for synthetic
    pages) and [links], the button to click for each directly reachable
    neighbour.  Its mutable [parent] pointer is kept in the world, keyed by
    page name; two pages are equal when their names are. *)
Record Page : Type := {
  name : string;
  check_button : option Button;
  links : list (string * Button)
}.

Definition page_eqb (p q : Page) : bool := String.eqb (name p) (name q).

Fixpoint lookup {V : Type} (k : string) (kvs : list (string * V)) : option V :=
  match kvs with
  | [] => None
  | (k', v) :: rest => if String.eqb k k' then Some v else lookup k rest
  end.

Definition set_parent (child par : string) (p : string -> option string)
  : string -> option string :=
  fun x => if String.eqb x child then Some par else p x.

Definition no_parent : string -> option string := fun _ => None.

(** The pages ui.py and coalition/ui.py import by name, and the declared
    pages in the order [Page.iter_pages()] yields them. *)
Record PageTable : Type := {
  iter_pages : list Page;
  page_main : Page;
  page_main_white : Page;
  page_coalition : Page
}.

(** [str(page)] for each declared page, as Python prints a list of strings. *)
Definition quoted (s : string) : string := "'" ++ s ++ "'".

Fixpoint join (sep : string) (ss : list string) : string :=
  match ss with
  | [] => ""
  | [s] => s
  | s :: rest => s ++ sep ++ join sep rest
  end.

Definition list_repr (ss : list string) : string :=
  "[" ++ join ", " (map quoted ss) ++ "]".

Section PageGraph.

Variable T : PageTable.

(** [Page.iter_check_buttons()]. *)
Definition iter_check_buttons : list Button :=
  flat_map (fun p => match check_button p with Some b => [b] | None => [] end)
           (iter_pages T).

(** Modelled from the spec: [Page.init_connection(destination)] walks the
    declared links breadth-first from the destination and gives every page
    that links to an already reached page that page as [parent], ties
    broken by declaration order.  [Page.clear_connection()] resets every
    [parent] pointer to null. *)
Fixpoint init_round (visited : list string) (ps : list Page)
         (acc : list string * (string -> option string))
  : list string * (string -> option string) :=
  match ps with
  | [] => acc
  | link :: rest =>
      let acc' :=
        if existsb (String.eqb (name link)) visited then acc
        else match find (fun v => match lookup v (links link) with
                                  | Some _ => true
                                  | None => false
                                  end) visited with
             | Some v => ((fst acc ++ [name link])%list, set_parent (name link) v (snd acc))
             | None => acc
             end in
      init_round visited rest acc'
  end.

Fixpoint init_rounds (fuel : nat) (visited : list string)
         (par : string -> option string) : string -> option string :=
  match fuel with
  | O => par
  | S fuel' =>
      let (new, par') := init_round visited (iter_pages T) (visited, par) in
      if Nat.eqb (List.length new) (List.length visited) then par'
      else init_rounds fuel' new par'
  end.

Definition init_connection (destination : Page) : M unit :=
  fun w =>
    (Ret tt,
     with_parent (init_rounds (List.length (iter_pages T)) [name destination] (parent w)) w).

Definition clear_connection : M unit :=
  fun w => (Ret tt, with_parent no_parent w).

End PageGraph.

(** ** Class [UI] (module/ui/ui.py) *)

Definition emits (es : list Event) : M unit :=
  fun w => match es with
           | [] => (Ret tt, w)
           | _ => (Ret tt, with_events (events w ++ es) w)
           end.

Definition on (c : bool) (es : list Event) : list Event := if c then es else [].

(** [check_button] of [ui_click]: a button, a callable or a list of buttons. *)
Inductive CheckButton : Type :=
| CheckSingle (b : Button)
| CheckCallable (f : M bool)
| CheckAny (bs : list Button).

(** [appear_button] of [ui_click]: a button or a callable. *)
Inductive AppearButton : Type :=
| AppearSingle (b : Button)
| AppearCallable (f : M bool).

Section UI.

Variable T : PageTable.

(** Python fails when a page without [check_button] is matched. *)
Definition appear_check (page : Page) (off : Offset) (interval : Z) : M bool :=
  match check_button page with
  | Some b => appear b off interval
  | None => raise (AttributeError "name")
  end.

Definition ui_page_appear (page : Page) (off : Offset) (interval : Z) : M bool :=
  if page_eqb page (page_main T) then
    (appear_check (page_main_white T) off interval) orelse
    (appear_check (page_main T) (Offset2 5 5) interval) orelse
    ret false
  else appear_check page off interval.

Definition is_in_main (off : Offset) (interval : Z) : M bool :=
  ui_page_appear (page_main T) off interval.

Fixpoint appear_any (bs : list Button) (off : Offset) : M bool :=
  match bs with
  | [] => ret false
  | b :: rest => (appear b off 0) orelse (appear_any rest off)
  end.

Definition ui_process_check_button (check : CheckButton) (off : Offset) : M bool :=
  match check with
  | CheckSingle b => appear b off 0
  | CheckCallable f => f
  | CheckAny bs => appear_any bs off
  end.

(** The loop of [ui_click]; [continue] and the end of the body both go
    round again. *)
Fixpoint ui_click_loop (fuel : nat) (click_button : Button) (check : CheckButton)
         (appear_button : AppearButton) (additional : option (M bool))
         (off : Offset) (skip_first_screenshot : bool)
         (click_timer confirm_timer : Timer.t) : M unit :=
  match fuel with
  | O => starve
  | S fuel' =>
      (if skip_first_screenshot then ret tt else screenshot) ;;
      ok <- ui_process_check_button check off ;;
      t <- clock ;;
      let '(arrived, confirm_timer) :=
        if ok then Timer.reached t confirm_timer
        else (false, Timer.reset t confirm_timer) in
      if arrived then ret tt
      else
        let '(due, click_timer) := Timer.reached t click_timer in
        can <- (if due then
                  match appear_button with
                  | AppearSingle b => appear b off 0
                  | AppearCallable f => f
                  end
                else ret false) ;;
        if can then
          click click_button ;;
          t' <- clock ;;
          ui_click_loop fuel' click_button check appear_button additional off false
                        (Timer.reset t' click_timer) confirm_timer
        else
          match additional with
          | Some hook =>
              _ <- hook ;;
              ui_click_loop fuel' click_button check appear_button additional off false
                            click_timer confirm_timer
          | None =>
              ui_click_loop fuel' click_button check appear_button additional off false
                            click_timer confirm_timer
          end
  end.

Definition ui_click (fuel : nat) (click_button : Button) (check : CheckButton)
           (appear_button : option AppearButton) (additional : option (M bool))
           (confirm_wait : Z) (off : Offset) (retry_wait : Z)
           (skip_first_screenshot : bool) : M unit :=
  let appear_button :=
    match appear_button with
    | None => AppearSingle click_button
    | Some a => a
    end in
  let click_timer := Timer.new retry_wait (retry_wait / 500) in
  let confirm_wait := match additional with Some _ => confirm_wait | None => 0 end in
  t <- clock ;;
  let confirm_timer := Timer.start t (Timer.new confirm_wait (confirm_wait / 500)) in
  ui_click_loop fuel click_button check appear_button additional off
                skip_first_screenshot click_timer confirm_timer.

Definition ui_back (fuel : nat) (check : CheckButton) (appear_button : option AppearButton)
           (off : Offset) (retry_wait : Z) (skip_first_screenshot : bool) : M unit :=
  ui_click fuel BACK_ARROW check appear_button None 1000 off retry_wait
           skip_first_screenshot.

Definition ui_page_main_popups (get_ship : bool) : M bool :=
  (handle "handle_guild_popup_cancel") orelse
  (appear_then_click LOGIN_ANNOUNCE (Offset2 30 30) 3000) orelse
  (appear_then_click LOGIN_ANNOUNCE_2 (Offset2 30 30) 3000) orelse
  (appear_then_click GET_ITEMS_1 OffsetTrue 3000) orelse
  (appear_then_click GET_ITEMS_2 OffsetTrue 3000) orelse
  (if get_ship then appear_then_click GET_SHIP OffsetZero 5000 else ret false) orelse
  (appear_then_click LOGIN_RETURN_SIGN (Offset2 30 30) 3000) orelse
  (a <- appear EVENT_LIST_CHECK (Offset2 30 30) 5000 ;;
   if a then appear_then_click GOTO_MAIN (Offset2 30 30) 0 else ret false) orelse
  (appear_then_click MONTHLY_PASS_NOTICE (Offset2 30 30) 3000) orelse
  (appear_then_click BATTLE_PASS_NOTICE (Offset2 30 30) 3000) orelse
  (a <- appear BATTLE_PASS_NEW_SEASON (Offset2 30 30) 3000 ;;
   if a then click BACK_ARROW ;; ret true else ret false) orelse
  (handle "handle_popup_single(ITEM_EXPIRED)") orelse
  (handle "handle_popup_single_white") orelse
  (a <- appear SHIPYARD_CHECK (Offset2 30 30) 5000 ;;
   if a then appear_then_click GOTO_MAIN (Offset2 30 30) 0 else ret false) orelse
  (a <- appear META_CHECK (Offset2 30 30) 5000 ;;
   if a then appear_then_click GOTO_MAIN (Offset2 30 30) 0 else ret false) orelse
  (a <- appear PLAYER_CHECK (Offset2 30 30) 3000 ;;
   if a then
     (appear_then_click GOTO_MAIN (Offset2 30 30) 0) orelse
     (appear_then_click BACK_ARROW (Offset2 30 30) 0) orelse
     ret false
   else ret false) orelse
  ret false.

Definition opsi_click : M Z :=
  fun w => (Ret (opsi_reset_fleet_preparation_click w), w).

Definition opsi_click_incr : M unit :=
  fun w => (Ret tt, with_opsi_click (opsi_reset_fleet_preparation_click w + 1) w).

Definition ui_page_os_popups : M bool :=
  n <- opsi_click ;;
  if 5 <=? n then
    log (Critical "Failed to confirm OpSi fleets, too many click on RESET_FLEET_PREPARATION") ;;
    log (Critical "Possible reason #1: You haven't set any fleets in operation siren") ;;
    log (Critical "Possible reason #2: Your fleets haven't satisfied the level restrictions in operation siren") ;;
    raise RequestHumanTakeover
  else
    (appear_then_click RESET_TICKET_POPUP (Offset2 30 30) 3000) orelse
    (a <- appear_then_click RESET_FLEET_PREPARATION (Offset2 30 30) 3000 ;;
     if a then
       opsi_click_incr ;;
       interval_reset FLEET_PREPARATION ;;
       interval_reset RESET_TICKET_POPUP ;;
       ret true
     else ret false) orelse
    (a <- appear EXCHANGE_CHECK (Offset2 30 30) 3000 ;;
     if a then emit (ClearOffset GOTO_MAIN) ;; click GOTO_MAIN ;; ret true
     else ret false) orelse
    ret false.

Definition handle_idle_page : M bool :=
  f <- frame ;;
  if negb (recheck_ok f IDLE 3000) then ret false
  else if match_luma f IDLE (Offset2 5 5) then
    click REWARD_GOTO_MAIN ;; interval_reset IDLE ;; ret true
  else if match_luma f IDLE_2 (Offset2 5 5) then
    click REWARD_GOTO_MAIN ;; interval_reset IDLE ;; ret true
  else if match_luma f IDLE_3 (Offset2 5 5) then
    click REWARD_GOTO_MAIN ;; interval_reset IDLE ;; ret true
  else ret false.

(** The WITHDRAW step of [ui_additional]: it sleeps, takes a new
    screenshot and clicks only if the button is still there. *)
Definition withdraw_step : M bool :=
  a <- appear WITHDRAW (Offset2 30 30) 3000 ;;
  if a then
    emit (Sleep 2000) ;;
    screenshot ;;
    c <- appear_then_click WITHDRAW (Offset2 30 30) 0 ;;
    if c then interval_reset WITHDRAW ;; ret true
    else
      log (Warning "WITHDRAW button does not exist anymore") ;;
      interval_reset WITHDRAW ;;
      ret false
  else ret false.

Definition ui_additional (get_ship : bool) : M bool :=
  ui_page_os_popups orelse
  (handle "handle_popup_confirm(UI_ADDITIONAL)") orelse
  (handle "handle_urgent_commission") orelse
  (ui_page_main_popups get_ship) orelse
  (handle "handle_story_skip") orelse
  (a <- appear GAME_TIPS (Offset2 30 30) 2000 ;;
   if a then click GOTO_MAIN ;; ret true else ret false) orelse
  (a <- appear_sim DORM_INFO (Offset2 30 30) 75 3000 ;;
   if a then click DORM_INFO ;; ret true else ret false) orelse
  (appear_then_click DORM_FEED_CANCEL (Offset2 30 30) 3000) orelse
  (appear_then_click DORM_TROPHY_CONFIRM (Offset2 30 30) 3000) orelse
  (a <- appear_then_click MEOWFFICER_INFO (Offset2 30 30) 3000 ;;
   if a then interval_reset GET_SHIP ;; ret true else ret false) orelse
  (a <- appear MEOWFFICER_BUY (Offset2 30 30) 3000 ;;
   if a then click BACK_ARROW ;; interval_reset GET_SHIP ;; ret true
   else ret false) orelse
  (a <- ((appear MAP_PREPARATION (Offset2 30 30) 3000) orelse
         (appear FLEET_PREPARATION (Offset2 20 50) 3000) orelse
         (appear RAID_FLEET_PREPARATION (Offset2 30 30) 3000)) ;;
   if a then click MAP_PREPARATION_CANCEL ;; ret true else ret false) orelse
  (appear_then_click AUTO_SEARCH_MENU_EXIT (Offset2 200 30) 3000) orelse
  (appear_then_click AUTO_SEARCH_REWARD (Offset2 50 50) 3000) orelse
  withdraw_step orelse
  (appear_then_click LOGIN_CHECK (Offset2 30 30) 3000) orelse
  (appear_then_click MAINTENANCE_ANNOUNCE (Offset2 30 30) 3000) orelse
  (a <- appear EXERCISE_PREPARATION OffsetZero 3000 ;;
   if a then click GOTO_MAIN ;; ret true else ret false) orelse
  (appear_then_click DAL_DIFFICULTY_EXIT (Offset2 20 20) 3000) orelse
  handle_idle_page orelse
  (a <- appear MAIN_GOTO_MEMORIES_WHITE OffsetZero 3000 ;;
   if a then click MAIN_TAB_SWITCH_WHITE ;; ret true else ret false) orelse
  ret false.

Definition mem (b : Button) (bs : list Button) : bool :=
  existsb (String.eqb b) bs.

Definition ui_button_interval_reset (button : Button) : M unit :=
  emits (on (String.eqb button MEOWFFICER_GOTO_DORMMENU) [IntervalReset GET_SHIP]
         ++ on (String.eqb button DORMMENU_GOTO_DORM) [IntervalReset GET_SHIP]
         ++ on (String.eqb button DORMMENU_GOTO_MEOWFFICER) [IntervalReset GET_SHIP]
         ++ flat_map (fun kv => on (String.eqb button (snd kv)) [IntervalReset GET_SHIP])
                     (links (page_main T))
         ++ on (mem button [MAIN_GOTO_REWARD; MAIN_GOTO_REWARD_WHITE])
               [IntervalReset GET_SHIP]
         ++ on (String.eqb button REWARD_GOTO_TACTICAL)
               [IntervalReset REWARD_GOTO_TACTICAL_WHITE]
         ++ on (String.eqb button REWARD_GOTO_TACTICAL_WHITE)
               [IntervalReset REWARD_GOTO_TACTICAL]
         ++ on (mem button [MAIN_GOTO_CAMPAIGN; MAIN_GOTO_CAMPAIGN_WHITE])
               [IntervalReset GET_SHIP; IntervalReset RAID_CHECK]
         ++ on (String.eqb button SHOP_GOTO_SUPPLY_PACK) [IntervalReset EXCHANGE_CHECK]
         ++ on (mem button [RPG_GOTO_STAGE; RPG_GOTO_STORY; RPG_LEAVE_CITY])
               [IntervalSet GET_SHIP 5000]).

End UI.

(** ** Page identification and traversal *)

Definition quote_char : string := String "034"%char EmptyString.

Section Navigation.

Variable T : PageTable.

(** The [for page in Page.iter_pages()] scan of [ui_get_current_page]. *)
Fixpoint scan_current_page (ps : list Page) : M (option Page) :=
  match ps with
  | [] => ret None
  | page :: rest =>
      match check_button page with
      | None => scan_current_page rest
      | Some _ =>
          a <- ui_page_appear T page (Offset2 30 30) 0 ;;
          if a then ret (Some page) else scan_current_page rest
      end
  end.

Definition set_ui_current (page : Page) : M unit :=
  fun w => (Ret tt, with_ui_current (Some (name page)) w).

(** The lines after the loop of [ui_get_current_page]. *)
Definition unknown_page_dump (c : Config) : list LogLine :=
  [ Warning "Unknown ui page";
    Attr "EMULATOR__SCREENSHOT_METHOD" (Emulator_ScreenshotMethod c);
    Attr "EMULATOR__CONTROL_METHOD" (Emulator_ControlMethod c);
    Attr "SERVER" (SERVER c);
    Warning "Starting from current page is not supported";
    Warning ("Supported page: " ++ list_repr (map name (iter_pages T)));
    Warning ("Supported page: Any page with a " ++ quote_char ++ "HOME" ++ quote_char
             ++ " button on the upper-right");
    Critical "Please switch to a supported page before starting Alas" ].

Definition logs_all (ls : list LogLine) : M unit :=
  fun w => (Ret tt, with_logs (logs w ++ ls) w).

Definition unknown_page {A} : M A :=
  c <- (fun w => (Ret (config w), w)) ;;
  logs_all (unknown_page_dump c) ;;
  raise GamePageUnknownError.

Definition app_check : M unit :=
  f <- frame ;;
  if app_is_running f then ret tt else raise GameNotRunningError.

Definition minicap_check : M unit :=
  c <- (fun w => (Ret (config w), w)) ;;
  if String.eqb (Emulator_ControlMethod c) "uiautomator2" then emit UninstallMinicap
  else ret tt.

Definition first_screenshot (skip_first_screenshot : bool) : M unit :=
  if skip_first_screenshot then
    cached <- (fun w => (Ret (has_cached_image w), w)) ;;
    if cached then ret tt else screenshot
  else screenshot.

(** The loop of [ui_get_current_page].  [app_checked] and
    [minicap_checked] are the [has_run] flags of the two [@run_once]
    closures. *)
Fixpoint ui_get_current_page_loop (fuel : nat) (skip_first_screenshot : bool)
         (timeout orientation_timer : Timer.t) (app_checked minicap_checked : bool)
  : M Page :=
  match fuel with
  | O => starve
  | S fuel' =>
      first_screenshot skip_first_screenshot ;;
      t <- clock ;;
      let '(expired, timeout) := Timer.reached t timeout in
      if expired then unknown_page
      else
        found <- scan_current_page (iter_pages T) ;;
        match found with
        | Some page =>
            log (Attr "UI" (name page)) ;;
            set_ui_current page ;;
            ret page
        | None =>
            a <- appear_then_click GOTO_MAIN (Offset2 30 30) 2000 ;;
            if a then
              t1 <- clock ;;
              ui_get_current_page_loop fuel' false (Timer.reset t1 timeout)
                                       orientation_timer app_checked minicap_checked
            else
            b <- appear_then_click GOTO_MAIN_WHITE (Offset2 30 30) 2000 ;;
            if b then
              t1 <- clock ;;
              ui_get_current_page_loop fuel' false (Timer.reset t1 timeout)
                                       orientation_timer app_checked minicap_checked
            else
            c <- appear_then_click RPG_HOME (Offset2 30 30) 2000 ;;
            if c then
              t1 <- clock ;;
              ui_get_current_page_loop fuel' false (Timer.reset t1 timeout)
                                       orientation_timer app_checked minicap_checked
            else
            d <- ui_additional true ;;
            if d then
              t1 <- clock ;;
              ui_get_current_page_loop fuel' false (Timer.reset t1 timeout)
                                       orientation_timer app_checked minicap_checked
            else
              (if app_checked then ret tt else app_check) ;;
              (if minicap_checked then ret tt else minicap_check) ;;
              t2 <- clock ;;
              let '(due, orientation_timer) := Timer.reached t2 orientation_timer in
              if due then
                emit GetOrientation ;;
                t3 <- clock ;;
                ui_get_current_page_loop fuel' false timeout
                                         (Timer.reset t3 orientation_timer) true true
              else
                ui_get_current_page_loop fuel' false timeout orientation_timer true true
        end
  end.

Definition ui_get_current_page (fuel : nat) (skip_first_screenshot : bool) : M Page :=
  let orientation_timer := Timer.new 5000 0 in
  t <- clock ;;
  let timeout := Timer.start t (Timer.new 10000 20) in
  ui_get_current_page_loop fuel skip_first_screenshot timeout orientation_timer
                           false false.

Definition parent_of (page : Page) : M (option string) :=
  fun w => (Ret (parent w (name page)), w).

(** The [for page in Page.iter_pages()] scan of [ui_goto]: the first page
    on the parent chain whose check button appears is left by clicking
    [page.links[page.parent]]. *)
Fixpoint ui_goto_scan (off : Offset) (ps : list Page) : M bool :=
  match ps with
  | [] => ret false
  | page :: rest =>
      par <- parent_of page ;;
      match par, check_button page with
      | Some q, Some cb =>
          a <- appear cb off 5000 ;;
          if a then
            match lookup q (links page) with
            | Some button =>
                click button ;;
                ui_button_interval_reset T button ;;
                ret true
            | None => raise KeyError
            end
          else ui_goto_scan off rest
      | _, _ => ui_goto_scan off rest
      end
  end.

Fixpoint ui_goto_loop (fuel : nat) (destination : Page) (get_ship : bool)
         (off : Offset) (skip_first_screenshot : bool) : M unit :=
  match fuel with
  | O => starve
  | S fuel' =>
      emit (ClearOffset GOTO_MAIN) ;;
      (if skip_first_screenshot then ret tt else screenshot) ;;
      arrived <- ui_page_appear T destination off 0 ;;
      if arrived then ret tt
      else
        clicked <- ui_goto_scan off (iter_pages T) ;;
        if clicked then ui_goto_loop fuel' destination get_ship off false
        else
          _ <- ui_additional get_ship ;;
          ui_goto_loop fuel' destination get_ship off false
  end.

Definition ui_goto (fuel : nat) (destination : Page) (get_ship : bool)
           (off : Offset) (skip_first_screenshot : bool) : M unit :=
  init_connection T destination ;;
  emit (IntervalClear (iter_check_buttons T)) ;;
  ui_goto_loop fuel destination get_ship off skip_first_screenshot ;;
  clear_connection.

Definition ui_ensure (fuel : nat) (destination : Page) (skip_first_screenshot : bool)
  : M bool :=
  _ <- ui_get_current_page fuel skip_first_screenshot ;;
  current <- (fun w => (Ret (ui_current w), w)) ;;
  if match current with
     | Some n => String.eqb n (name destination)
     | None => false
     end
  then ret false
  else
    ui_goto fuel destination true (Offset2 30 30) true ;;
    ret true.

Definition ui_goto_main (fuel : nat) : M bool := ui_ensure fuel (page_main T) true.

End Navigation.

(** ** Class [CoalitionUI] (module/coalition/ui.py) *)

Definition FROSTFALL_TC1 : Button := "FROSTFALL_TC1".
Definition FROSTFALL_TC2 : Button := "FROSTFALL_TC2".
Definition FROSTFALL_TC3 : Button := "FROSTFALL_TC3".
Definition FROSTFALL_SP : Button := "FROSTFALL_SP".
Definition FROSTFALL_EX : Button := "FROSTFALL_EX".
Definition ACADEMY_EASY : Button := "ACADEMY_EASY".
Definition ACADEMY_NORMAL : Button := "ACADEMY_NORMAL".
Definition ACADEMY_HARD : Button := "ACADEMY_HARD".
Definition ACADEMY_SP : Button := "ACADEMY_SP".
Definition ACADEMY_EX : Button := "ACADEMY_EX".
Definition NEONCITY_EASY : Button := "NEONCITY_EASY".
Definition NEONCITY_NORMAL : Button := "NEONCITY_NORMAL".
Definition NEONCITY_HARD : Button := "NEONCITY_HARD".
Definition NEONCITY_SP : Button := "NEONCITY_SP".
Definition NEONCITY_EX : Button := "NEONCITY_EX".
Definition DAL_AREA1 : Button := "DAL_AREA1".
Definition DAL_AREA2 : Button := "DAL_AREA2".
Definition DAL_AREA3 : Button := "DAL_AREA3".
Definition DAL_AREA4 : Button := "DAL_AREA4".
Definition DAL_AREA5 : Button := "DAL_AREA5".
Definition DAL_AREA6 : Button := "DAL_AREA6".
Definition DAL_NORMAL : Button := "DAL_NORMAL".
Definition DAL_HARD : Button := "DAL_HARD".
Definition Light_Shadow_Fashion_AREA1 : Button := "Light_Shadow_Fashion_AREA1".
Definition Light_Shadow_Fashion_AREA2 : Button := "Light_Shadow_Fashion_AREA2".
Definition Light_Shadow_Fashion_AREA3 : Button := "Light_Shadow_Fashion_AREA3".
Definition Light_Shadow_Fashion_AREA4 : Button := "Light_Shadow_Fashion_AREA4".
Definition Light_Shadow_Fashion_AREA5 : Button := "Light_Shadow_Fashion_AREA5".
Definition Light_Shadow_Fashion_AREA6 : Button := "Light_Shadow_Fashion_AREA6".
Definition Light_Shadow_Fashion_NORMAL : Button := "Light_Shadow_Fashion_NORMAL".
Definition Light_Shadow_Fashion_HARD : Button := "Light_Shadow_Fashion_HARD".
Definition Light_Shadow_Fashion_DIFFICULTY_EXIT : Button :=
  "Light_Shadow_Fashion_DIFFICULTY_EXIT".
Definition Light_Shadow_Fashion_PREPARATION : Button := "Light_Shadow_Fashion_PREPARATION".
Definition Light_Shadow_Fashion_SWITCH_SINGLE : Button :=
  "Light_Shadow_Fashion_SWITCH_SINGLE".
Definition Light_Shadow_Fashion_SWITCH_MULTI : Button :=
  "Light_Shadow_Fashion_SWITCH_MULTI".
Definition Light_Shadow_Fashion_FLEET_NOT_PREPARED : Button :=
  "Light_Shadow_Fashion_FLEET_NOT_PREPARED".
Definition Light_Shadow_Fashion_EMPTY_FLAGSHIP : Button :=
  "Light_Shadow_Fashion_EMPTY_FLAGSHIP".
Definition Light_Shadow_Fashion_EMPTY_VANGUARD : Button :=
  "Light_Shadow_Fashion_EMPTY_VANGUARD".
Definition FROSTFALL_FLEET_PREPARATION : Button := "FROSTFALL_FLEET_PREPARATION".
Definition ACEDEMY_FLEET_PREPARATION : Button := "ACEDEMY_FLEET_PREPARATION".
Definition NEONCITY_FLEET_PREPARATION : Button := "NEONCITY_FLEET_PREPARATION".
Definition DAL_FLEET_PREPARATION : Button := "DAL_FLEET_PREPARATION".
Definition FROSTFALL_SWITCH_SINGLE : Button := "FROSTFALL_SWITCH_SINGLE".
Definition FROSTFALL_SWITCH_MULTI : Button := "FROSTFALL_SWITCH_MULTI".
Definition ACADEMY_SWITCH_SINGLE : Button := "ACADEMY_SWITCH_SINGLE".
Definition ACADEMY_SWITCH_MULTI : Button := "ACADEMY_SWITCH_MULTI".
Definition NEONCITY_SWITCH_SINGLE : Button := "NEONCITY_SWITCH_SINGLE".
Definition NEONCITY_SWITCH_MULTI : Button := "NEONCITY_SWITCH_MULTI".
Definition FLEET_NOT_PREPARED : Button := "FLEET_NOT_PREPARED".
Definition EMPTY_FLAGSHIP : Button := "EMPTY_FLAGSHIP".
Definition EMPTY_VANGUARD : Button := "EMPTY_VANGUARD".
Definition BATTLE_PREPARATION : Button := "BATTLE_PREPARATION".

(** [str.lower()] on the ASCII letters. *)
Definition lower_ascii (c : ascii) : ascii :=
  let n := nat_of_ascii c in
  if Nat.leb 65 n && Nat.leb n 90 then ascii_of_nat (n + 32) else c.

Fixpoint lower (s : string) : string :=
  match s with
  | EmptyString => EmptyString
  | String c rest => String (lower_ascii c) (lower rest)
  end.

(** A dict keyed by [(event, stage)]. *)
Fixpoint lookup2 {V : Type} (event stage : string)
         (dic : list (string * string * V)) : option V :=
  match dic with
  | [] => None
  | (e, s, v) :: rest =>
      if String.eqb event e && String.eqb stage s then Some v
      else lookup2 event stage rest
  end.

(** [try: return dic[(event, stage)] except KeyError as e: logger.error(e);
    raise CampaignNameError]. *)
Definition dic_get {V : Type} (dic : list (string * string * V)) (event stage : string)
  : M V :=
  match lookup2 event stage dic with
  | Some v => ret v
  | None =>
      log (Error ("(" ++ quoted event ++ ", " ++ quoted stage ++ ")")) ;;
      raise CampaignNameError
  end.

Definition entrance_dic : list (string * string * Button) :=
  [ ("coalition_20230323", "tc1", FROSTFALL_TC1);
    ("coalition_20230323", "tc2", FROSTFALL_TC2);
    ("coalition_20230323", "tc3", FROSTFALL_TC3);
    ("coalition_20230323", "sp", FROSTFALL_SP);
    ("coalition_20230323", "ex", FROSTFALL_EX);
    ("coalition_20240627", "easy", ACADEMY_EASY);
    ("coalition_20240627", "normal", ACADEMY_NORMAL);
    ("coalition_20240627", "hard", ACADEMY_HARD);
    ("coalition_20240627", "sp", ACADEMY_SP);
    ("coalition_20240627", "ex", ACADEMY_EX);
    ("coalition_20250626", "easy", NEONCITY_EASY);
    ("coalition_20250626", "normal", NEONCITY_NORMAL);
    ("coalition_20250626", "hard", NEONCITY_HARD);
    ("coalition_20250626", "sp", NEONCITY_SP);
    ("coalition_20250626", "ex", NEONCITY_EX);
    ("coalition_20251120", "area1-normal", DAL_AREA1);
    ("coalition_20251120", "area2-normal", DAL_AREA2);
    ("coalition_20251120", "area3-normal", DAL_AREA3);
    ("coalition_20251120", "area4-normal", DAL_AREA4);
    ("coalition_20251120", "area5-normal", DAL_AREA5);
    ("coalition_20251120", "area6-normal", DAL_AREA6);
    ("coalition_20251120", "area1-hard", DAL_AREA1);
    ("coalition_20251120", "area2-hard", DAL_AREA2);
    ("coalition_20251120", "area3-hard", DAL_AREA3);
    ("coalition_20251120", "area4-hard", DAL_AREA4);
    ("coalition_20251120", "area5-hard", DAL_AREA5);
    ("coalition_20251120", "area6-hard", DAL_AREA6);
    ("coalition_20260122", "area1-normal", Light_Shadow_Fashion_AREA1);
    ("coalition_20260122", "area2-normal", Light_Shadow_Fashion_AREA2);
    ("coalition_20260122", "area3-normal", Light_Shadow_Fashion_AREA3);
    ("coalition_20260122", "area4-normal", Light_Shadow_Fashion_AREA4);
    ("coalition_20260122", "area5-normal", Light_Shadow_Fashion_AREA5);
    ("coalition_20260122", "area6-normal", Light_Shadow_Fashion_AREA6);
    ("coalition_20260122", "area1-hard", Light_Shadow_Fashion_AREA1);
    ("coalition_20260122", "area2-hard", Light_Shadow_Fashion_AREA2);
    ("coalition_20260122", "area3-hard", Light_Shadow_Fashion_AREA3);
    ("coalition_20260122", "area4-hard", Light_Shadow_Fashion_AREA4);
    ("coalition_20260122", "area5-hard", Light_Shadow_Fashion_AREA5);
    ("coalition_20260122", "area6-hard", Light_Shadow_Fashion_AREA6) ].

Definition coalition_get_entrance (event stage : string) : M Button :=
  dic_get entrance_dic event (lower stage).

Definition entrance_difficulty_dic : list (string * string * Button) :=
  [ ("coalition_20251120", "area1-normal", DAL_NORMAL);
    ("coalition_20251120", "area2-normal", DAL_NORMAL);
    ("coalition_20251120", "area3-normal", DAL_NORMAL);
    ("coalition_20251120", "area4-normal", DAL_NORMAL);
    ("coalition_20251120", "area5-normal", DAL_NORMAL);
    ("coalition_20251120", "area6-normal", DAL_NORMAL);
    ("coalition_20251120", "area1-hard", DAL_HARD);
    ("coalition_20251120", "area2-hard", DAL_HARD);
    ("coalition_20251120", "area3-hard", DAL_HARD);
    ("coalition_20251120", "area4-hard", DAL_HARD);
    ("coalition_20251120", "area5-hard", DAL_HARD);
    ("coalition_20251120", "area6-hard", DAL_HARD);
    ("coalition_20260122", "area1-normal", Light_Shadow_Fashion_NORMAL);
    ("coalition_20260122", "area2-normal", Light_Shadow_Fashion_NORMAL);
    ("coalition_20260122", "area3-normal", Light_Shadow_Fashion_NORMAL);
    ("coalition_20260122", "area4-normal", Light_Shadow_Fashion_NORMAL);
    ("coalition_20260122", "area5-normal", Light_Shadow_Fashion_NORMAL);
    ("coalition_20260122", "area6-normal", Light_Shadow_Fashion_NORMAL);
    ("coalition_20260122", "area1-hard", Light_Shadow_Fashion_HARD);
    ("coalition_20260122", "area2-hard", Light_Shadow_Fashion_HARD);
    ("coalition_20260122", "area3-hard", Light_Shadow_Fashion_HARD);
    ("coalition_20260122", "area4-hard", Light_Shadow_Fashion_HARD);
    ("coalition_20260122", "area5-hard", Light_Shadow_Fashion_HARD);
    ("coalition_20260122", "area6-hard", Light_Shadow_Fashion_HARD) ].

Definition coalition_20251120_get_entrance_difficulty (event stage : string) : M Button :=
  dic_get entrance_difficulty_dic event (lower stage).

Definition battles_dic : list (string * string * Z) :=
  [ ("coalition_20230323", "tc1", 1); ("coalition_20230323", "tc2", 2);
    ("coalition_20230323", "tc3", 3); ("coalition_20230323", "sp", 1);
    ("coalition_20230323", "ex", 1);
    ("coalition_20240627", "easy", 1); ("coalition_20240627", "normal", 2);
    ("coalition_20240627", "hard", 3); ("coalition_20240627", "sp", 4);
    ("coalition_20240627", "ex", 5);
    ("coalition_20250626", "easy", 1); ("coalition_20250626", "normal", 2);
    ("coalition_20250626", "hard", 3); ("coalition_20250626", "sp", 4);
    ("coalition_20250626", "ex", 5);
    ("coalition_20251120", "area1-normal", 2); ("coalition_20251120", "area2-normal", 3);
    ("coalition_20251120", "area3-normal", 3); ("coalition_20251120", "area4-normal", 3);
    ("coalition_20251120", "area5-normal", 3); ("coalition_20251120", "area6-normal", 4);
    ("coalition_20251120", "area1-hard", 2); ("coalition_20251120", "area2-hard", 3);
    ("coalition_20251120", "area3-hard", 3); ("coalition_20251120", "area4-hard", 3);
    ("coalition_20251120", "area5-hard", 3); ("coalition_20251120", "area6-hard", 4);
    ("coalition_20260122", "area1-normal", 2); ("coalition_20260122", "area2-normal", 3);
    ("coalition_20260122", "area3-normal", 3); ("coalition_20260122", "area4-normal", 3);
    ("coalition_20260122", "area5-normal", 3); ("coalition_20260122", "area6-normal", 4);
    ("coalition_20260122", "area1-hard", 2); ("coalition_20260122", "area2-hard", 3);
    ("coalition_20260122", "area3-hard", 3); ("coalition_20260122", "area4-hard", 3);
    ("coalition_20260122", "area5-hard", 3); ("coalition_20260122", "area6-hard", 4) ].

Definition coalition_get_battles (event stage : string) : M Z :=
  dic_get battles_dic event (lower stage).

Definition coalition_get_fleet_preparation (event : string) : M Button :=
  if String.eqb event "coalition_20230323" then ret FROSTFALL_FLEET_PREPARATION
  else if String.eqb event "coalition_20240627" then ret ACEDEMY_FLEET_PREPARATION
  else if String.eqb event "coalition_20250626" then ret NEONCITY_FLEET_PREPARATION
  else if String.eqb event "coalition_20251120" then ret DAL_FLEET_PREPARATION
  else if String.eqb event "coalition_20260122" then ret Light_Shadow_Fashion_PREPARATION
  else
    log (Error ("FLEET_PREPARATION is not defined in event " ++ event)) ;;
    raise ScriptError.

(** [fleet_switch = Switch('FleetMode', ...)] with its [add_state] calls;
    class [Switch] is not under src/, [set] is recorded as one event. *)
Definition coalition_ensure_fleet (event mode : string) : M unit :=
  fleet_switch <-
    (if String.eqb event "coalition_20230323" then
       ret [("single", FROSTFALL_SWITCH_SINGLE); ("multi", FROSTFALL_SWITCH_MULTI)]
     else if String.eqb event "coalition_20240627" then
       ret [("single", ACADEMY_SWITCH_SINGLE); ("multi", ACADEMY_SWITCH_MULTI)]
     else if String.eqb event "coalition_20250626" then
       ret [("single", NEONCITY_SWITCH_SINGLE); ("multi", NEONCITY_SWITCH_MULTI)]
     else if String.eqb event "coalition_20260122" then
       ret [("single", Light_Shadow_Fashion_SWITCH_SINGLE);
            ("multi", Light_Shadow_Fashion_SWITCH_MULTI)]
     else
       log (Error ("FLEET_SWITCH is not defined in event " ++ event)) ;;
       raise ScriptError) ;;
  if String.eqb mode "single" then emit (SwitchSet "FleetMode" "single")
  else if String.eqb mode "multi" then emit (SwitchSet "FleetMode" "multi")
  else log (Warning ("Unknown coalition fleet mode: " ++ mode)).

Definition handle_fleet_preparation (event stage mode : string) : M bool :=
  let stage := lower stage in
  if String.eqb event "coalition_20230323" && mem stage ["tc1"; "sp"] then ret false
  else if String.eqb event "coalition_20240627" && mem stage ["easy"; "sp"; "ex"]
  then ret false
  else if String.eqb event "coalition_20250626" && mem stage ["easy"; "sp"; "ex"]
  then ret false
  else
    coalition_ensure_fleet event mode ;;
    ret true.

(** The [(event, stage) -> Button] methods class [CoalitionUI] defines, by
    name; [self.<name>] on any other name fails the attribute lookup. *)
Definition coalition_ui_methods : list (string * (string -> string -> M Button)) :=
  [ ("coalition_get_entrance", coalition_get_entrance);
    ("coalition_20251120_get_entrance_difficulty",
     coalition_20251120_get_entrance_difficulty) ].

Definition call_method (method event stage : string) : M Button :=
  match lookup method coalition_ui_methods with
  | Some f => f event stage
  | None => raise (AttributeError method)
  end.

(** The local variables of [enter_map]'s loop. *)
Record EnterMap : Type := {
  campaign_timer : Timer.t;
  campaign_difficulty_timer : Timer.t;
  fleet_timer : Timer.t;
  campaign_click : Z;
  campaign_difficulty_click : Z;
  fleet_click : Z
}.

(** How one pass through a loop body ends: [continue] (or falling off the
    end of the body) with the updated locals, or [break]. *)
Inductive Flow (S : Type) : Type :=
| Continue (s : S)
| Break.
Arguments Continue {S} s.
Arguments Break {S}.

Definition str_of (b : option Button) : string :=
  match b with
  | Some n => n
  | None => "None"
  end.

Section Coalition.

Variable T : PageTable.

Definition in_coalition : M bool :=
  ui_page_appear T (page_coalition T) (Offset2 20 20) 0.

Definition in_coalition_20251120_difficulty_selection : M bool :=
  appear DAL_DIFFICULTY_EXIT (Offset2 20 20) 0.

Definition in_coalition_20260122_difficulty_selection : M bool :=
  appear Light_Shadow_Fashion_DIFFICULTY_EXIT (Offset2 20 20) 0.

(** [if timer.reached() and selection() and button_difficulty: click ...];
    the answer says whether the click was made. *)
Definition difficulty_click (selection : M bool) (button_difficulty : option Button)
           (timer : Timer.t) : M (bool * Timer.t) :=
  t <- clock ;;
  let '(due, timer) := Timer.reached t timer in
  sel <- (if due then selection else ret false) ;;
  match (if sel then button_difficulty else None) with
  | Some b =>
      click b ;;
      t' <- clock ;;
      ret (true, Timer.reset t' timer)
  | None => ret (false, timer)
  end.

Definition fleet_warning (b : Button) (msgs : list LogLine) (k : M (Flow EnterMap))
  : M (Flow EnterMap) :=
  a <- appear b (Offset2 20 20) 0 ;;
  if a then logs_all msgs ;; raise RequestHumanTakeover else k.

Definition interrupted (h : string) (s : EnterMap) (k : M (Flow EnterMap))
  : M (Flow EnterMap) :=
  a <- handle h ;;
  if a then ret (Continue s) else k.

Definition reset_campaign_timer (t : Z) (s : EnterMap) : EnterMap :=
  {| campaign_timer := Timer.reset t (campaign_timer s);
     campaign_difficulty_timer := campaign_difficulty_timer s;
     fleet_timer := fleet_timer s;
     campaign_click := campaign_click s;
     campaign_difficulty_click := campaign_difficulty_click s;
     fleet_click := fleet_click s |}.

(** The last test of the loop body: [if fleet_timer.reached() and
    self.appear(fleet_preparation, offset=(20, 50))]. *)
Definition fleet_preparation_step (event stage mode : string)
           (fleet_preparation : Button) (s : EnterMap) : M (Flow EnterMap) :=
  t2 <- clock ;;
  let '(fdue, ft) := Timer.reached t2 (fleet_timer s) in
  prep <- (if fdue then appear fleet_preparation (Offset2 20 50) 0 else ret false) ;;
  if prep then
    _ <- handle_fleet_preparation event stage mode ;;
    click fleet_preparation ;;
    t3 <- clock ;;
    ret (Continue {| campaign_timer := Timer.reset t3 (campaign_timer s);
                     campaign_difficulty_timer := campaign_difficulty_timer s;
                     fleet_timer := Timer.reset t3 ft;
                     campaign_click := campaign_click s;
                     campaign_difficulty_click := campaign_difficulty_click s;
                     fleet_click := fleet_click s + 1 |})
  else
    ret (Continue {| campaign_timer := campaign_timer s;
                     campaign_difficulty_timer := campaign_difficulty_timer s;
                     fleet_timer := ft;
                     campaign_click := campaign_click s;
                     campaign_difficulty_click := campaign_difficulty_click s;
                     fleet_click := fleet_click s |}).

(** One pass through the body of [enter_map]'s loop, after the
    screenshot. *)
Definition enter_map_tick (event stage mode : string) (button : Button)
           (button_difficulty : option Button) (fleet_preparation : Button)
           (s : EnterMap) : M (Flow EnterMap) :=
  if 5 <? campaign_click s then
    log (Critical ("Failed to enter " ++ button ++ ", too many click on " ++ button)) ;;
    log (Critical "Possible reason #1: You haven't cleared previous stage to unlock the stage.") ;;
    raise RequestHumanTakeover
  else if 5 <? campaign_difficulty_click s then
    log (Critical ("Failed to enter " ++ str_of button_difficulty
                   ++ ", too many click on " ++ str_of button_difficulty)) ;;
    log (Critical "Possible reason #1: The difficulty asset is not correct.") ;;
    raise RequestHumanTakeover
  else if 5 <? fleet_click s then
    log (Critical ("Failed to enter " ++ button ++ ", too many click on FLEET_PREPARATION")) ;;
    log (Critical "Possible reason #1: Your fleets haven't satisfied the stat restrictions of this stage.") ;;
    log (Critical "Possible reason #2: This stage can only be farmed once a day, but it's the second time that you are entering") ;;
    raise RequestHumanTakeover
  else
  fleet_warning FLEET_NOT_PREPARED
    [Critical "FLEET_NOT_PREPARED";
     Critical "Please prepare you fleets before running coalition battles"] (
  fleet_warning EMPTY_FLAGSHIP
    [Critical "EMPTY_FLAGSHIP, Please prepare you fleets before running coalition battles"] (
  fleet_warning EMPTY_VANGUARD
    [Critical "EMPTY_VANGUARD, Please prepare you fleets before running coalition battles"] (
  fleet_warning Light_Shadow_Fashion_FLEET_NOT_PREPARED
    [Critical "Light_Shadow_Fashion_FLEET_NOT_PREPARED";
     Critical "Please prepare you fleets before running coalition battles"] (
  fleet_warning Light_Shadow_Fashion_EMPTY_FLAGSHIP
    [Critical "EMPTY_FLAGSHIP, Please prepare you fleets before running coalition battles"] (
  fleet_warning Light_Shadow_Fashion_EMPTY_VANGUARD
    [Critical "Light_Shadow_Fashion_EMPTY_VANGUARD, Please prepare you fleets before running coalition battles"] (
  arrived <- appear BATTLE_PREPARATION (Offset2 20 20) 0 ;;
  if arrived then ret Break
  else
  interrupted "handle_guild_popup_cancel" s (
  t0 <- clock ;;
  interrupted "handle_auto_search_continue" (reset_campaign_timer t0 s) (
  interrupted "handle_retirement" s (
  interrupted "handle_combat_low_emotion" s (
  interrupted "handle_urgent_commission" s (
  interrupted "handle_story_skip" (reset_campaign_timer t0 s) (
  interrupted "handle_combat_automation_confirm" s (
  let '(due, ct) := Timer.reached t0 (campaign_timer s) in
  inside <- (if due then in_coalition else ret false) ;;
  if inside then
    click button ;;
    t1 <- clock ;;
    ret (Continue {| campaign_timer := Timer.reset t1 ct;
                     campaign_difficulty_timer := campaign_difficulty_timer s;
                     fleet_timer := fleet_timer s;
                     campaign_click := campaign_click s + 1;
                     campaign_difficulty_click := campaign_difficulty_click s;
                     fleet_click := fleet_click s |})
  else
  r1 <- (if String.eqb event "coalition_20251120" then
           difficulty_click in_coalition_20251120_difficulty_selection
                            button_difficulty (campaign_difficulty_timer s)
         else ret (false, campaign_difficulty_timer s)) ;;
  let '(clicked1, dt1) := r1 in
  if clicked1 then
    ret (Continue {| campaign_timer := ct;
                     campaign_difficulty_timer := dt1;
                     fleet_timer := fleet_timer s;
                     campaign_click := campaign_click s;
                     campaign_difficulty_click := campaign_difficulty_click s + 1;
                     fleet_click := fleet_click s |})
  else
  r2 <- (if String.eqb event "coalition_20260122" then
           difficulty_click in_coalition_20260122_difficulty_selection
                            button_difficulty dt1
         else ret (false, dt1)) ;;
  let '(clicked2, dt2) := r2 in
  if clicked2 then
    ret (Continue {| campaign_timer := ct;
                     campaign_difficulty_timer := dt2;
                     fleet_timer := fleet_timer s;
                     campaign_click := campaign_click s;
                     campaign_difficulty_click := campaign_difficulty_click s + 1;
                     fleet_click := fleet_click s |})
  else
  fleet_preparation_step event stage mode fleet_preparation
    {| campaign_timer := ct;
       campaign_difficulty_timer := dt2;
       fleet_timer := fleet_timer s;
       campaign_click := campaign_click s;
       campaign_difficulty_click := campaign_difficulty_click s;
       fleet_click := fleet_click s |}
  ))))))))))))).

Fixpoint enter_map_loop (fuel : nat) (event stage mode : string) (button : Button)
         (button_difficulty : option Button) (fleet_preparation : Button)
         (skip_first_screenshot : bool) (s : EnterMap) : M unit :=
  match fuel with
  | O => starve
  | S fuel' =>
      (if skip_first_screenshot then ret tt else screenshot) ;;
      r <- enter_map_tick event stage mode button button_difficulty fleet_preparation s ;;
      match r with
      | Break => ret tt
      | Continue s' =>
          enter_map_loop fuel' event stage mode button button_difficulty
                         fleet_preparation false s'
      end
  end.

Definition enter_map_init : EnterMap :=
  {| campaign_timer := Timer.new 5000 0;
     campaign_difficulty_timer := Timer.new 5000 0;
     fleet_timer := Timer.new 5000 0;
     campaign_click := 0;
     campaign_difficulty_click := 0;
     fleet_click := 0 |}.

Definition enter_map (fuel : nat) (event stage mode : string)
           (skip_first_screenshot : bool) : M unit :=
  button <- call_method "coalition_get_entrance" event stage ;;
  button_difficulty <-
    (if String.eqb event "coalition_20251120" then
       b <- call_method "coalition_20251120_get_entrance_difficulty" event stage ;;
       ret (Some b)
     else ret None) ;;
  button <- call_method "coalition_get_entrance" event stage ;;
  button_difficulty <-
    (if String.eqb event "coalition_20260122" then
       b <- call_method "coalition_20260122_get_entrance_difficulty" event stage ;;
       ret (Some b)
     else ret None) ;;
  fleet_preparation <- coalition_get_fleet_preparation event ;;
  enter_map_loop fuel event stage mode button button_difficulty fleet_preparation
                 skip_first_screenshot enter_map_init.

End Coalition.

(** ** Scenarios *)

(** A frame taken at time [t] on which exactly the buttons [bs] match and
    no inherited handler has anything to do. *)
Definition view (t : Z) (bs : list Button) : Frame :=
  {| now := t;
     matches := fun b _ _ => mem b bs;
     recheck_ok := fun _ _ => true;
     match_luma := fun _ _ => false;
     handler := fun _ => false;
     app_is_running := true |}.

Definition adb_config : Config :=
  {| Emulator_ScreenshotMethod := "ADB";
     Emulator_ControlMethod := "ADB";
     SERVER := "cn" |}.

(** A fresh instance looking at [f], with the screenshots [rest] to come. *)
Definition boot (f : Frame) (rest : list Frame) : World :=
  {| image := f; has_cached_image := true; pending := rest;
     events := []; logs := [];
     opsi_reset_fleet_preparation_click := 0;
     parent := no_parent; ui_current := None; config := adb_config |}.

(** The page graph of the spec's scenario, Main - Event - StageList, with
    the white main page and the coalition page beside it. *)
Definition demo_main : Page :=
  {| name := "page_main"; check_button := Some "MAIN_CHECK";
     links := [("page_event", "MAIN_GOTO_EVENT")] |}.
Definition demo_main_white : Page :=
  {| name := "page_main_white"; check_button := Some "MAIN_CHECK_WHITE";
     links := [("page_event", "MAIN_GOTO_EVENT_WHITE")] |}.
Definition demo_event : Page :=
  {| name := "page_event"; check_button := Some "EVENT_CHECK";
     links := [("page_main", GOTO_MAIN); ("page_stage", "EVENT_GOTO_STAGE")] |}.
Definition demo_stage : Page :=
  {| name := "page_stage"; check_button := Some "STAGE_CHECK";
     links := [("page_event", BACK_ARROW)] |}.
Definition demo_coalition : Page :=
  {| name := "page_coalition"; check_button := Some "COALITION_CHECK";
     links := [("page_main", GOTO_MAIN)] |}.
Definition demo : PageTable :=
  {| iter_pages := [demo_main; demo_main_white; demo_event; demo_stage; demo_coalition];
     page_main := demo_main;
     page_main_white := demo_main_white;
     page_coalition := demo_coalition |}.

(** The same view at each of the times [ts]. *)
Definition views (ts : list Z) (bs : list Button) : list Frame :=
  map (fun t => view t bs) ts.

(** ** Specification-side definitions *)

(** What [ui_page_appear] answers on a frame. *)
Definition check_on (page : Page) (off : Offset) (interval : Z) (f : Frame)
  : Outcome bool :=
  match check_button page with
  | Some b => Ret (appear_on f b off 85 interval)
  | None => Raise (AttributeError "name")
  end.

Definition page_appears (T : PageTable) (page : Page) (off : Offset) (interval : Z)
           (f : Frame) : Outcome bool :=
  if page_eqb page (page_main T) then
    match check_on (page_main_white T) off interval f with
    | Ret true => Ret true
    | Ret false =>
        match check_on (page_main T) (Offset2 5 5) interval f with
        | Ret true => Ret true
        | Ret false => Ret false
        | other => other
        end
    | other => other
    end
  else check_on page off interval f.


(** The six assets whose presence makes [enter_map] give up at once. *)
Definition fleet_warnings : list Button :=
  [ FLEET_NOT_PREPARED; EMPTY_FLAGSHIP; EMPTY_VANGUARD;
    Light_Shadow_Fashion_FLEET_NOT_PREPARED; Light_Shadow_Fashion_EMPTY_FLAGSHIP;
    Light_Shadow_Fashion_EMPTY_VANGUARD ].

Definition fleet_warning_on (f : Frame) : bool :=
  existsb (fun b => appear_on f b (Offset2 20 20) 85 0) fleet_warnings.

Definition within_budget (s : EnterMap) : Prop :=
  campaign_click s <= 5 /\ campaign_difficulty_click s <= 5 /\ fleet_click s <= 5.

(** How the three click counters move in one pass. *)
Definition counters_moved (s s' : EnterMap) (dc dd df : Z) : Prop :=
  campaign_click s' = campaign_click s + dc
  /\ campaign_difficulty_click s' = campaign_difficulty_click s + dd
  /\ fleet_click s' = fleet_click s + df.

(** Everything one pass through [enter_map]'s loop body can do: how it
    ends, and the events it adds. *)
Inductive tick_effect (event stage mode : string) (button : Button)
          (bd : option Button) (fp : Button) (s : EnterMap) (f : Frame)
  : Outcome (Flow EnterMap) -> list Event -> Prop :=
| tick_budget :
    ~ within_budget s ->
    tick_effect event stage mode button bd fp s f (Raise RequestHumanTakeover) []
| tick_warning :
    within_budget s -> fleet_warning_on f = true ->
    tick_effect event stage mode button bd fp s f (Raise RequestHumanTakeover) []
| tick_error e :
    within_budget s -> e <> RequestHumanTakeover ->
    tick_effect event stage mode button bd fp s f (Raise e) []
| tick_break :
    within_budget s ->
    tick_effect event stage mode button bd fp s f (Ret Break) []
| tick_idle s' :
    within_budget s -> counters_moved s s' 0 0 0 ->
    tick_effect event stage mode button bd fp s f (Ret (Continue s')) []
| tick_handled h s' :
    within_budget s -> counters_moved s s' 0 0 0 ->
    tick_effect event stage mode button bd fp s f (Ret (Continue s')) [Handled h]
| tick_campaign s' :
    within_budget s -> counters_moved s s' 1 0 0 ->
    tick_effect event stage mode button bd fp s f (Ret (Continue s')) [Click button]
| tick_difficulty b s' :
    within_budget s -> bd = Some b -> counters_moved s s' 0 1 0 ->
    tick_effect event stage mode button bd fp s f (Ret (Continue s')) [Click b]
| tick_fleet hs s' wa wb :
    within_budget s -> counters_moved s s' 0 0 1 ->
    fst (handle_fleet_preparation event stage mode wa) = Ret wb ->
    clicks hs = 0 ->
    tick_effect event stage mode button bd fp s f (Ret (Continue s')) (hs ++ [Click fp]).

(** [w'] shows the same screen as [w] and has the events [es] more. *)
Definition adds (w w' : World) (es : list Event) : Prop :=
  image w' = image w /\ pending w' = pending w /\ events w' = (events w ++ es)%list.

(** The click account of a run of [enter_map]'s loop without a difficulty
    button: [c] and [f] are the final values of [campaign_click] and
    [fleet_click]. *)
Definition click_account (event stage mode : string) (button fp : Button)
           (s0 : EnterMap) (w0 : World) (c f : Z) (r : Outcome unit) (w' : World)
  : Prop :=
  campaign_click s0 <= c <= 6 /\ fleet_click s0 <= f <= 6
  /\ clicks_of button (events w') = clicks_of button (events w0) + (c - campaign_click s0)
  /\ clicks_of fp (events w') = clicks_of fp (events w0) + (f - fleet_click s0)
  /\ (forall b, b <> button -> b <> fp ->
                clicks_of b (events w') = clicks_of b (events w0))
  /\ (r = Raise RequestHumanTakeover -> fleet_warning_on (image w') = false ->
      c = 6 \/ f = 6)
  /\ ((forall wa wb, fst (handle_fleet_preparation event stage mode wa) <> Ret wb) ->
      f = fleet_click s0).

(** The values [coalition_get_fleet_preparation] can return. *)
Definition fleet_preparation_buttons : list Button :=
  [ FROSTFALL_FLEET_PREPARATION; ACEDEMY_FLEET_PREPARATION; NEONCITY_FLEET_PREPARATION;
    DAL_FLEET_PREPARATION; Light_Shadow_Fashion_PREPARATION ].


(** ** The interrupt chain, as the spec describes it *)

(** An interrupt rule: a predicate on the current frame and an action. *)
Record InterruptRule : Type := {
  predicate : Frame -> bool;
  action : M unit
}.

(** [runOnce] of the spec: the rules are tried in declaration order, the
    action of the first rule whose predicate holds is executed and the chain
    answers [true] at once; it answers [false] when no predicate holds. *)
Fixpoint run_once (rules : list InterruptRule) : M bool :=
  match rules with
  | [] => ret false
  | r :: rest =>
      f <- frame ;;
      if predicate r f then action r ;; ret true else run_once rest
  end.

(** [if self.appear_then_click(b, offset, interval): return True] *)
Definition click_rule (b : Button) (off : Offset) (interval : Z) : InterruptRule :=
  {| predicate := fun f => appear_on f b off 85 interval;
     action := click b |}.

(** [if self.appear(seen, offset, interval): self.device.click(target);
    return True] *)
Definition see_click_rule (seen : Button) (off : Offset) (interval : Z) (target : Button)
  : InterruptRule :=
  {| predicate := fun f => appear_on f seen off 85 interval;
     action := click target |}.

(** [if self.appear(seen, ..., interval): if self.appear_then_click(target,
    offset=(30, 30)): return True]: the rule fires when both are there. *)
Definition see_then_click_rule (seen : Button) (interval : Z) (target : Button)
  : InterruptRule :=
  {| predicate := fun f => appear_on f seen (Offset2 30 30) 85 interval
                           && appear_on f target (Offset2 30 30) 85 0;
     action := click target |}.

(** [if self.handle_...(): return True] *)
Definition handler_rule (h : string) : InterruptRule :=
  {| predicate := fun f => handler f h;
     action := emit (Handled h) |}.

Definition ui_page_os_popups_rules : list InterruptRule :=
  [ click_rule RESET_TICKET_POPUP (Offset2 30 30) 3000;
    {| predicate := fun f => appear_on f RESET_FLEET_PREPARATION (Offset2 30 30) 85 3000;
       action := click RESET_FLEET_PREPARATION ;;
                 opsi_click_incr ;;
                 interval_reset FLEET_PREPARATION ;;
                 interval_reset RESET_TICKET_POPUP |};
    {| predicate := fun f => appear_on f EXCHANGE_CHECK (Offset2 30 30) 85 3000;
       action := emit (ClearOffset GOTO_MAIN) ;; click GOTO_MAIN |} ].

Definition ui_page_main_popups_rules (get_ship : bool) : list InterruptRule :=
  [ handler_rule "handle_guild_popup_cancel";
    click_rule LOGIN_ANNOUNCE (Offset2 30 30) 3000;
    click_rule LOGIN_ANNOUNCE_2 (Offset2 30 30) 3000;
    click_rule GET_ITEMS_1 OffsetTrue 3000;
    click_rule GET_ITEMS_2 OffsetTrue 3000;
    {| predicate := fun f => get_ship && appear_on f GET_SHIP OffsetZero 85 5000;
       action := click GET_SHIP |};
    click_rule LOGIN_RETURN_SIGN (Offset2 30 30) 3000;
    see_then_click_rule EVENT_LIST_CHECK 5000 GOTO_MAIN;
    click_rule MONTHLY_PASS_NOTICE (Offset2 30 30) 3000;
    click_rule BATTLE_PASS_NOTICE (Offset2 30 30) 3000;
    see_click_rule BATTLE_PASS_NEW_SEASON (Offset2 30 30) 3000 BACK_ARROW;
    handler_rule "handle_popup_single(ITEM_EXPIRED)";
    handler_rule "handle_popup_single_white";
    see_then_click_rule SHIPYARD_CHECK 5000 GOTO_MAIN;
    see_then_click_rule META_CHECK 5000 GOTO_MAIN;
    see_then_click_rule PLAYER_CHECK 3000 GOTO_MAIN;
    see_then_click_rule PLAYER_CHECK 3000 BACK_ARROW ].

Definition idle_rule (b : Button) : InterruptRule :=
  {| predicate := fun f => recheck_ok f IDLE 3000 && match_luma f b (Offset2 5 5);
     action := click REWARD_GOTO_MAIN ;; interval_reset IDLE |}.

(** The rules of [ui_additional] before its WITHDRAW step... *)
Definition rules_before_withdraw (get_ship : bool) : list InterruptRule :=
  ui_page_os_popups_rules
  ++ [ handler_rule "handle_popup_confirm(UI_ADDITIONAL)";
       handler_rule "handle_urgent_commission" ]
  ++ ui_page_main_popups_rules get_ship
  ++ [ handler_rule "handle_story_skip";
       see_click_rule GAME_TIPS (Offset2 30 30) 2000 GOTO_MAIN;
       {| predicate := fun f => appear_on f DORM_INFO (Offset2 30 30) 75 3000;
          action := click DORM_INFO |};
       click_rule DORM_FEED_CANCEL (Offset2 30 30) 3000;
       click_rule DORM_TROPHY_CONFIRM (Offset2 30 30) 3000;
       {| predicate := fun f => appear_on f MEOWFFICER_INFO (Offset2 30 30) 85 3000;
          action := click MEOWFFICER_INFO ;; interval_reset GET_SHIP |};
       {| predicate := fun f => appear_on f MEOWFFICER_BUY (Offset2 30 30) 85 3000;
          action := click BACK_ARROW ;; interval_reset GET_SHIP |};
       {| predicate := fun f => appear_on f MAP_PREPARATION (Offset2 30 30) 85 3000
                                || appear_on f FLEET_PREPARATION (Offset2 20 50) 85 3000
                                || appear_on f RAID_FLEET_PREPARATION (Offset2 30 30) 85 3000;
          action := click MAP_PREPARATION_CANCEL |};
       click_rule AUTO_SEARCH_MENU_EXIT (Offset2 200 30) 3000;
       click_rule AUTO_SEARCH_REWARD (Offset2 50 50) 3000 ].

(** ... and after it. *)
Definition rules_after_withdraw : list InterruptRule :=
  [ click_rule LOGIN_CHECK (Offset2 30 30) 3000;
    click_rule MAINTENANCE_ANNOUNCE (Offset2 30 30) 3000;
    see_click_rule EXERCISE_PREPARATION OffsetZero 3000 GOTO_MAIN;
    click_rule DAL_DIFFICULTY_EXIT (Offset2 20 20) 3000;
    idle_rule IDLE;
    idle_rule IDLE_2;
    idle_rule IDLE_3;
    see_click_rule MAIN_GOTO_MEMORIES_WHITE OffsetZero 3000 MAIN_TAB_SWITCH_WHITE ].

(** The rules of [ui_additional] in declaration order, the WITHDRAW step
    left out. *)
Definition ui_additional_rules (get_ship : bool) : list InterruptRule :=
  rules_before_withdraw get_ship ++ rules_after_withdraw.

(** The predicate of the WITHDRAW step. *)
Definition withdraw_seen (f : Frame) : bool :=
  appear_on f WITHDRAW (Offset2 30 30) 85 3000.

(** ** The OpSi click counter *)


(** The worlds reachable from [w0] by interrupt activity: screenshots and
    calls of [ui_additional], however each call ends. *)
Inductive interrupt_activity (w0 : World) : World -> Prop :=
| activity_start : interrupt_activity w0 w0
| activity_screenshot w w' :
    interrupt_activity w0 w -> screenshot w = (Ret tt, w') ->
    interrupt_activity w0 w'
| activity_additional get_ship w r w' :
    interrupt_activity w0 w -> ui_additional get_ship w = (r, w') ->
    interrupt_activity w0 w'.

(** What the interrupt chain never writes: the configuration, the page
    graph's [parent] pointers and [ui_current]. *)
Definition quiet (w w' : World) : Prop :=
  config w' = config w /\ parent w' = parent w /\ ui_current w' = ui_current w.

(** What the scan of [ui_get_current_page] finds on a frame: the first
    declared page with a check button that appears. *)
Fixpoint identify (T : PageTable) (ps : list Page) (f : Frame) : Outcome (option Page) :=
  match ps with
  | [] => Ret None
  | page :: rest =>
      match check_button page with
      | None => identify T rest f
      | Some _ =>
          match page_appears T page (Offset2 30 30) 0 f with
          | Ret true => Ret (Some page)
          | Ret false => identify T rest f
          | Raise e => Raise e
          | Starved => Starved
          end
      end
  end.

(** How a run of [ui_get_current_page]'s loop can end: with a page, which
    is then [ui_current], or in an exception; GamePageUnknownError comes
    with the diagnostic dump as the last lines of the log. *)
Definition identified (T : PageTable) (r : Outcome Page) (w' : World) : Prop :=
  match r with
  | Ret p =>
      ui_current w' = Some (name p) /\ In p (iter_pages T)
      /\ page_appears T p (Offset2 30 30) 0 (image w') = Ret true
  | Raise e =>
      e = GamePageUnknownError ->
      exists ls, logs w' = (ls ++ unknown_page_dump T (config w'))%list
  | Starved => True
  end.

(** A frame on which [ui_get_current_page] recognises nothing: no declared
    page, none of the three go-home buttons, nothing for the interrupt chain,
    and the game is running. *)
Definition unrecognised (T : PageTable) (f : Frame) : Prop :=
  identify T (iter_pages T) f = Ret None
  /\ appear_on f GOTO_MAIN (Offset2 30 30) 85 2000 = false
  /\ appear_on f GOTO_MAIN_WHITE (Offset2 30 30) 85 2000 = false
  /\ appear_on f RPG_HOME (Offset2 30 30) 85 2000 = false
  /\ withdraw_seen f = false
  /\ (forall q, In q (ui_additional_rules true) -> predicate q f = false)
  /\ app_is_running f = true.

(** The screenshots a loop looks at, in order: the cached one first when the
    first screenshot is skipped. *)
Definition frames_to_see (skip_first_screenshot : bool) (w : World) : list Frame :=
  if skip_first_screenshot && has_cached_image w then image w :: pending w
  else pending w.

(** The times 0, 500, 1000, ... of [n] screenshots half a second apart. *)
Definition half_seconds (n : nat) : list Z :=
  map (fun k => Z.of_nat k * 500) (seq 0 n).


(** ** The confirmation window of [ui_click] *)

(** The screenshots [ui_click]'s loop looks at, in order. *)
Definition frames_from (skip_first_screenshot : bool) (w : World) : list Frame :=
  if skip_first_screenshot then image w :: pending w else pending w.

(** [check_button] is a condition [cond] on the current frame. *)
Definition observes (check : CheckButton) (off : Offset) (cond : Frame -> bool) : Prop :=
  forall w, ui_process_check_button check off w = (Ret (cond (image w)), w).










(** ** More of class [UI] *)

(** [str(n)] for an integer. *)
Definition str_of_int (n : Z) : string := NilZero.string_of_int (Z.to_int n).

(** [links[page]] of a page: a dict keyed by page, KeyError when [page] is
    not linked. *)
Definition link_to (source page : Page) : M Button :=
  match lookup (name page) (links source) with
  | Some button => ret button
  | None => raise KeyError
  end.

Section MoreUI.

Variable T : PageTable.

Definition ui_main_appear_then_click (page : Page) (off : Offset) (interval : Z) : M bool :=
  a <- appear_check (page_main T) off interval ;;
  if a then
    button <- link_to (page_main T) page ;;
    click button ;;
    ret true
  else
    b <- appear_check (page_main_white T) (Offset2 5 5) interval ;;
    if b then
      button <- link_to (page_main_white T) page ;;
      click button ;;
      ret true
    else ret false.

End MoreUI.

(** [self.device.multi_click(button, n, interval)]: class [Device] is not
    under src/; the call is recorded as [n] clicks of the button, the pauses
    between them are not. *)
Definition multi_click (button : Button) (n : Z) (interval : Z * Z) : M unit :=
  emits (repeat (Click button) (Z.to_nat n)).

(** The loop of [ui_ensure_index]; [letter] reads the index off the current
    screenshot ([letter.ocr(image)] or [letter(image)]). *)
Fixpoint ui_ensure_index_loop (fuel : nat) (index : Z) (letter : Frame -> Z)
         (next_button prev_button : Button) (skip_first_screenshot fast : bool)
         (interval : Z * Z) (retry : Timer.t) : M unit :=
  match fuel with
  | O => starve
  | S fuel' =>
      (if skip_first_screenshot then ret tt else screenshot) ;;
      f <- frame ;;
      let current := letter f in
      log (Attr "Index" (str_of_int current)) ;;
      let diff := index - current in
      if diff =? 0 then ret tt
      else
        t <- clock ;;
        let '(due, retry) := Timer.reached t retry in
        if due then
          let button := if 0 <? diff then next_button else prev_button in
          (if fast then multi_click button (Z.abs diff) interval else click button) ;;
          t' <- clock ;;
          ui_ensure_index_loop fuel' index letter next_button prev_button false fast
                               interval (Timer.reset t' retry)
        else
          ui_ensure_index_loop fuel' index letter next_button prev_button false fast
                               interval retry
  end.

Definition ui_ensure_index (fuel : nat) (index : Z) (letter : Frame -> Z)
           (next_button prev_button : Button) (skip_first_screenshot fast : bool)
           (interval : Z * Z) : M unit :=
  ui_ensure_index_loop fuel index letter next_button prev_button skip_first_screenshot
                       fast interval (Timer.new 1000 2).

(** ** More of class [CoalitionUI] *)

Definition FROSTFALL_MODE_STORY : Button := "FROSTFALL_MODE_STORY".
Definition FROSTFALL_MODE_BATTLE : Button := "FROSTFALL_MODE_BATTLE".
Definition ACADEMY_MODE_STORY : Button := "ACADEMY_MODE_STORY".
Definition ACADEMY_MODE_BATTLE : Button := "ACADEMY_MODE_BATTLE".
Definition NEONCITY_MODE_STORY : Button := "NEONCITY_MODE_STORY".
Definition NEONCITY_MODE_BATTLE : Button := "NEONCITY_MODE_BATTLE".
Definition NEONCITY_PREPARATION_EXIT : Button := "NEONCITY_PREPARATION_EXIT".
Definition Light_Shadow_Fashion_EXIT : Button := "Light_Shadow_Fashion_EXIT".

(** Class [Switch] of [module/ui/switch.py] is not under src/: a switch is
    the data its constructor and its [add_state] calls give it, and [set]
    is recorded as one event. *)
Inductive SwitchClass : Type :=
| PlainSwitch
| NeoncitySwitch.

Record Switch : Type := {
  switch_class : SwitchClass;
  switch_name : string;
  is_selector : bool;
  switch_offset : Offset;
  state_list : list (string * Button)
}.

Definition new_switch (class : SwitchClass) (name : string) (is_selector : bool)
           (offset : Offset) : Switch :=
  {| switch_class := class; switch_name := name; is_selector := is_selector;
     switch_offset := offset; state_list := [] |}.

Definition add_state (state : string) (check_button : Button) (sw : Switch) : Switch :=
  {| switch_class := switch_class sw; switch_name := switch_name sw;
     is_selector := is_selector sw; switch_offset := switch_offset sw;
     state_list := (state_list sw ++ [(state, check_button)])%list |}.

Definition switch_set (state : string) (sw : Switch) : M unit :=
  emit (SwitchSet (switch_name sw) state).

Definition coalition_ensure_mode (event mode : string) : M unit :=
  mode_switch <-
    (if String.eqb event "coalition_20230323" then
       ret (Some (add_state "battle" FROSTFALL_MODE_BATTLE
                 (add_state "story" FROSTFALL_MODE_STORY
                 (new_switch PlainSwitch "CoalitionMode" false (Offset2 20 20)))))
     else if String.eqb event "coalition_20240627" then
       ret (Some (add_state "battle" ACADEMY_MODE_STORY
                 (add_state "story" ACADEMY_MODE_BATTLE
                 (new_switch PlainSwitch "CoalitionMode" false (Offset2 20 20)))))
     else if String.eqb event "coalition_20250626" then
       ret (Some (add_state "battle" NEONCITY_MODE_BATTLE
                 (add_state "story" NEONCITY_MODE_STORY
                 (new_switch NeoncitySwitch "CoalitionMode" false (Offset2 20 20)))))
     else if String.eqb event "coalition_20260122" then
       ret (Some (add_state "battle" NEONCITY_MODE_BATTLE
                 (add_state "story" NEONCITY_MODE_STORY
                 (new_switch NeoncitySwitch "CoalitionMode" false (Offset2 20 20)))))
     else if String.eqb event "coalition_20251120" then ret None
     else
       log (Error ("MODE_SWITCH is not defined in event " ++ event)) ;;
       raise ScriptError) ;;
  match mode_switch with
  | None => ret tt
  | Some mode_switch =>
      if String.eqb mode "story" then switch_set "story" mode_switch
      else if String.eqb mode "battle" then switch_set "battle" mode_switch
      else log (Warning ("Unknown coalition campaign mode: " ++ mode))
  end.

Section CoalitionExit.

Variable T : PageTable.

(** The loop of [coalition_map_exit].  [ModuleBase.loop()] is not under
    src/: [for _ in self.loop()] runs the body once per screenshot, and
    with [skip_first] the first pass reuses the screenshot at hand. *)
Fixpoint coalition_map_exit_loop (fuel : nat) (fleet_preparation : Button)
         (skip_first : bool) : M unit :=
  match fuel with
  | O => starve
  | S fuel' =>
      (if skip_first then ret tt else screenshot) ;;
      a <- in_coalition T ;;
      if a then ret tt
      else
        b <- is_in_main T (Offset2 30 30) 0 ;;
        if b then ret tt
        else
          c <- appear BATTLE_PREPARATION (Offset2 20 20) 3000 ;;
          if c then
            click BACK_ARROW ;;
            coalition_map_exit_loop fuel' fleet_preparation false
          else
            d <- appear fleet_preparation (Offset2 20 20) 3000 ;;
            if d then
              click NEONCITY_PREPARATION_EXIT ;;
              coalition_map_exit_loop fuel' fleet_preparation false
            else
              e <- appear_then_click DAL_DIFFICULTY_EXIT (Offset2 20 20) 3000 ;;
              if e then coalition_map_exit_loop fuel' fleet_preparation false
              else
                _ <- appear_then_click Light_Shadow_Fashion_EXIT (Offset2 20 20) 3000 ;;
                coalition_map_exit_loop fuel' fleet_preparation false
  end.

Definition coalition_map_exit (fuel : nat) (event : string) : M unit :=
  fleet_preparation <- coalition_get_fleet_preparation event ;;
  coalition_map_exit_loop fuel fleet_preparation true.

End CoalitionExit.

(** ** What [ui_click] clicks *)

(** A callable that answers without raising, without taking a screenshot
    and without clicking. *)
Definition silent (m : M bool) : Prop :=
  forall w, exists b w' es, m w = (Ret b, w') /\ adds w w' es /\ clicks es = 0.

Definition silent_trigger (a : AppearButton) : Prop :=
  match a with
  | AppearSingle _ => True
  | AppearCallable f => silent f
  end.

Definition silent_appear_button (appear_button : option AppearButton) : Prop :=
  match appear_button with
  | Some a => silent_trigger a
  | None => True
  end.

Definition silent_hook (additional : option (M bool)) : Prop :=
  match additional with
  | Some hook => silent hook
  | None => True
  end.

(** All the screenshots [frames] were taken within [span] of each other. *)
Definition taken_within (span : Z) (frames : list Frame) : Prop :=
  forall g g', In g frames -> In g' frames -> now g' - now g <= span.

(** ** The game-running check of [ui_get_current_page] *)

(** A frame with nothing for [ui_get_current_page] to act on: no declared
    page, none of the three go-home buttons, nothing for the interrupt
    chain.  Whether the game is running is left open. *)
Definition nothing_to_do (T : PageTable) (f : Frame) : Prop :=
  identify T (iter_pages T) f = Ret None
  /\ appear_on f GOTO_MAIN (Offset2 30 30) 85 2000 = false
  /\ appear_on f GOTO_MAIN_WHITE (Offset2 30 30) 85 2000 = false
  /\ appear_on f RPG_HOME (Offset2 30 30) 85 2000 = false
  /\ withdraw_seen f = false
  /\ (forall q, In q (ui_additional_rules true) -> predicate q f = false).

(** A blank frame taken at time [t] while the game is not running. *)
Definition dead_view (t : Z) : Frame :=
  {| now := t;
     matches := fun _ _ _ => false;
     recheck_ok := fun _ _ => true;
     match_luma := fun _ _ => false;
     handler := fun _ => false;
     app_is_running := false |}.

(** ** The loop of [enter_map], event by event *)

(** The inherited handlers [enter_map] calls, in the order of its loop. *)
Definition enter_map_handlers : list string :=
  [ "handle_guild_popup_cancel"; "handle_auto_search_continue"; "handle_retirement";
    "handle_combat_low_emotion"; "handle_urgent_commission"; "handle_story_skip";
    "handle_combat_automation_confirm" ].

(** The device calls of [enter_map]: a screenshot, a click on the entrance
    or on the fleet preparation button, a call of one of the inherited
    handlers, and [fleet_switch.set] with one of its two states. *)
Definition enter_map_event (button fp : Button) (e : Event) : bool :=
  match e with
  | Screenshot => true
  | Click b => String.eqb b button || String.eqb b fp
  | Handled h => mem h enter_map_handlers
  | SwitchSet switch state =>
      String.eqb switch "FleetMode" && mem state ["single"; "multi"]
  | _ => false
  end.

Definition enter_map_events (button fp : Button) (w w' : World) : Prop :=
  exists es, events w' = (events w ++ es)%list
             /\ forallb (enter_map_event button fp) es = true.

(** What the locals of the loop keep from pass to pass for event
    coalition_20251120: the fleet timer is never reset, and
    [campaign_click] counts the clicks on the entrance. *)
Definition kept_20251120 (button : Button) (s : EnterMap) (w : World) (s' : EnterMap)
           (w' : World) : Prop :=
  campaign_click s' - campaign_click s
  = clicks_of button (events w') - clicks_of button (events w)
  /\ campaign_difficulty_click s' = campaign_difficulty_click s
  /\ fleet_click s' = fleet_click s
  /\ Timer.current (fleet_timer s') = Timer.current (fleet_timer s)
  /\ Timer.count (fleet_timer s') = Timer.count (fleet_timer s)
  /\ Timer.reach_count (fleet_timer s) <= Timer.reach_count (fleet_timer s').
(** * Properties *)

(** ** Monad steps *)

Lemma bind_ret {A B} (a : A) (k : A -> M B) (w : World) :
  bind (ret a) k w = k a w.
Proof. reflexivity. Qed.

Lemma bind_raise {A B} (e : Exn) (k : A -> M B) (w : World) :
  bind (raise e) k w = (Raise e, w).
Proof. reflexivity. Qed.

Lemma string_eqb_refl (s : string) : String.eqb s s = true.
Proof. apply String.eqb_refl. Qed.

(** ** Event coalition_20260122 *)

Lemma dic_get_some {V} (dic : list (string * string * V)) event stage v w :
  lookup2 event stage dic = Some v -> dic_get dic event stage w = (Ret v, w).
Proof. intros H. unfold dic_get. rewrite H. reflexivity. Qed.

Lemma dic_get_none {V} (dic : list (string * string * V)) event stage w :
  lookup2 event stage dic = None ->
  dic_get dic event stage w =
  (Raise CampaignNameError,
   with_logs (logs w ++ [Error ("(" ++ quoted event ++ ", " ++ quoted stage ++ ")")]) w).
Proof. intros H. unfold dic_get. rewrite H. reflexivity. Qed.

Lemma call_get_entrance (event stage : string) (w : World) :
  call_method "coalition_get_entrance" event stage w =
  dic_get entrance_dic event (lower stage) w.
Proof. reflexivity. Qed.

Lemma call_get_entrance_difficulty (event stage : string) (w : World) :
  call_method "coalition_20251120_get_entrance_difficulty" event stage w =
  dic_get entrance_difficulty_dic event (lower stage) w.
Proof. reflexivity. Qed.

Lemma call_missing_20260122 (event stage : string) (w : World) :
  call_method "coalition_20260122_get_entrance_difficulty" event stage w =
  (Raise (AttributeError "coalition_20260122_get_entrance_difficulty"), w).
Proof. reflexivity. Qed.

(** C10 (as amended).  For event coalition_20260122 every call to
    [enter_map] fails before the loop and before any click.  When the stage
    has an entrance for the event, the failure is the attribute lookup of
    [coalition_20260122_get_entrance_difficulty], which the class does not
    define; for any other stage [coalition_get_entrance] raises
    CampaignNameError first and the missing method is never looked up. *)
Theorem enter_map_20260122_fails_before_loop :
  forall (T : PageTable) (fuel : nat) (stage mode : string) (skip : bool) (w : World),
    match lookup2 "coalition_20260122" (lower stage) entrance_dic with
    | Some _ =>
        enter_map T fuel "coalition_20260122" stage mode skip w =
        (Raise (AttributeError "coalition_20260122_get_entrance_difficulty"), w)
    | None =>
        fst (enter_map T fuel "coalition_20260122" stage mode skip w) =
        Raise CampaignNameError
        /\ events (snd (enter_map T fuel "coalition_20260122" stage mode skip w)) =
           events w
    end.
Proof.
  intros T fuel stage mode skip w.
  unfold enter_map, bind.
  rewrite call_get_entrance.
  destruct (lookup2 "coalition_20260122" (lower stage) entrance_dic) as [b|] eqn:E.
  - rewrite (dic_get_some _ _ _ _ w E).
    cbn [String.eqb Ascii.eqb Bool.eqb ret].
    rewrite call_get_entrance, (dic_get_some _ _ _ _ w E).
    rewrite call_missing_20260122. reflexivity.
  - rewrite (dic_get_none _ _ _ w E). split; reflexivity.
Qed.

(** C10: the claim as stated fails for a stage that has no entrance: the
    call ends in CampaignNameError, not in an attribute-lookup error. *)
Lemma enter_map_20260122_unknown_stage :
  fst (enter_map demo 10 "coalition_20260122" "bogus" "single" true
                 (boot (view 0 ["COALITION_CHECK"]) []))
  = Raise CampaignNameError
  /\ fst (enter_map demo 10 "coalition_20260122" "bogus" "single" true
                    (boot (view 0 ["COALITION_CHECK"]) []))
     <> Raise (AttributeError "coalition_20260122_get_entrance_difficulty").
Proof. split; [reflexivity | discriminate]. Qed.

(** ** Perception does not change the world *)

Lemma appear_eq (b : Button) (off : Offset) (interval : Z) (w : World) :
  appear b off interval w = (Ret (appear_on (image w) b off 85 interval), w).
Proof. reflexivity. Qed.

Lemma appear_check_eq (page : Page) (off : Offset) (interval : Z) (w : World) :
  appear_check page off interval w = (check_on page off interval (image w), w).
Proof.
  unfold appear_check, check_on. destruct (check_button page); reflexivity.
Qed.

Lemma ui_page_appear_eq (T : PageTable) (page : Page) (off : Offset) (interval : Z)
      (w : World) :
  ui_page_appear T page off interval w = (page_appears T page off interval (image w), w).
Proof.
  unfold ui_page_appear, page_appears.
  destruct (page_eqb page (page_main T)).
  - unfold or_else, bind. rewrite appear_check_eq.
    destruct (check_on (page_main_white T) off interval (image w)) as [[|]| |];
      try reflexivity.
    rewrite appear_check_eq.
    destruct (check_on (page_main T) (Offset2 5 5) interval (image w)) as [[|]| |];
      reflexivity.
  - apply appear_check_eq.
Qed.

Lemma check_on_not_starved (page : Page) (off : Offset) (interval : Z) (f : Frame) :
  check_on page off interval f <> Starved.
Proof. unfold check_on. destruct (check_button page); discriminate. Qed.

Lemma page_appears_not_starved (T : PageTable) (page : Page) (off : Offset)
      (interval : Z) (f : Frame) :
  page_appears T page off interval f <> Starved.
Proof.
  unfold page_appears. destruct (page_eqb page (page_main T)).
  - destruct (check_on (page_main_white T) off interval f) as [[|]| |] eqn:E1;
      try discriminate.
    + destruct (check_on (page_main T) (Offset2 5 5) interval f) as [[|]| |] eqn:E2;
        try discriminate.
      exfalso. exact (check_on_not_starved _ _ _ _ E2).
    + exfalso. exact (check_on_not_starved _ _ _ _ E1).
  - apply check_on_not_starved.
Qed.

Lemma page_appears_raise (T : PageTable) (page : Page) (off : Offset)
      (interval : Z) (f : Frame) (e : Exn) :
  page_appears T page off interval f = Raise e -> e = AttributeError "name".
Proof.
  assert (C : forall p o, check_on p o interval f = Raise e -> e = AttributeError "name").
  { intros p o. unfold check_on. destruct (check_button p); congruence. }
  unfold page_appears. destruct (page_eqb page (page_main T)).
  - destruct (check_on (page_main_white T) off interval f) as [[|]| |] eqn:E1;
      try discriminate.
    + destruct (check_on (page_main T) (Offset2 5 5) interval f) as [[|]| |] eqn:E2;
        try discriminate.
      intros H. injection H as <-. exact (C _ _ E2).
    + intros H. injection H as <-. exact (C _ _ E1).
  - apply C.
Qed.

(** ** One pass through [enter_map]'s loop *)

Lemma clicks_nil : clicks [] = 0.
Proof. reflexivity. Qed.

Lemma adds_nil (w : World) : adds w w [].
Proof. unfold adds. rewrite app_nil_r. auto. Qed.

Ltac split_head H :=
  match type of H with
  | context [if ?c then _ else _] =>
      lazymatch c with
      | context [if _ then _ else _] => fail
      | _ => destruct c eqn:?; cbv beta iota in H
      end
  end.

Ltac world_simpl :=
  cbn [image pending events logs parent opsi_reset_fleet_preparation_click ui_current
       has_cached_image config with_events with_logs with_image with_parent
       with_opsi_click with_ui_current].

Ltac conclude H := injection H as <- <-; world_simpl.

Lemma coalition_ensure_fleet_effect (event mode : string) (w : World)
      (r : Outcome unit) (w' : World) :
  coalition_ensure_fleet event mode w = (r, w') ->
  r <> Starved
  /\ exists hs, adds w w' hs /\ clicks hs = 0
                /\ (forall e, r = Raise e -> hs = [] /\ e = ScriptError).
Proof.
  intros H.
  cbv beta iota delta [coalition_ensure_fleet bind ret emit log raise] in H.
  repeat (split_head H;
          [ repeat (split_head H;
                    [ conclude H; split; [discriminate|]; eexists [_];
                      split; [unfold adds; world_simpl; auto|];
                      split; [reflexivity | discriminate] | ]);
            conclude H; split; [discriminate|]; exists [];
            split; [unfold adds; world_simpl; rewrite app_nil_r; auto|];
            split; [reflexivity | discriminate] | ]).
  conclude H. split; [discriminate|]. exists [].
  split; [unfold adds; world_simpl; rewrite app_nil_r; auto|].
  split; [reflexivity|]. intros e [= <-]. auto.
Qed.

Lemma handle_fleet_preparation_effect (event stage mode : string) (w : World)
      (r : Outcome bool) (w' : World) :
  handle_fleet_preparation event stage mode w = (r, w') ->
  r <> Starved
  /\ exists hs, adds w w' hs /\ clicks hs = 0
                /\ (forall e, r = Raise e -> hs = [] /\ e = ScriptError).
Proof.
  intros H. unfold handle_fleet_preparation in H.
  repeat (split_head H;
          [ conclude H; split; [discriminate|]; exists []; split; [apply adds_nil|];
            split; [reflexivity | discriminate] | ]).
  unfold bind in H.
  destruct (coalition_ensure_fleet event mode w) as [r0 w0] eqn:E.
  apply coalition_ensure_fleet_effect in E. destruct E as (NS & hs & A & C & R).
  destruct r0 as [[]|e|].
  - conclude H. split; [discriminate|]. exists hs.
    split; [exact A|]. split; [exact C|]. discriminate.
  - conclude H. split; [discriminate|]. exists hs.
    split; [exact A|]. split; [exact C|]. intros e' [= <-]. exact (R e eq_refl).
  - congruence.
Qed.

Lemma in_coalition_eq (T : PageTable) (w : World) :
  in_coalition T w = (page_appears T (page_coalition T) (Offset2 20 20) 0 (image w), w).
Proof. apply ui_page_appear_eq. Qed.

Lemma difficulty_click_effect (sel : M bool) (bd : option Button) (tm : Timer.t)
      (w : World) :
  (forall w0, exists a, sel w0 = (Ret a, w0)) ->
  (exists tm', difficulty_click sel bd tm w = (Ret (false, tm'), w))
  \/ (exists b tm', bd = Some b
                    /\ difficulty_click sel bd tm w =
                       (Ret (true, tm'), with_events (events w ++ [Click b]) w)).
Proof.
  intros P.
  cbv beta iota delta [difficulty_click bind clock ret click emit Timer.reached].
  destruct (Timer.window_over _ _ && _); cbv beta iota.
  - destruct (P w) as [a ->]. destruct a; cbv beta iota.
    + destruct bd as [b|].
      * right. eexists _, _. split; reflexivity.
      * left. eexists. reflexivity.
    + left. eexists. reflexivity.
  - left. eexists. reflexivity.
Qed.

Lemma fleet_preparation_step_effect (event stage mode : string) (fp : Button)
      (s : EnterMap) (w : World) (r : Outcome (Flow EnterMap)) (w' : World) :
  fleet_preparation_step event stage mode fp s w = (r, w') ->
  (exists s', r = Ret (Continue s') /\ counters_moved s s' 0 0 0 /\ adds w w' [])
  \/ (exists s' hs wa wb,
        r = Ret (Continue s') /\ counters_moved s s' 0 0 1
        /\ fst (handle_fleet_preparation event stage mode wa) = Ret wb
        /\ clicks hs = 0 /\ adds w w' (hs ++ [Click fp]))
  \/ (r = Raise ScriptError /\ adds w w' []).
Proof.
  intros H.
  cbv beta iota delta [fleet_preparation_step bind clock ret appear appear_sim frame
                       click emit Timer.reached] in H.
  split_head H.
  - split_head H.
    + destruct (handle_fleet_preparation event stage mode w) as [r0 w0] eqn:E.
      pose proof (handle_fleet_preparation_effect _ _ _ _ _ _ E) as (NS & hs & A & C & R).
      destruct r0 as [b|e|]; [| |congruence].
      * conclude H. right; left. eexists _, hs, w, b. 
        split; [reflexivity|]. split; [repeat split; cbn; lia|].
        split; [rewrite E; reflexivity|]. split; [exact C|].
        destruct A as (A1 & A2 & A3). unfold adds. world_simpl.
        rewrite A3, app_assoc. auto.
      * conclude H. destruct (R e eq_refl) as [-> ->].
        right; right. split; [reflexivity | exact A].
    + conclude H. left. eexists. split; [reflexivity|].
      split; [repeat split; cbn; lia | apply adds_nil].
  - conclude H. left. eexists. split; [reflexivity|].
    split; [repeat split; cbn; lia | apply adds_nil].
Qed.

Ltac adds_refl := unfold adds; world_simpl; repeat split; reflexivity.

Ltac adds_tac := unfold adds; world_simpl; rewrite ?app_nil_r; auto.

Ltac second_block H F B :=
  split_head H;
  [ match type of H with
    | context [difficulty_click ?sel ?b0 ?tm ?w0] =>
        destruct (difficulty_click_effect sel b0 tm w0)
          as [[? ?] | (? & ? & -> & ?)];
        [ intros; eexists; reflexivity | | ]
    end;
    match goal with
    | E : difficulty_click _ _ _ _ = _ |- _ =>
        rewrite E in H; clear E; cbv beta iota in H
    end;
    [ eapply F; [| exact H]; repeat split; cbn; lia
    | conclude H; eexists; split; [adds_refl|];
      eapply tick_difficulty; [exact B | reflexivity | repeat split; cbn; lia] ]
  | eapply F; [| exact H]; repeat split; cbn; lia ].

Lemma enter_map_tick_effect (T : PageTable) (event stage mode : string) (button : Button)
      (bd : option Button) (fp : Button) (s : EnterMap) (w : World)
      (r : Outcome (Flow EnterMap)) (w' : World) :
  enter_map_tick T event stage mode button bd fp s w = (r, w') ->
  exists es, adds w w' es
             /\ tick_effect event stage mode button bd fp s (image w) r es.
Proof.
  intros H. unfold enter_map_tick in H.
  cbv beta iota delta [fleet_warning bind appear appear_sim frame ret interrupted handle
    emit clock click raise log logs_all Timer.reached
    in_coalition_20251120_difficulty_selection
    in_coalition_20260122_difficulty_selection] in H.
  destruct (5 <? campaign_click s) eqn:G1.
  { conclude H. exists []. split; [adds_tac|].
    apply tick_budget. unfold within_budget. apply Z.ltb_lt in G1. lia. }
  destruct (5 <? campaign_difficulty_click s) eqn:G2.
  { conclude H. exists []. split; [adds_tac|].
    apply tick_budget. unfold within_budget. apply Z.ltb_lt in G2. lia. }
  destruct (5 <? fleet_click s) eqn:G3.
  { conclude H. exists []. split; [adds_tac|].
    apply tick_budget. unfold within_budget. apply Z.ltb_lt in G3. lia. }
  assert (B : within_budget s).
  { unfold within_budget. apply Z.ltb_ge in G1, G2, G3. lia. }
  clear G1 G2 G3.
  (* the six fleet warnings *)
  do 6 (split_head H;
        [ conclude H; exists []; split; [adds_tac|];
          apply tick_warning; [exact B|];
          unfold fleet_warning_on, fleet_warnings; cbn [existsb];
          repeat match goal with E : appear_on _ _ _ _ _ = _ |- _ => rewrite E; clear E end;
          rewrite ?orb_true_r; reflexivity | ]).
  (* BATTLE_PREPARATION *)
  split_head H.
  { conclude H. exists []. split; [adds_tac|]. apply tick_break; exact B. }
  (* the seven inherited handlers *)
  do 7 (split_head H;
        [ conclude H; eexists; split; [adds_refl|];
          apply tick_handled; [exact B | repeat split; cbn; lia] | ]).
  (* the stage entrance *)
  match type of H with
  | context [(if ?c then in_coalition T else ?g) w] =>
      replace ((if c then in_coalition T else g) w)
        with ((if c then page_appears T (page_coalition T) (Offset2 20 20) 0 (image w)
               else Ret false), w) in H
        by (destruct c; [rewrite in_coalition_eq|]; reflexivity);
      destruct (if c then page_appears T (page_coalition T) (Offset2 20 20) 0 (image w)
                else Ret false) as [[|]|e|] eqn:P
  end.
  - conclude H. eexists. split; [adds_refl|].
    apply tick_campaign; [exact B | repeat split; cbn; lia].
  - cbv beta iota in H.
    assert (F : forall s0 : EnterMap,
               counters_moved s s0 0 0 0 ->
               fleet_preparation_step event stage mode fp s0 w = (r, w') ->
               exists es, adds w w' es
                          /\ tick_effect event stage mode button bd fp s (image w) r es).
    { intros s0 (C1 & C2 & C3) E.
      destruct (fleet_preparation_step_effect _ _ _ _ _ _ _ _ E)
        as [(s' & -> & (D1 & D2 & D3) & A)
           | [(s' & hs & wa & wb & -> & (D1 & D2 & D3) & HF & C & A)
             | (-> & A)]].
      - exists []. split; [exact A|]. apply tick_idle; [exact B|]. repeat split; lia.
      - exists (hs ++ [Click fp])%list. split; [exact A|].
        apply tick_fleet with (wa := wa) (wb := wb); auto. repeat split; lia.
      - exists []. split; [exact A|]. apply tick_error; [exact B | discriminate]. }
    split_head H.
    + match type of H with
      | context [difficulty_click ?sel ?b0 ?tm ?w0] =>
          destruct (difficulty_click_effect sel b0 tm w0)
            as [[tm1 E] | (b1 & tm1 & -> & E)];
          [ intros; eexists; reflexivity | | ]
      end.
      * rewrite E in H. cbv beta iota in H. second_block H F B.
      * rewrite E in H. cbv beta iota in H.
        conclude H. eexists. split; [adds_refl|].
        eapply tick_difficulty; [exact B | reflexivity | repeat split; cbn; lia].
    + second_block H F B.
  - conclude H. exists []. split; [adds_tac|].
    apply tick_error; [exact B|].
    match type of P with
    | (if ?c then _ else _) = _ => destruct c; [|discriminate]
    end.
    rewrite (page_appears_raise _ _ _ _ _ _ P). discriminate.
  - exfalso.
    match type of P with
    | (if ?c then _ else _) = _ => destruct c; [|discriminate]
    end.
    exact (page_appears_not_starved _ _ _ _ _ P).
Qed.

(** ** Counting clicks *)

Lemma clicks_of_app (b : Button) (es es' : list Event) :
  clicks_of b (es ++ es') = clicks_of b es + clicks_of b es'.
Proof.
  unfold clicks_of. rewrite filter_app, length_app. lia.
Qed.

Lemma clicks_app (es es' : list Event) :
  clicks (es ++ es') = clicks es + clicks es'.
Proof.
  unfold clicks. rewrite filter_app, length_app. lia.
Qed.

Lemma clicks_of_nonneg (b : Button) (es : list Event) : 0 <= clicks_of b es.
Proof. unfold clicks_of. lia. Qed.

Lemma clicks_of_le_clicks (b : Button) (es : list Event) :
  clicks_of b es <= clicks es.
Proof.
  unfold clicks_of, clicks. induction es as [|e es IH]; [reflexivity|].
  cbn [filter]. destruct e; cbn [is_click is_any_click]; try exact IH.
  destruct (String.eqb b b0); cbn [List.length]; lia.
Qed.

Lemma clicks_of_none (b : Button) (es : list Event) :
  clicks es = 0 -> clicks_of b es = 0.
Proof.
  intros H. pose proof (clicks_of_le_clicks b es). pose proof (clicks_of_nonneg b es). lia.
Qed.

Lemma clicks_of_click_same (b : Button) : clicks_of b [Click b] = 1.
Proof. unfold clicks_of. cbn. rewrite String.eqb_refl. reflexivity. Qed.

Lemma clicks_of_click_other (b b' : Button) : b <> b' -> clicks_of b [Click b'] = 0.
Proof.
  intros H. unfold clicks_of. cbn.
  destruct (String.eqb_spec b b'); [contradiction | reflexivity].
Qed.

(** ** The loop of [enter_map] *)

Section EnterMapLoop.

Variable T : PageTable.
Variables event stage mode : string.
Variables button fp : Button.
Variable bd : option Button.
Variable I : EnterMap -> World -> Prop.
Variable Q : Outcome unit -> World -> Prop.

Hypothesis I_screenshot :
  forall s w f rest,
    I s w -> pending w = f :: rest ->
    I s (with_image f rest (with_events (events w ++ [Screenshot]) w)).
Hypothesis I_continue :
  forall s w s' w',
    I s w ->
    enter_map_tick T event stage mode button bd fp s w = (Ret (Continue s'), w') ->
    I s' w'.
Hypothesis Q_break :
  forall s w w',
    I s w -> enter_map_tick T event stage mode button bd fp s w = (Ret Break, w') ->
    Q (Ret tt) w'.
Hypothesis Q_raise :
  forall s w e w',
    I s w -> enter_map_tick T event stage mode button bd fp s w = (Raise e, w') ->
    Q (Raise e) w'.
Hypothesis Q_starved : forall s w, I s w -> Q Starved w.

Lemma enter_map_loop_rule (fuel : nat) :
  forall (skip : bool) (s : EnterMap) (w : World) (r : Outcome unit) (w' : World),
    I s w ->
    enter_map_loop T fuel event stage mode button bd fp skip s w = (r, w') ->
    Q r w'.
Proof.
  induction fuel as [|fuel IH]; intros skip s w r w' HI H.
  - injection H as <- <-. apply (Q_starved s w HI).
  - cbn [enter_map_loop] in H.
    assert (Step : forall w1, I s w1 ->
              (r0 <- enter_map_tick T event stage mode button bd fp s ;;
               match r0 with
               | Continue s' =>
                   enter_map_loop T fuel event stage mode button bd fp false s'
               | Break => ret tt
               end) w1 = (r, w') -> Q r w').
    { intros w1 H1 E1. unfold bind in E1.
      destruct (enter_map_tick T event stage mode button bd fp s w1) as [r0 w2] eqn:E.
      destruct r0 as [[s'|]|e|].
      - exact (IH _ _ _ _ _ (I_continue _ _ _ _ H1 E) E1).
      - injection E1 as <- <-. exact (Q_break _ _ _ H1 E).
      - injection E1 as <- <-. exact (Q_raise _ _ _ _ H1 E).
      - exfalso. destruct (enter_map_tick_effect _ _ _ _ _ _ _ _ _ _ _ E) as (es & _ & TE).
        inversion TE. }
    unfold bind at 1 in H.
    destruct skip.
    + cbn [ret] in H. exact (Step w HI H).
    + destruct (screenshot w) as [r1 w1] eqn:S. unfold screenshot in S.
      destruct (pending w) as [|f rest] eqn:P; injection S as <- <-.
      * injection H as <- <-. apply (Q_starved s w HI).
      * apply (Step _ (I_screenshot _ _ _ _ HI P) H).
Qed.

End EnterMapLoop.

Lemma enter_map_loop_clicks (T : PageTable) (event stage mode : string)
      (button fp : Button) (fuel : nat) (skip : bool) (s0 : EnterMap) (w0 : World)
      (r : Outcome unit) (w' : World) :
  button <> fp ->
  campaign_click s0 <= 6 -> fleet_click s0 <= 6 -> campaign_difficulty_click s0 <= 5 ->
  enter_map_loop T fuel event stage mode button None fp skip s0 w0 = (r, w') ->
  exists c f, click_account event stage mode button fp s0 w0 c f r w'.
Proof.
  intros Hne Hc Hf Hd H.
  set (I := fun (s : EnterMap) (w : World) =>
              campaign_difficulty_click s = campaign_difficulty_click s0
              /\ click_account event stage mode button fp s0 w0
                               (campaign_click s) (fleet_click s) (Ret tt) w).
  set (Q := fun (r : Outcome unit) (w : World) =>
              exists c f, click_account event stage mode button fp s0 w0 c f r w).
  assert (I0 : I s0 w0).
  { split; [reflexivity|]. unfold click_account. repeat split; try lia; auto; discriminate. }
  refine (enter_map_loop_rule T event stage mode button fp None I Q _ _ _ _ _
                              fuel skip s0 w0 r w' I0 H).
  - (* screenshot *)
    intros s w f rest (D & A1 & A2 & A3 & A4 & A5 & A6 & A7) P.
    split; [exact D|]. unfold click_account. world_simpl.
    rewrite !clicks_of_app.
    assert (Z0 : forall b, clicks_of b [Screenshot] = 0) by reflexivity.
    rewrite !Z0, !Z.add_0_r.
    repeat split; try lia; auto; try discriminate.
    intros b N1 N2. rewrite clicks_of_app, Z0, Z.add_0_r. auto.
  - (* continue *)
    intros s w s' w1 (D & A1 & A2 & A3 & A4 & A5 & A6 & A7) E.
    destruct (enter_map_tick_effect _ _ _ _ _ _ _ _ _ _ _ E) as (es & (_ & _ & Ev) & TE).
    unfold I, click_account. rewrite Ev.
    inversion TE as [ | | | | s1 B (C1 & C2 & C3) | h s1 B (C1 & C2 & C3)
                      | s1 B (C1 & C2 & C3) | b s1 B Hb (C1 & C2 & C3)
                      | hs s1 wa wb B (C1 & C2 & C3) HF HC ]; subst.
    + rewrite app_nil_r. repeat split; try lia; auto; try discriminate.
      intros N. specialize (A7 N). lia.
    + assert (Z0 : forall b, clicks_of b [Handled h] = 0) by reflexivity.
      rewrite !clicks_of_app, !Z0.
      repeat split; try lia; auto; try discriminate.
      * intros b N1 N2. rewrite clicks_of_app, Z0, Z.add_0_r. auto.
      * intros N. specialize (A7 N). lia.
    + destruct B as (B1 & B2 & B3).
      rewrite !clicks_of_app, clicks_of_click_same,
        (clicks_of_click_other fp button) by congruence.
      repeat split; try lia; auto; try discriminate.
      * intros b N1 N2. rewrite clicks_of_app, (clicks_of_click_other b button) by auto.
        rewrite Z.add_0_r. auto.
      * intros N. specialize (A7 N). lia.
    + discriminate.
    + destruct B as (B1 & B2 & B3).
      rewrite !clicks_of_app, clicks_of_click_same,
        (clicks_of_click_other button fp), !(clicks_of_none _ hs) by auto.
      repeat split; try lia; auto; try discriminate.
      * intros b N1 N2.
        rewrite !clicks_of_app, (clicks_of_click_other b fp), (clicks_of_none _ hs) by auto.
        rewrite !Z.add_0_r. auto.
      * intros N. exfalso. exact (N wa wb HF).
  - (* break *)
    intros s w w1 (D & A) E.
    destruct (enter_map_tick_effect _ _ _ _ _ _ _ _ _ _ _ E) as (es & (Im & _ & Ev) & TE).
    inversion TE; subst. exists (campaign_click s), (fleet_click s).
    unfold click_account in *. rewrite Ev, app_nil_r, Im. exact A.
  - (* raise *)
    intros s w e w1 (D & A1 & A2 & A3 & A4 & A5 & A6 & A7) E.
    destruct (enter_map_tick_effect _ _ _ _ _ _ _ _ _ _ _ E) as (es & (Im & _ & Ev) & TE).
    exists (campaign_click s), (fleet_click s).
    unfold click_account. rewrite Ev, Im.
    inversion TE as [ NB | B W | e1 B Ne | | | | | | ]; subst; rewrite app_nil_r.
    + repeat split; try lia; auto.
      intros _ _. unfold within_budget in NB. lia.
    + repeat split; try lia; auto. intros _ W'. congruence.
    + repeat split; try lia; auto. intros R. congruence.
  - (* starved *)
    intros s w (D & A1 & A2 & A3 & A4 & A5 & A6 & A7).
    exists (campaign_click s), (fleet_click s).
    unfold click_account. repeat split; try lia; auto. discriminate.
Qed.

(** ** The tables of [CoalitionUI] *)

Lemma lookup2_in {V : Type} (event stage : string) (dic : list (string * string * V))
      (v : V) :
  lookup2 event stage dic = Some v -> In (event, stage, v) dic.
Proof.
  induction dic as [|[[e s] v0] dic IH]; [discriminate|].
  cbn [lookup2].
  destruct (String.eqb_spec event e) as [->|]; cbn [andb].
  - destruct (String.eqb_spec stage s) as [->|].
    + intros [= ->]. left. reflexivity.
    + intros H. right. auto.
  - intros H. right. auto.
Qed.

Lemma coalition_get_fleet_preparation_cases (event : string) (w : World) :
  (exists fp, In fp fleet_preparation_buttons
              /\ coalition_get_fleet_preparation event w = (Ret fp, w))
  \/ coalition_get_fleet_preparation event w =
     (Raise ScriptError,
      with_logs (logs w ++ [Error ("FLEET_PREPARATION is not defined in event " ++ event)]) w).
Proof.
  unfold coalition_get_fleet_preparation, fleet_preparation_buttons.
  repeat match goal with
         | |- context [if ?c then _ else _] =>
             destruct c; [left; eexists; split; [|reflexivity]; cbn; tauto|]
         end.
  right. reflexivity.
Qed.

Lemma entrance_is_not_fleet_preparation (event stage : string) (button fp : Button) :
  lookup2 event stage entrance_dic = Some button ->
  In fp fleet_preparation_buttons ->
  button <> fp.
Proof.
  intros H F.
  assert (B : In button (map snd entrance_dic)).
  { apply lookup2_in in H. apply (in_map snd) in H. exact H. }
  assert (D : forallb (fun b => forallb (fun p => negb (String.eqb b p))
                                        fleet_preparation_buttons)
                      (map snd entrance_dic) = true) by reflexivity.
  rewrite forallb_forall in D. specialize (D _ B).
  rewrite forallb_forall in D. specialize (D _ F).
  intros ->. rewrite String.eqb_refl in D. discriminate.
Qed.

Lemma entrance_is_not_difficulty (event stage : string) (button b : Button) :
  lookup2 event stage entrance_dic = Some button ->
  In b [DAL_NORMAL; DAL_HARD] ->
  b <> button.
Proof.
  intros H F.
  assert (B : In button (map snd entrance_dic)).
  { apply lookup2_in in H. apply (in_map snd) in H. exact H. }
  assert (D : forallb (fun x => forallb (fun p => negb (String.eqb x p))
                                        [DAL_NORMAL; DAL_HARD])
                      (map snd entrance_dic) = true) by reflexivity.
  rewrite forallb_forall in D. specialize (D _ B).
  rewrite forallb_forall in D. specialize (D _ F).
  intros ->. rewrite String.eqb_refl in D. discriminate.
Qed.

Lemma difficulty_defined_20251120 (stage : string) (button : Button) :
  lookup2 "coalition_20251120" stage entrance_dic = Some button ->
  exists d, lookup2 "coalition_20251120" stage entrance_difficulty_dic = Some d.
Proof.
  intros H. apply lookup2_in in H. unfold entrance_dic in H. cbn [In] in H.
  repeat (destruct H as [H|H];
          [ try discriminate H; inversion H; subst; eexists; reflexivity | ]).
  contradiction.
Qed.

(** ** Runs of [enter_map] *)

Lemma enter_map_cases (T : PageTable) (fuel : nat) (event stage mode : string)
      (skip : bool) (w : World) (r : Outcome unit) (w' : World) :
  enter_map T fuel event stage mode skip w = (r, w') ->
  (exists e, r = Raise e /\ e <> RequestHumanTakeover
             /\ events w' = events w /\ image w' = image w)
  \/ (exists button fp,
        lookup2 event (lower stage) entrance_dic = Some button
        /\ In fp fleet_preparation_buttons
        /\ coalition_get_fleet_preparation event w = (Ret fp, w)
        /\ String.eqb event "coalition_20260122" = false
        /\ enter_map_loop T fuel event stage mode button None fp skip enter_map_init w
           = (r, w')).
Proof.
  intros H. unfold enter_map, bind in H. rewrite call_get_entrance in H.
  destruct (lookup2 event (lower stage) entrance_dic) as [button|] eqn:E.
  2:{ rewrite (dic_get_none _ _ _ w E) in H. conclude H.
      left. eexists. repeat split; discriminate. }
  rewrite (dic_get_some _ _ _ _ w E) in H.
  assert (H2 : (let (o, w'0) :=
                  (if String.eqb event "coalition_20260122"
                   then b <- call_method "coalition_20260122_get_entrance_difficulty"
                                         event stage ;; ret (Some b)
                   else ret None) w in
                match o with
                | Ret a =>
                    (let (o0, w'1) := coalition_get_fleet_preparation event w'0 in
                     match o0 with
                     | Ret a0 =>
                         enter_map_loop T fuel event stage mode button a a0 skip
                                        enter_map_init w'1
                     | Raise e => (Raise e, w'1)
                     | Starved => (Starved, w'1)
                     end)
                | Raise e => (Raise e, w'0)
                | Starved => (Starved, w'0)
                end) = (r, w')
               \/ exists e, r = Raise e /\ e <> RequestHumanTakeover
                            /\ events w' = events w /\ image w' = image w).
  { destruct (String.eqb event "coalition_20251120").
    - unfold bind in H. rewrite call_get_entrance_difficulty in H.
      destruct (lookup2 event (lower stage) entrance_difficulty_dic) as [d|] eqn:D.
      + rewrite (dic_get_some _ _ _ _ w D) in H. cbn [ret] in H.
        rewrite call_get_entrance, (dic_get_some _ _ _ _ w E) in H. left. exact H.
      + rewrite (dic_get_none _ _ _ w D) in H. conclude H.
        right. eexists. repeat split; discriminate.
    - cbn [ret] in H.
      rewrite call_get_entrance, (dic_get_some _ _ _ _ w E) in H. left. exact H. }
  clear H. destruct H2 as [H|H]; [|left; exact H].
  destruct (String.eqb event "coalition_20260122") eqn:E26.
  { unfold bind in H. rewrite call_missing_20260122 in H. conclude H.
    left. eexists. repeat split; discriminate. }
  cbn [ret] in H.
  destruct (coalition_get_fleet_preparation_cases event w) as [(fp & F & G) | G];
    rewrite G in H.
  - right. exists button, fp. auto.
  - conclude H. left. eexists. repeat split; discriminate.
Qed.


(** ** Event coalition_20251120 *)

Lemma handle_fleet_preparation_20251120 (stage mode : string) (w : World) :
  handle_fleet_preparation "coalition_20251120" stage mode w =
  (Raise ScriptError,
   with_logs (logs w ++ [Error "FLEET_SWITCH is not defined in event coalition_20251120"]) w).
Proof. reflexivity. Qed.

Lemma enter_map_20251120_loop (T : PageTable) (fuel : nat) (stage mode : string)
      (skip : bool) (w : World) (button : Button) :
  lookup2 "coalition_20251120" (lower stage) entrance_dic = Some button ->
  enter_map T fuel "coalition_20251120" stage mode skip w =
  enter_map_loop T fuel "coalition_20251120" stage mode button None DAL_FLEET_PREPARATION
                 skip enter_map_init w.
Proof.
  intros E. destruct (difficulty_defined_20251120 _ _ E) as [d D].
  unfold enter_map, bind.
  rewrite call_get_entrance, (dic_get_some _ _ _ _ w E).
  cbn [String.eqb Ascii.eqb Bool.eqb].
  rewrite call_get_entrance_difficulty, (dic_get_some _ _ _ _ w D).
  cbn [ret]. rewrite call_get_entrance, (dic_get_some _ _ _ _ w E).
  reflexivity.
Qed.

Lemma enter_map_20251120_clicks (T : PageTable) (fuel : nat) (stage mode : string)
      (skip : bool) (w : World) (b : Button) :
  In b [DAL_NORMAL; DAL_HARD; DAL_FLEET_PREPARATION] ->
  clicks_of b (events (snd (enter_map T fuel "coalition_20251120" stage mode skip w))) =
  clicks_of b (events w).
Proof.
  intros Hb.
  destruct (enter_map T fuel "coalition_20251120" stage mode skip w) as [r w'] eqn:H.
  cbn [snd].
  destruct (enter_map_cases _ _ _ _ _ _ _ _ _ H)
    as [(e & -> & Ne & Ev & Im) | (button & fp & E & F & G & _ & L)].
  - rewrite Ev. reflexivity.
  - injection G as <-.
    pose proof (entrance_is_not_fleet_preparation _ _ _ _ E F) as Hne.
    destruct (enter_map_loop_clicks T "coalition_20251120" stage mode button
                                    DAL_FLEET_PREPARATION fuel skip
                                    enter_map_init w r w' Hne)
      as (c & f & A); try (cbn; lia); [exact L|].
    destruct A as (A1 & A2 & A3 & A4 & A5 & A6 & A7). cbn in A1, A2, A3, A4.
    assert (F0 : f = 0).
    { apply A7. intros wa wb. rewrite handle_fleet_preparation_20251120. discriminate. }
    cbn [In] in Hb. destruct Hb as [<-|[<-|[<-|[]]]].
    + apply A5; [|discriminate].
      apply (entrance_is_not_difficulty _ _ _ _ E). cbn; auto.
    + apply A5; [|discriminate].
      apply (entrance_is_not_difficulty _ _ _ _ E). cbn; auto.
    + rewrite A4, F0. cbn. lia.
Qed.

(** C8.  For event coalition_20251120 the loop of [enter_map] starts with
    [button_difficulty = None]: the second initialisation branch overwrites
    what the first one looked up (for a stage without entrance the call
    raises CampaignNameError before the loop).  No run of [enter_map] for
    that event clicks a difficulty button, DAL_NORMAL or DAL_HARD. *)
Theorem enter_map_20251120_difficulty_is_none :
  forall (T : PageTable) (fuel : nat) (stage mode : string) (skip : bool) (w : World),
    match lookup2 "coalition_20251120" (lower stage) entrance_dic with
    | Some button =>
        enter_map T fuel "coalition_20251120" stage mode skip w =
        enter_map_loop T fuel "coalition_20251120" stage mode button None
                       DAL_FLEET_PREPARATION skip enter_map_init w
    | None =>
        fst (enter_map T fuel "coalition_20251120" stage mode skip w) =
        Raise CampaignNameError
    end
    /\ clicks_of DAL_NORMAL
                 (events (snd (enter_map T fuel "coalition_20251120" stage mode skip w)))
       = clicks_of DAL_NORMAL (events w)
    /\ clicks_of DAL_HARD
                 (events (snd (enter_map T fuel "coalition_20251120" stage mode skip w)))
       = clicks_of DAL_HARD (events w).
Proof.
  intros T fuel stage mode skip w. split; [|split].
  - destruct (lookup2 "coalition_20251120" (lower stage) entrance_dic) as [button|] eqn:E.
    + apply enter_map_20251120_loop. exact E.
    + unfold enter_map, bind.
      rewrite call_get_entrance, (dic_get_none _ _ _ w E). reflexivity.
  - apply enter_map_20251120_clicks. cbn; auto.
  - apply enter_map_20251120_clicks. cbn; auto.
Qed.

Lemma fleet_preparation_step_20251120 (stage mode : string) (s : EnterMap) (w : World) :
  fleet_preparation_step "coalition_20251120" stage mode DAL_FLEET_PREPARATION s w =
  if fst (Timer.reached (now (image w)) (fleet_timer s))
     && appear_on (image w) DAL_FLEET_PREPARATION (Offset2 20 50) 85 0
  then
    (Raise ScriptError,
     with_logs (logs w ++ [Error "FLEET_SWITCH is not defined in event coalition_20251120"])
               w)
  else
    (Ret (Continue {| campaign_timer := campaign_timer s;
                      campaign_difficulty_timer := campaign_difficulty_timer s;
                      fleet_timer := Timer.poll (fleet_timer s);
                      campaign_click := campaign_click s;
                      campaign_difficulty_click := campaign_difficulty_click s;
                      fleet_click := fleet_click s |}), w).
Proof.
  cbv beta iota delta [fleet_preparation_step bind clock ret appear appear_sim frame
                       click emit Timer.reached fst].
  destruct (Timer.window_over _ _ && _); cbn [andb].
  - destruct (appear_on (image w) DAL_FLEET_PREPARATION (Offset2 20 50) 85 0).
    + rewrite handle_fleet_preparation_20251120. reflexivity.
    + reflexivity.
  - reflexivity.
Qed.

Lemma kept_refl (button : Button) (s : EnterMap) (w : World) :
  kept_20251120 button s w s w.
Proof. unfold kept_20251120. repeat split; lia. Qed.

Lemma kept_trans (button : Button) (s1 s2 s3 : EnterMap) (w1 w2 w3 : World) :
  kept_20251120 button s1 w1 s2 w2 -> kept_20251120 button s2 w2 s3 w3 ->
  kept_20251120 button s1 w1 s3 w3.
Proof.
  unfold kept_20251120.
  intros (A1 & A2 & A3 & A4 & A5 & A6) (B1 & B2 & B3 & B4 & B5 & B6).
  repeat split; try lia; congruence.
Qed.

Ltac kept_tac :=
  unfold kept_20251120; world_simpl;
  cbn [campaign_click campaign_difficulty_click fleet_click fleet_timer
       reset_campaign_timer Timer.poll Timer.current Timer.count Timer.reach_count];
  rewrite ?clicks_of_app, ?clicks_of_click_same;
  repeat split; try reflexivity; try (cbn; lia).

Lemma enter_map_tick_20251120_continue (T : PageTable) (stage mode : string)
      (button : Button) (s : EnterMap) (w : World) (s' : EnterMap) (w' : World) :
  enter_map_tick T "coalition_20251120" stage mode button None DAL_FLEET_PREPARATION s w
  = (Ret (Continue s'), w') ->
  image w' = image w /\ pending w' = pending w /\ kept_20251120 button s w s' w'.
Proof.
  intros H. unfold enter_map_tick in H.
  cbv beta iota delta [fleet_warning bind appear appear_sim frame ret interrupted handle
    emit clock click raise log logs_all Timer.reached
    in_coalition_20251120_difficulty_selection
    in_coalition_20260122_difficulty_selection] in H.
  cbn [String.eqb Ascii.eqb Bool.eqb] in H.
  do 3 (split_head H; [discriminate H|]).
  do 6 (split_head H; [discriminate H|]).
  split_head H; [discriminate H|].
  do 7 (split_head H;
        [ injection H as <- <-; split; [reflexivity|]; split; [reflexivity|]; kept_tac | ]).
  match type of H with
  | context [(if ?c then in_coalition T else ?g) w] =>
      replace ((if c then in_coalition T else g) w)
        with ((if c then page_appears T (page_coalition T) (Offset2 20 20) 0 (image w)
               else Ret false), w) in H
        by (destruct c; [rewrite in_coalition_eq|]; reflexivity);
      destruct (if c then page_appears T (page_coalition T) (Offset2 20 20) 0 (image w)
                else Ret false) as [[|]|e0|] eqn:P
  end; try discriminate H.
  - injection H as <- <-. split; [reflexivity|]. split; [reflexivity|]. kept_tac.
  - cbv beta iota in H.
    match type of H with
    | context [difficulty_click ?sel ?b0 ?tm ?w0] =>
        destruct (difficulty_click_effect sel b0 tm w0)
          as [[tm1 E] | (b1 & tm1 & Hb & E)];
        [ intros; eexists; reflexivity | | discriminate Hb ]
    end.
    rewrite E in H. cbv beta iota in H.
    rewrite fleet_preparation_step_20251120 in H.
    cbn [fleet_timer] in H.
    match type of H with
    | (if ?c then _ else _) = _ => destruct c; [discriminate H|]
    end.
    injection H as <- <-. split; [reflexivity|]. split; [reflexivity|]. kept_tac.
Qed.

Lemma enter_map_tick_20251120_fleet_screen (T : PageTable) (stage mode : string)
      (button : Button) (s : EnterMap) (w : World) :
  within_budget s ->
  Timer.current (fleet_timer s) = None ->
  Timer.count (fleet_timer s) <= Timer.reach_count (fleet_timer s) ->
  fleet_warning_on (image w) = false ->
  appear_on (image w) BATTLE_PREPARATION (Offset2 20 20) 85 0 = false ->
  (forall h, In h enter_map_handlers -> handler (image w) h = false) ->
  page_appears T (page_coalition T) (Offset2 20 20) 0 (image w) = Ret false ->
  appear_on (image w) DAL_FLEET_PREPARATION (Offset2 20 50) 85 0 = true ->
  enter_map_tick T "coalition_20251120" stage mode button None DAL_FLEET_PREPARATION s w
  = (Raise ScriptError,
     with_logs (logs w ++ [Error "FLEET_SWITCH is not defined in event coalition_20251120"])
               w).
Proof.
  intros (B1 & B2 & B3) Cur Cnt Wn A Hd P F. unfold enter_map_tick.
  replace (5 <? campaign_click s) with false by (symmetry; apply Z.ltb_ge; lia).
  replace (5 <? campaign_difficulty_click s) with false by (symmetry; apply Z.ltb_ge; lia).
  replace (5 <? fleet_click s) with false by (symmetry; apply Z.ltb_ge; lia).
  unfold fleet_warning_on, fleet_warnings in Wn. cbn [existsb] in Wn.
  repeat match type of Wn with
         | (_ || _) = false => apply orb_false_elim in Wn; destruct Wn as [? Wn]
         end.
  cbv beta iota delta [fleet_warning bind appear appear_sim frame ret raise logs_all
                       interrupted handle clock].
  repeat match goal with
         | E : appear_on (image w) ?b (Offset2 20 20) 85 0 = false |- _ =>
             rewrite E; clear E
         end.
  rewrite !Hd by (unfold enter_map_handlers; cbn [In]; tauto).
  cbv beta iota.
  destruct (Timer.reached (now (image w)) (campaign_timer s)) as [due ct].
  replace ((if due then in_coalition T else fun w0 => (Ret false, w0)) w)
    with (Ret false, w)
    by (destruct due; [rewrite in_coalition_eq, P|]; reflexivity).
  cbv beta iota. cbn [String.eqb Ascii.eqb Bool.eqb].
  match goal with
  | |- context [difficulty_click ?sel ?b0 ?tm ?w0] =>
      destruct (difficulty_click_effect sel b0 tm w0)
        as [[tm1 E] | (b1 & tm1 & Hb & E)];
      [ intros; eexists; reflexivity | | discriminate Hb ]
  end.
  rewrite E. cbv beta iota.
  rewrite fleet_preparation_step_20251120. cbn [fleet_timer].
  unfold Timer.reached, Timer.window_over, Timer.poll. cbn [fst Timer.reach_count].
  rewrite Cur, F.
  replace (Timer.count (fleet_timer s) <? Timer.reach_count (fleet_timer s) + 1) with true
    by (symmetry; apply Z.ltb_lt; lia).
  reflexivity.
Qed.

Lemma enter_map_tick_not_starved (T : PageTable) (event stage mode : string)
      (button : Button) (bd : option Button) (fp : Button) (s : EnterMap) (w w' : World) :
  enter_map_tick T event stage mode button bd fp s w <> (Starved, w').
Proof.
  intros E. destruct (enter_map_tick_effect _ _ _ _ _ _ _ _ _ _ _ E) as (es & _ & TE).
  inversion TE.
Qed.

(** A run that uses up [n] passes of fuel with a screenshot still to come
    made [n] passes that all ended in [continue]; with more fuel it goes on
    from the locals [s1] these passes left. *)
Lemma enter_map_loop_20251120_resume (T : PageTable) (stage mode : string)
      (button : Button) (n : nat) :
  forall (skip : bool) (s : EnterMap) (w w1 : World),
    enter_map_loop T n "coalition_20251120" stage mode button None DAL_FLEET_PREPARATION
                   skip s w = (Starved, w1) ->
    frames_from ((n =? 0)%nat && skip) w1 <> [] ->
    exists s1,
      kept_20251120 button s w s1 w1
      /\ forall k,
          enter_map_loop T (n + k) "coalition_20251120" stage mode button None
                         DAL_FLEET_PREPARATION skip s w =
          enter_map_loop T k "coalition_20251120" stage mode button None
                         DAL_FLEET_PREPARATION ((n =? 0)%nat && skip) s1 w1.
Proof.
  induction n as [|n IH]; intros skip s w w1 H Fr.
  - injection H as <-. exists s. split; [apply kept_refl|]. intros k. reflexivity.
  - cbn [Nat.eqb andb] in *. unfold frames_from in Fr.
    cbn [enter_map_loop] in H.
    assert (Body : forall w0,
               (r <- enter_map_tick T "coalition_20251120" stage mode button None
                                    DAL_FLEET_PREPARATION s ;;
                match r with
                | Continue s' =>
                    enter_map_loop T n "coalition_20251120" stage mode button None
                                   DAL_FLEET_PREPARATION false s'
                | Break => ret tt
                end) w0 = (Starved, w1) ->
               clicks_of button (events w0) = clicks_of button (events w) ->
               exists s1,
                 kept_20251120 button s w s1 w1
                 /\ forall k,
                     (r <- enter_map_tick T "coalition_20251120" stage mode button None
                                          DAL_FLEET_PREPARATION s ;;
                      match r with
                      | Continue s' =>
                          enter_map_loop T (n + k) "coalition_20251120" stage mode button
                                         None DAL_FLEET_PREPARATION false s'
                      | Break => ret tt
                      end) w0 =
                     enter_map_loop T k "coalition_20251120" stage mode button None
                                    DAL_FLEET_PREPARATION false s1 w1).
    { intros w0 B Ev. unfold bind at 1 in B.
      destruct (enter_map_tick T "coalition_20251120" stage mode button None
                               DAL_FLEET_PREPARATION s w0) as [[[s'|]|e|] w2] eqn:E;
        try discriminate B.
      - destruct (enter_map_tick_20251120_continue _ _ _ _ _ _ _ _ E) as (_ & _ & K).
        destruct (IH false s' w2 w1 B) as (s1 & K1 & R).
        { rewrite andb_false_r. exact Fr. }
        exists s1. split.
        + apply (kept_trans button s s' s1 w w2 w1); [|exact K1].
          unfold kept_20251120 in *. rewrite <- Ev. exact K.
        + intros k. unfold bind at 1. rewrite E, (R k), andb_false_r. reflexivity.
      - exfalso. injection B as ->. exact (enter_map_tick_not_starved _ _ _ _ _ _ _ _ _ _ E). }
    unfold bind at 1 in H. destruct skip.
    + cbn [ret] in H. destruct (Body w H eq_refl) as (s1 & K & R).
      exists s1. split; [exact K|]. intros k.
      cbn [Nat.add enter_map_loop]. unfold bind at 1. cbn [ret]. apply R.
    + unfold screenshot in H. destruct (pending w) as [|f rest] eqn:P.
      * injection H as <-. contradiction.
      * destruct (Body _ H) as (s1 & K & R).
        { world_simpl. rewrite clicks_of_app. cbn. lia. }
        exists s1. split; [exact K|]. intros k.
        cbn [Nat.add enter_map_loop]. unfold bind at 1, screenshot. rewrite P. apply R.
Qed.

Lemma enter_map_20251120_fleet_screen (T : PageTable) (stage mode : string)
      (skip : bool) (w : World) (button : Button) (n k : nat) (w1 : World) (f : Frame)
      (rest : list Frame) :
  lookup2 "coalition_20251120" (lower stage) entrance_dic = Some button ->
  enter_map T n "coalition_20251120" stage mode skip w = (Starved, w1) ->
  frames_from ((n =? 0)%nat && skip) w1 = f :: rest ->
  clicks_of button (events w1) - clicks_of button (events w) <= 5 ->
  fleet_warning_on f = false ->
  appear_on f BATTLE_PREPARATION (Offset2 20 20) 85 0 = false ->
  (forall h, In h enter_map_handlers -> handler f h = false) ->
  page_appears T (page_coalition T) (Offset2 20 20) 0 f = Ret false ->
  appear_on f DAL_FLEET_PREPARATION (Offset2 20 50) 85 0 = true ->
  exists w2,
    enter_map T (n + S k) "coalition_20251120" stage mode skip w = (Raise ScriptError, w2)
    /\ image w2 = f /\ pending w2 = rest
    /\ logs w2 =
       (logs w1 ++ [Error "FLEET_SWITCH is not defined in event coalition_20251120"])%list
    /\ events w2 =
       (events w1 ++ if (n =? 0)%nat && skip then [] else [Screenshot])%list.
Proof.
  intros E H Fr Cl Wn A Hd P F.
  rewrite (enter_map_20251120_loop T n stage mode skip w button E) in H.
  rewrite (enter_map_20251120_loop T (n + S k) stage mode skip w button E).
  destruct (enter_map_loop_20251120_resume T stage mode button n skip enter_map_init w w1 H)
    as (s1 & (K1 & K2 & K3 & K4 & K5 & K6) & R).
  { rewrite Fr. discriminate. }
  rewrite R. cbn in K1, K2, K3, K4, K5, K6.
  pose proof (clicks_of_nonneg button (events w)) as N0.
  assert (B : within_budget s1) by (unfold within_budget; lia).
  assert (Tick : forall w0,
             image w0 = f ->
             enter_map_tick T "coalition_20251120" stage mode button None
                            DAL_FLEET_PREPARATION s1 w0
             = (Raise ScriptError,
                with_logs (logs w0 ++ [Error "FLEET_SWITCH is not defined in event coalition_20251120"])
                          w0)).
  { intros w0 Im. apply enter_map_tick_20251120_fleet_screen; rewrite ?Im; auto. lia. }
  cbn [enter_map_loop]. unfold bind at 1.
  unfold frames_from in Fr.
  destruct ((n =? 0)%nat && skip).
  - injection Fr as Im Pe. cbn [ret]. unfold bind at 1. rewrite (Tick w1 Im).
    eexists. split; [reflexivity|]. world_simpl. rewrite app_nil_r. auto.
  - unfold screenshot. rewrite Fr. unfold bind at 1. rewrite Tick by reflexivity.
    eexists. split; [reflexivity|]. world_simpl. auto.
Qed.

(** C9.  For event coalition_20251120, whatever the stage and the mode,
    [handle_fleet_preparation] raises ScriptError: no early return applies
    and [coalition_ensure_fleet] has no branch for the event.  So
    [enter_map] fails as soon as the fleet preparation screen is reached:
    a call that starts on that screen raises ScriptError on its first pass,
    and so does a call whose first [fuel] passes all ended in [continue]
    (it ran out of fuel with a screenshot still to come, having clicked
    the entrance at most five times) when the next screenshot shows it,
    whatever fuel it is given beyond.  The screen is the one on which the
    fleet preparation button shows and nothing the loop tests earlier does.
    The pass of the loop that finds the fleet preparation button with its
    timer due ends in ScriptError, and no run of [enter_map] for that event
    ever clicks the fleet preparation button. *)
Theorem fleet_preparation_20251120_script_error :
  forall (T : PageTable) (fuel : nat) (stage mode : string) (skip : bool)
         (s : EnterMap) (w : World),
    handle_fleet_preparation "coalition_20251120" stage mode w =
    (Raise ScriptError,
     with_logs (logs w ++ [Error "FLEET_SWITCH is not defined in event coalition_20251120"])
               w)
    /\ (if fst (Timer.reached (now (image w)) (fleet_timer s))
           && appear_on (image w) DAL_FLEET_PREPARATION (Offset2 20 50) 85 0
        then
          fleet_preparation_step "coalition_20251120" stage mode DAL_FLEET_PREPARATION s w =
          (Raise ScriptError,
           with_logs (logs w
                      ++ [Error "FLEET_SWITCH is not defined in event coalition_20251120"])
                     w)
        else
          exists s',
            fleet_preparation_step "coalition_20251120" stage mode DAL_FLEET_PREPARATION s w
            = (Ret (Continue s'), w))
    /\ (forall (button : Button) (f : Frame) (rest : list Frame),
           lookup2 "coalition_20251120" (lower stage) entrance_dic = Some button ->
           frames_from skip w = f :: rest ->
           fleet_warning_on f = false ->
           appear_on f BATTLE_PREPARATION (Offset2 20 20) 85 0 = false ->
           (forall h, In h enter_map_handlers -> handler f h = false) ->
           page_appears T (page_coalition T) (Offset2 20 20) 0 f = Ret false ->
           appear_on f DAL_FLEET_PREPARATION (Offset2 20 50) 85 0 = true ->
           exists w2,
             enter_map T (S fuel) "coalition_20251120" stage mode skip w
             = (Raise ScriptError, w2)
             /\ image w2 = f /\ pending w2 = rest
             /\ logs w2 =
                (logs w
                 ++ [Error "FLEET_SWITCH is not defined in event coalition_20251120"])%list
             /\ clicks (events w2) = clicks (events w))
    /\ (forall (button : Button) (w1 : World) (f : Frame) (rest : list Frame) (k : nat),
           lookup2 "coalition_20251120" (lower stage) entrance_dic = Some button ->
           enter_map T fuel "coalition_20251120" stage mode skip w = (Starved, w1) ->
           frames_from ((fuel =? 0)%nat && skip) w1 = f :: rest ->
           clicks_of button (events w1) - clicks_of button (events w) <= 5 ->
           fleet_warning_on f = false ->
           appear_on f BATTLE_PREPARATION (Offset2 20 20) 85 0 = false ->
           (forall h, In h enter_map_handlers -> handler f h = false) ->
           page_appears T (page_coalition T) (Offset2 20 20) 0 f = Ret false ->
           appear_on f DAL_FLEET_PREPARATION (Offset2 20 50) 85 0 = true ->
           exists w2,
             enter_map T (fuel + S k) "coalition_20251120" stage mode skip w
             = (Raise ScriptError, w2)
             /\ image w2 = f /\ pending w2 = rest
             /\ logs w2 =
                (logs w1
                 ++ [Error "FLEET_SWITCH is not defined in event coalition_20251120"])%list
             /\ clicks (events w2) = clicks (events w1))
    /\ clicks_of DAL_FLEET_PREPARATION
                 (events (snd (enter_map T fuel "coalition_20251120" stage mode skip w)))
       = clicks_of DAL_FLEET_PREPARATION (events w).
Proof.
  intros T fuel stage mode skip s w. split; [|split; [|split; [|split]]].
  - apply handle_fleet_preparation_20251120.
  - rewrite fleet_preparation_step_20251120.
    destruct (fst (Timer.reached (now (image w)) (fleet_timer s))
              && appear_on (image w) DAL_FLEET_PREPARATION (Offset2 20 50) 85 0).
    + reflexivity.
    + eexists. reflexivity.
  - intros button f rest E Fr Wn A Hd P F.
    destruct (enter_map_20251120_fleet_screen T stage mode skip w button 0 fuel w f rest E)
      as (w2 & R & Im & Pe & Lg & Ev); auto.
    + rewrite (enter_map_20251120_loop T _ stage mode skip w button E). reflexivity.
    + lia.
    + exists w2. cbn [Nat.add] in R. repeat (split; [assumption|]).
      rewrite Ev, clicks_app. cbn [Nat.eqb andb]. destruct skip; cbn; lia.
  - intros button w1 f rest k E H Fr Cl Wn A Hd P F.
    destruct (enter_map_20251120_fleet_screen T stage mode skip w button fuel k w1 f rest E)
      as (w2 & R & Im & Pe & Lg & Ev); auto.
    exists w2. repeat (split; [assumption|]).
    rewrite Ev, clicks_app. destruct ((fuel =? 0)%nat && skip); cbn; lia.
  - apply enter_map_20251120_clicks. cbn; auto.
Qed.

Lemma fleet_preparation_20251120_script_error_witness :
  let w := boot (view 0 ["COALITION_CHECK"]) [view 1000 [DAL_FLEET_PREPARATION]] in
  fst (enter_map demo 1 "coalition_20251120" "area1-normal" "multi" true w) = Starved
  /\ clicks_of DAL_AREA1
               (events (snd (enter_map demo 1 "coalition_20251120" "area1-normal" "multi"
                                       true w))) = 1
  /\ fst (enter_map demo 2 "coalition_20251120" "area1-normal" "multi" true w)
     = Raise ScriptError
  /\ fst (enter_map demo 1 "coalition_20251120" "area1-normal" "multi" true
                    (boot (view 0 [DAL_FLEET_PREPARATION]) []))
     = Raise ScriptError.
Proof.
  intro w.
  pose proof (fleet_preparation_20251120_script_error demo 1 "area1-normal" "multi" true
                enter_map_init w) as (_ & _ & _ & Later & _).
  destruct (Later DAL_AREA1
              (snd (enter_map demo 1 "coalition_20251120" "area1-normal" "multi" true w))
              (view 1000 [DAL_FLEET_PREPARATION]) [] 0%nat)
    as (w2 & R & _); try reflexivity.
  { vm_compute. discriminate. }
  pose proof (fleet_preparation_20251120_script_error demo 0 "area1-normal" "multi" true
                enter_map_init (boot (view 0 [DAL_FLEET_PREPARATION]) []))
    as (_ & _ & First & _).
  destruct (First DAL_AREA1 (view 0 [DAL_FLEET_PREPARATION]) [])
    as (w3 & R3 & _); try reflexivity.
  split; [reflexivity|]. split; [reflexivity|].
  split; [exact (f_equal fst R) | exact (f_equal fst R3)].
Defined.

(** ** The interrupt chain *)

Lemma then_true_or_else (m : M unit) (k : M bool) (w : World) :
  ((m ;; ret true) orelse k) w = (m ;; ret true) w.
Proof.
  unfold or_else, bind, ret. destruct (m w) as [[[]|e|] w']; reflexivity.
Qed.

Lemma run_once_cons (r : InterruptRule) (rest : list InterruptRule) (w : World) :
  run_once (r :: rest) w =
  if predicate r (image w) then (action r ;; ret true) w else run_once rest w.
Proof.
  cbn [run_once]. unfold bind at 1, frame. destruct (predicate r (image w)); reflexivity.
Qed.

Lemma or_else_run_once (c k : M bool) (rules rest : list InterruptRule) (w : World) :
  c w = run_once rules w ->
  k w = run_once rest w ->
  (c orelse k) w = run_once (rules ++ rest) w.
Proof.
  revert c. induction rules as [|r rules IH]; intros c Hc Hk.
  - cbn in Hc. unfold or_else, bind. rewrite Hc. exact Hk.
  - cbn [app]. rewrite run_once_cons in *.
    destruct (predicate r (image w)).
    + transitivity (((action r ;; ret true) orelse k) w).
      * unfold or_else, bind at 1. rewrite Hc. reflexivity.
      * apply then_true_or_else.
    + apply IH; assumption.
Qed.

Lemma run_once_app (rules rest : list InterruptRule) (w : World) :
  run_once (rules ++ rest) w = (run_once rules orelse run_once rest) w.
Proof. symmetry. apply or_else_run_once; reflexivity. Qed.

Lemma run_once_none (rules : list InterruptRule) (w : World) :
  (forall q, In q rules -> predicate q (image w) = false) ->
  run_once rules w = (Ret false, w).
Proof.
  induction rules as [|r rules IH]; intros H; [reflexivity|].
  rewrite run_once_cons, (H r (or_introl eq_refl)).
  apply IH. intros q Hq. apply H. right. exact Hq.
Qed.


Lemma then_true_not_false (m : M unit) (w : World) :
  fst ((m ;; ret true) w) <> Ret false.
Proof. unfold bind, ret. destruct (m w) as [[[]|e|] w']; discriminate. Qed.


(** Each fragment of the code is the rule beside it. *)

Lemma appear_then_click_is_rule (b : Button) (off : Offset) (interval : Z) (w : World) :
  appear_then_click b off interval w = run_once [click_rule b off interval] w.
Proof.
  rewrite run_once_cons. unfold appear_then_click, bind at 1. rewrite appear_eq.
  cbn [predicate action click_rule run_once].
  destruct (appear_on (image w) b off 85 interval); reflexivity.
Qed.

Lemma handle_is_rule (h : string) (w : World) :
  handle h w = run_once [handler_rule h] w.
Proof.
  rewrite run_once_cons. unfold handle, bind at 1, frame.
  cbn [predicate action handler_rule run_once].
  destruct (handler (image w) h); reflexivity.
Qed.

Lemma see_click_is_rule (seen : Button) (off : Offset) (interval : Z) (target : Button)
      (w : World) :
  (a <- appear seen off interval ;; if a then click target ;; ret true else ret false) w
  = run_once [see_click_rule seen off interval target] w.
Proof.
  rewrite run_once_cons. unfold bind at 1. rewrite appear_eq.
  cbn [predicate action see_click_rule run_once].
  destruct (appear_on (image w) seen off 85 interval); reflexivity.
Qed.

Lemma see_then_click_is_rule (seen : Button) (interval : Z) (target : Button) (w : World) :
  (a <- appear seen (Offset2 30 30) interval ;;
   if a then appear_then_click target (Offset2 30 30) 0 else ret false) w
  = run_once [see_then_click_rule seen interval target] w.
Proof.
  rewrite run_once_cons. unfold bind at 1. rewrite appear_eq.
  cbn [predicate action see_then_click_rule run_once].
  destruct (appear_on (image w) seen (Offset2 30 30) 85 interval); cbn [andb].
  - unfold appear_then_click, bind at 1. rewrite appear_eq.
    destruct (appear_on (image w) target (Offset2 30 30) 85 0); reflexivity.
  - reflexivity.
Qed.

Ltac rule_step :=
  first
    [ apply (or_else_run_once _ _ [_] _ _ (appear_then_click_is_rule _ _ _ _))
    | apply (or_else_run_once _ _ [_] _ _ (handle_is_rule _ _))
    | apply (or_else_run_once _ _ [_] _ _ (see_click_is_rule _ _ _ _ _))
    | apply (or_else_run_once _ _ [_] _ _ (see_then_click_is_rule _ _ _ _)) ].

Lemma ui_page_main_popups_is_chain (get_ship : bool) (w : World) :
  ui_page_main_popups get_ship w = run_once (ui_page_main_popups_rules get_ship) w.
Proof.
  unfold ui_page_main_popups, ui_page_main_popups_rules.
  do 5 rule_step.
  apply (or_else_run_once _ _ [_]).
  { rewrite run_once_cons. cbn [predicate action run_once].
    destruct get_ship; cbn [andb]; [|reflexivity].
    rewrite appear_then_click_is_rule, run_once_cons. reflexivity. }
  do 9 rule_step.
  apply (or_else_run_once _ _ [_; _]); [|reflexivity].
  unfold bind at 1. rewrite appear_eq, !run_once_cons.
  cbn [predicate action see_then_click_rule run_once].
  destruct (appear_on (image w) PLAYER_CHECK (Offset2 30 30) 85 3000); cbn [andb];
    [|reflexivity].
  cbv beta iota delta [or_else appear_then_click bind appear appear_sim frame ret
                       click emit].
  destruct (appear_on (image w) GOTO_MAIN (Offset2 30 30) 85 0); [reflexivity|].
  destruct (appear_on (image w) BACK_ARROW (Offset2 30 30) 85 0); reflexivity.
Qed.

Lemma ui_page_os_popups_is_chain (w : World) :
  opsi_reset_fleet_preparation_click w < 5 ->
  ui_page_os_popups w = run_once ui_page_os_popups_rules w.
Proof.
  intros H. unfold ui_page_os_popups, ui_page_os_popups_rules, bind at 1, opsi_click.
  destruct (Z.leb_spec 5 (opsi_reset_fleet_preparation_click w)); [lia|].
  rule_step.
  apply (or_else_run_once _ _ [_]).
  { rewrite run_once_cons. cbn [predicate action run_once].
    unfold appear_then_click, bind at 1 2. rewrite appear_eq.
    destruct (appear_on (image w) RESET_FLEET_PREPARATION (Offset2 30 30) 85 3000);
      reflexivity. }
  apply (or_else_run_once _ _ [_]); [|reflexivity].
  rewrite run_once_cons. cbn [predicate action run_once].
  unfold bind at 1. rewrite appear_eq.
  destruct (appear_on (image w) EXCHANGE_CHECK (Offset2 30 30) 85 3000); reflexivity.
Qed.

Lemma handle_idle_page_is_chain (w : World) :
  handle_idle_page w = run_once [idle_rule IDLE; idle_rule IDLE_2; idle_rule IDLE_3] w.
Proof.
  rewrite !run_once_cons. unfold handle_idle_page, bind at 1, frame.
  cbn [predicate action idle_rule run_once].
  destruct (recheck_ok (image w) IDLE 3000); cbn [negb andb]; [|reflexivity].
  destruct (match_luma (image w) IDLE (Offset2 5 5)); [reflexivity|].
  destruct (match_luma (image w) IDLE_2 (Offset2 5 5)); [reflexivity|].
  destruct (match_luma (image w) IDLE_3 (Offset2 5 5)); reflexivity.
Qed.

Lemma withdraw_step_idle (w : World) :
  withdraw_seen (image w) = false -> withdraw_step w = (Ret false, w).
Proof.
  intros H. unfold withdraw_step, bind at 1. rewrite appear_eq.
  unfold withdraw_seen in H. rewrite H. reflexivity.
Qed.

Lemma run_once_false_world (rules : list InterruptRule) (w w' : World) :
  run_once rules w = (Ret false, w') -> w' = w.
Proof.
  induction rules as [|r rules IH]; intros H.
  - injection H as <-. reflexivity.
  - rewrite run_once_cons in H. destruct (predicate r (image w)); [|auto].
    exfalso. apply (then_true_not_false (action r) w). rewrite H. reflexivity.
Qed.

Lemma or_else_assoc (a b c : M bool) (w : World) :
  ((a orelse b) orelse c) w = (a orelse (b orelse c)) w.
Proof.
  unfold or_else, bind, ret. destruct (a w) as [[[|]|e|] w']; reflexivity.
Qed.

Lemma or_else_eval (c k : M bool) (w : World) :
  (c orelse k) w =
  match c w with
  | (Ret true, w') => (Ret true, w')
  | (Ret false, w') => k w'
  | (Raise e, w') => (Raise e, w')
  | (Starved, w') => (Starved, w')
  end.
Proof. unfold or_else, bind. destruct (c w) as [[[|]|e|] w']; reflexivity. Qed.

Lemma or_else_left (c c' k : M bool) (w : World) :
  c w = c' w -> (c orelse k) w = (c' orelse k) w.
Proof. intros H. unfold or_else, bind. rewrite H. reflexivity. Qed.

Lemma or_else_right (c k k' : M bool) (w : World) :
  (forall w', k w' = k' w') -> (c orelse k) w = (c orelse k') w.
Proof.
  intros H. unfold or_else, bind. destruct (c w) as [[[|]|e|] w']; auto.
Qed.

Lemma or_else_run_once_then (c k k' : M bool) (rules rest : list InterruptRule)
      (w : World) :
  c w = run_once rules w ->
  k w = (run_once rest orelse k') w ->
  (c orelse k) w = (run_once (rules ++ rest) orelse k') w.
Proof.
  intros Hc Hk.
  transitivity ((run_once rules orelse (run_once rest orelse k')) w).
  - rewrite (or_else_eval c k), (or_else_eval (run_once rules)), Hc.
    destruct (run_once rules w) as [[[|]|e|] w'] eqn:E; try reflexivity.
    rewrite (run_once_false_world _ _ _ E). exact Hk.
  - rewrite <- or_else_assoc. apply or_else_left. symmetry. apply run_once_app.
Qed.

Ltac rule_step_then :=
  first
    [ apply (or_else_run_once_then _ _ _ [_] _ _ (appear_then_click_is_rule _ _ _ _))
    | apply (or_else_run_once_then _ _ _ [_] _ _ (handle_is_rule _ _))
    | apply (or_else_run_once_then _ _ _ [_] _ _ (see_click_is_rule _ _ _ _ _))
    | apply (or_else_run_once_then _ _ _ [_] _ _ (see_then_click_is_rule _ _ _ _)) ].

Lemma ui_additional_tail_is_chain (w : World) :
  ((appear_then_click LOGIN_CHECK (Offset2 30 30) 3000) orelse
   (appear_then_click MAINTENANCE_ANNOUNCE (Offset2 30 30) 3000) orelse
   (a <- appear EXERCISE_PREPARATION OffsetZero 3000 ;;
    if a then click GOTO_MAIN ;; ret true else ret false) orelse
   (appear_then_click DAL_DIFFICULTY_EXIT (Offset2 20 20) 3000) orelse
   handle_idle_page orelse
   (a <- appear MAIN_GOTO_MEMORIES_WHITE OffsetZero 3000 ;;
    if a then click MAIN_TAB_SWITCH_WHITE ;; ret true else ret false) orelse
   ret false) w
  = run_once rules_after_withdraw w.
Proof.
  unfold rules_after_withdraw.
  do 4 rule_step.
  apply (or_else_run_once _ _ [_; _; _] _ _ (handle_idle_page_is_chain _)).
  rule_step. reflexivity.
Qed.

(** The code of [ui_additional] is the chain of its rules, with the
    WITHDRAW step between the two halves. *)
Lemma ui_additional_is_chain (get_ship : bool) (w : World) :
  opsi_reset_fleet_preparation_click w < 5 ->
  ui_additional get_ship w =
  (run_once (rules_before_withdraw get_ship)
   orelse withdraw_step
   orelse run_once rules_after_withdraw) w.
Proof.
  intros H. unfold ui_additional, rules_before_withdraw.
  apply (or_else_run_once_then _ _ _ _ _ _ (ui_page_os_popups_is_chain w H)).
  do 2 rule_step_then.
  apply (or_else_run_once_then _ _ _ _ _ _ (ui_page_main_popups_is_chain get_ship w)).
  do 2 rule_step_then.
  apply (or_else_run_once_then _ _ _ [_]).
  { rewrite run_once_cons. unfold bind at 1, appear_sim, bind at 1, frame. cbn [ret].
    cbn [predicate action run_once].
    destruct (appear_on (image w) DORM_INFO (Offset2 30 30) 75 3000); reflexivity. }
  do 2 rule_step_then.
  apply (or_else_run_once_then _ _ _ [_]).
  { rewrite run_once_cons. cbn [predicate action run_once].
    unfold appear_then_click, bind at 1 2. rewrite appear_eq.
    destruct (appear_on (image w) MEOWFFICER_INFO (Offset2 30 30) 85 3000); reflexivity. }
  apply (or_else_run_once_then _ _ _ [_]).
  { rewrite run_once_cons. cbn [predicate action run_once].
    unfold bind at 1. rewrite appear_eq.
    destruct (appear_on (image w) MEOWFFICER_BUY (Offset2 30 30) 85 3000); reflexivity. }
  apply (or_else_run_once_then _ _ _ [_]).
  { rewrite run_once_cons. cbn [predicate action run_once].
    cbv beta iota delta [or_else bind appear appear_sim frame ret click emit].
    destruct (appear_on (image w) MAP_PREPARATION (Offset2 30 30) 85 3000);
      [reflexivity|].
    destruct (appear_on (image w) FLEET_PREPARATION (Offset2 20 50) 85 3000);
      [reflexivity|].
    destruct (appear_on (image w) RAID_FLEET_PREPARATION (Offset2 30 30) 85 3000);
      reflexivity. }
  do 2 rule_step_then.
  transitivity ((withdraw_step orelse run_once rules_after_withdraw) w).
  - apply or_else_right. apply ui_additional_tail_is_chain.
  - rewrite (or_else_eval (run_once [])). reflexivity.
Qed.

Lemma ui_additional_is_run_once (get_ship : bool) (w : World) :
  opsi_reset_fleet_preparation_click w < 5 ->
  withdraw_seen (image w) = false ->
  ui_additional get_ship w = run_once (ui_additional_rules get_ship) w.
Proof.
  intros H W. rewrite (ui_additional_is_chain _ _ H).
  unfold ui_additional_rules. apply or_else_run_once; [reflexivity|].
  rewrite or_else_eval, (withdraw_step_idle w W). reflexivity.
Qed.




(** ** The OpSi click budget *)



Ltac world_simpl_in H :=
  cbn [image pending events logs parent opsi_reset_fleet_preparation_click ui_current
       has_cached_image config with_events with_logs with_image with_parent
       with_opsi_click with_ui_current] in H.

Ltac count_clicks :=
  repeat match goal with
         | |- context [clicks_of ?b [?e]] =>
             let v := eval vm_compute in (clicks_of b [e]) in
             change (clicks_of b [e]) with v
         end.





Lemma ui_additional_exhausted (get_ship : bool) (w : World) :
  5 <= opsi_reset_fleet_preparation_click w ->
  ui_additional get_ship w =
  (Raise RequestHumanTakeover,
   with_logs
     (((logs w
        ++ [Critical "Failed to confirm OpSi fleets, too many click on RESET_FLEET_PREPARATION"])
       ++ [Critical "Possible reason #1: You haven't set any fleets in operation siren"])
      ++ [Critical "Possible reason #2: Your fleets haven't satisfied the level restrictions in operation siren"])
     w).
Proof.
  intros H. unfold ui_additional. rewrite or_else_eval.
  unfold ui_page_os_popups, bind at 1, opsi_click.
  destruct (Z.leb_spec 5 (opsi_reset_fleet_preparation_click w)); [|lia].
  reflexivity.
Qed.






(** ** The traversal scan *)

Lemma clicks_on (c : bool) (es : list Event) : clicks es = 0 -> clicks (on c es) = 0.
Proof. destruct c; auto. Qed.

Lemma ui_button_interval_reset_effect (T : PageTable) (button : Button) (w : World) :
  exists es,
    clicks es = 0
    /\ fst (ui_button_interval_reset T button w) = Ret tt
    /\ adds w (snd (ui_button_interval_reset T button w)) es
    /\ parent (snd (ui_button_interval_reset T button w)) = parent w
    /\ opsi_reset_fleet_preparation_click (snd (ui_button_interval_reset T button w))
       = opsi_reset_fleet_preparation_click w.
Proof.
  unfold ui_button_interval_reset.
  match goal with |- context [emits ?l] => set (es := l) end.
  exists es. split.
  - subst es. rewrite !clicks_app.
    assert (F : clicks (flat_map (fun kv : string * string =>
                                    on (String.eqb button (snd kv)) [IntervalReset GET_SHIP])
                                 (links (page_main T))) = 0).
    { induction (links (page_main T)) as [|kv l IH]; [reflexivity|].
      cbn [flat_map]. rewrite clicks_app, IH, clicks_on; reflexivity. }
    rewrite F, !clicks_on; reflexivity.
  - unfold emits, adds. destruct es; cbn [fst snd]; world_simpl.
    + rewrite app_nil_r. repeat split.
    + repeat split.
Qed.

Lemma ui_goto_scan_cons (T : PageTable) (off : Offset) (page : Page) (rest : list Page)
      (w : World) :
  ui_goto_scan T off (page :: rest) w =
  match parent w (name page), check_button page with
  | Some q, Some cb =>
      if appear_on (image w) cb off 85 5000 then
        match lookup q (links page) with
        | Some button =>
            (click button ;; ui_button_interval_reset T button ;; ret true) w
        | None => (Raise KeyError, w)
        end
      else ui_goto_scan T off rest w
  | _, _ => ui_goto_scan T off rest w
  end.
Proof.
  cbn [ui_goto_scan]. unfold bind at 1, parent_of.
  destruct (parent w (name page)); [|reflexivity].
  destruct (check_button page); [|reflexivity].
  unfold bind at 1. rewrite appear_eq.
  destruct (appear_on (image w) b off 85 5000); [|reflexivity].
  destruct (lookup s (links page)); reflexivity.
Qed.

(** C7.  The scan of [ui_goto]'s loop clicks [page.links[page.parent]] only
    for a declared page that has a parent on the chain and whose own
    check button matches the current frame within the offset given to
    [ui_goto]; when no such page is recognised it clicks nothing and
    leaves the world as it is. *)
Theorem ui_goto_scan_clicks_recognised_page :
  forall (T : PageTable) (off : Offset) (ps : list Page) (w : World),
    match fst (ui_goto_scan T off ps w) with
    | Ret true =>
        exists page q cb button es,
          In page ps
          /\ parent w (name page) = Some q
          /\ check_button page = Some cb
          /\ lookup q (links page) = Some button
          /\ matches (image w) cb off 85 = true
          /\ clicks es = 0
          /\ adds w (snd (ui_goto_scan T off ps w)) (Click button :: es)
    | Ret false => snd (ui_goto_scan T off ps w) = w
    | Raise e => e = KeyError /\ snd (ui_goto_scan T off ps w) = w
    | Starved => False
    end.
Proof.
  intros T off ps w. induction ps as [|page rest IH].
  - reflexivity.
  - rewrite ui_goto_scan_cons.
    assert (Skip : match fst (ui_goto_scan T off rest w) with
                   | Ret true =>
                       exists page0 q cb button es,
                         In page0 (page :: rest)
                         /\ parent w (name page0) = Some q
                         /\ check_button page0 = Some cb
                         /\ lookup q (links page0) = Some button
                         /\ matches (image w) cb off 85 = true
                         /\ clicks es = 0
                         /\ adds w (snd (ui_goto_scan T off rest w)) (Click button :: es)
                   | Ret false => snd (ui_goto_scan T off rest w) = w
                   | Raise e => e = KeyError /\ snd (ui_goto_scan T off rest w) = w
                   | Starved => False
                   end).
    { destruct (fst (ui_goto_scan T off rest w)) as [[|]|e|]; try exact IH.
      destruct IH as (p0 & q & cb & b & es & I & R).
      exists p0, q, cb, b, es. split; [right; exact I | exact R]. }
    destruct (parent w (name page)) as [q|] eqn:P; [|exact Skip].
    destruct (check_button page) as [cb|] eqn:C; [|exact Skip].
    destruct (appear_on (image w) cb off 85 5000) eqn:A; [|exact Skip].
    destruct (lookup q (links page)) as [button|] eqn:L.
    + unfold bind at 1, click, emit.
      destruct (ui_button_interval_reset_effect T button
                  (with_events (events w ++ [Click button]) w))
        as (es & C0 & R & (A1 & A2 & A3) & _).
      unfold bind.
      destruct (ui_button_interval_reset T button
                  (with_events (events w ++ [Click button]) w)) as [r1 w1].
      cbn [fst snd] in *. subst r1. cbn [fst snd ret].
      exists page, q, cb, button, es.
      repeat split; auto.
      * left; reflexivity.
      * unfold appear_on in A. cbn in A. apply andb_prop in A. apply A.
      * rewrite A3. world_simpl. rewrite <- app_assoc. reflexivity.
    + cbn. auto.
Qed.

(** ** What the interrupt chain leaves alone *)

Lemma quiet_refl (w : World) : quiet w w.
Proof. unfold quiet. auto. Qed.

Lemma quiet_trans (w1 w2 w3 : World) : quiet w1 w2 -> quiet w2 w3 -> quiet w1 w3.
Proof. unfold quiet. intros (A1 & A2 & A3) (B1 & B2 & B3). repeat split; congruence. Qed.

Lemma rules_are_quiet (get_ship : bool) :
  Forall (fun q => forall w, fst (action q w) = Ret tt /\ quiet w (snd (action q w)))
         (ui_additional_rules get_ship).
Proof.
  unfold ui_additional_rules, rules_before_withdraw, rules_after_withdraw,
    ui_page_os_popups_rules, ui_page_main_popups_rules.
  cbn [app].
  repeat (apply Forall_cons; [intros w; split; [reflexivity | repeat split]|]).
  apply Forall_nil.
Qed.

Lemma run_once_quiet (rules : list InterruptRule) (w : World) (r : Outcome bool)
      (w' : World) :
  Forall (fun q => forall w, fst (action q w) = Ret tt /\ quiet w (snd (action q w)))
         rules ->
  run_once rules w = (r, w') ->
  quiet w w' /\ exists b, r = Ret b.
Proof.
  intros F. induction F as [|q rules Hq F IH]; intros H.
  - injection H as <- <-. split; [apply quiet_refl | eauto].
  - rewrite run_once_cons in H. destruct (predicate q (image w)); [|auto].
    unfold bind, ret in H. destruct (Hq w) as [R Q].
    destruct (action q w) as [r1 w1]. cbn [fst snd] in *. subst r1.
    injection H as <- <-. split; [exact Q | eauto].
Qed.

Lemma withdraw_step_quiet (w : World) (r : Outcome bool) (w' : World) :
  withdraw_step w = (r, w') ->
  quiet w w' /\ forall e, r <> Raise e.
Proof.
  intros H.
  cbv beta iota delta [withdraw_step bind appear appear_sim frame ret emit screenshot
                       appear_then_click click interval_reset log] in H.
  world_simpl_in H.
  destruct (appear_on (image w) WITHDRAW (Offset2 30 30) 85 3000).
  - destruct (pending w) as [|f rest].
    + injection H as <- <-. split; [repeat split | discriminate].
    + cbv beta iota in H. world_simpl_in H.
      destruct (appear_on f WITHDRAW (Offset2 30 30) 85 0);
        injection H as <- <-; (split; [repeat split | discriminate]).
  - injection H as <- <-. split; [apply quiet_refl | discriminate].
Qed.

Lemma ui_additional_quiet (get_ship : bool) (w : World) (r : Outcome bool) (w' : World) :
  ui_additional get_ship w = (r, w') ->
  quiet w w' /\ forall e, r = Raise e -> e = RequestHumanTakeover.
Proof.
  intros H.
  destruct (Z.le_gt_cases 5 (opsi_reset_fleet_preparation_click w)) as [G|G].
  - rewrite (ui_additional_exhausted _ _ G) in H. injection H as <- <-.
    split; [repeat split | congruence].
  - pose proof (rules_are_quiet get_ship) as F.
    unfold ui_additional_rules in F. apply Forall_app in F. destruct F as [F1 F2].
    rewrite (ui_additional_is_chain _ _ G), or_else_eval in H.
    destruct (run_once (rules_before_withdraw get_ship) w) as [r1 w1] eqn:E1.
    destruct (run_once_quiet _ _ _ _ F1 E1) as [Q1 [b ->]].
    destruct b.
    + injection H as <- <-. split; [exact Q1 | discriminate].
    + rewrite or_else_eval in H.
      destruct (withdraw_step w1) as [r2 w2] eqn:E2.
      destruct (withdraw_step_quiet _ _ _ E2) as [Q2 N2].
      destruct r2 as [[|]|e|].
      * injection H as <- <-. split; [exact (quiet_trans _ _ _ Q1 Q2) | discriminate].
      * destruct (run_once_quiet _ _ _ _ F2 H) as [Q3 [b ->]].
        split; [exact (quiet_trans _ _ _ Q1 (quiet_trans _ _ _ Q2 Q3)) | discriminate].
      * exfalso. exact (N2 e eq_refl).
      * injection H as <- <-. split; [exact (quiet_trans _ _ _ Q1 Q2) | discriminate].
Qed.

(** ** Runs of [ui_goto] *)

Lemma ui_goto_scan_parent (T : PageTable) (off : Offset) (ps : list Page) (w : World) :
  parent (snd (ui_goto_scan T off ps w)) = parent w.
Proof.
  induction ps as [|page rest IH]; [reflexivity|].
  rewrite ui_goto_scan_cons.
  destruct (parent w (name page)) as [q|]; [|exact IH].
  destruct (check_button page) as [cb|]; [|exact IH].
  destruct (appear_on (image w) cb off 85 5000); [|exact IH].
  destruct (lookup q (links page)) as [button|]; [|reflexivity].
  unfold bind at 1, click, emit.
  destruct (ui_button_interval_reset_effect T button
              (with_events (events w ++ [Click button]) w))
    as (es & _ & R & _ & P & _).
  unfold bind.
  destruct (ui_button_interval_reset T button (with_events (events w ++ [Click button]) w))
    as [r1 w1].
  cbn [fst snd] in *. subst r1. cbn [snd ret]. exact P.
Qed.

Lemma ui_goto_loop_parent (T : PageTable) (fuel : nat) :
  forall (destination : Page) (get_ship : bool) (off : Offset) (skip : bool) (w : World),
    parent (snd (ui_goto_loop T fuel destination get_ship off skip w)) = parent w.
Proof.
  induction fuel as [|fuel IH]; intros destination get_ship off skip w; [reflexivity|].
  cbn [ui_goto_loop]. unfold bind at 1, emit.
  set (w0 := with_events (events w ++ [ClearOffset GOTO_MAIN]) w).
  assert (Body : forall w1, parent w1 = parent w ->
            parent (snd ((arrived <- ui_page_appear T destination off 0 ;;
                          if arrived then ret tt
                          else
                            clicked <- ui_goto_scan T off (iter_pages T) ;;
                            if clicked
                            then ui_goto_loop T fuel destination get_ship off false
                            else
                              _ <- ui_additional get_ship ;;
                              ui_goto_loop T fuel destination get_ship off false) w1))
            = parent w).
  { intros w1 P1. unfold bind at 1. rewrite ui_page_appear_eq.
    destruct (page_appears T destination off 0 (image w1)) as [[|]|e|]; try exact P1.
    unfold bind at 1.
    pose proof (ui_goto_scan_parent T off (iter_pages T) w1) as P2.
    destruct (ui_goto_scan T off (iter_pages T) w1) as [[[|]|e|] w2]; cbn [snd] in P2.
    - rewrite IH. congruence.
    - unfold bind.
      destruct (ui_additional get_ship w2) as [r3 w3] eqn:E3.
      destruct (ui_additional_quiet _ _ _ _ E3) as [(_ & P3 & _) _].
      destruct r3 as [b|e|]; cbn [snd]; [rewrite IH|..]; congruence.
    - cbn [snd]. congruence.
    - cbn [snd]. congruence. }
  unfold bind at 1. destruct skip.
  - cbn [ret]. apply Body. reflexivity.
  - unfold screenshot. subst w0. world_simpl.
    destruct (pending w) as [|f rest]; [reflexivity|].
    apply Body. reflexivity.
Qed.

(** [ui_goto] with its first two statements carried out. *)
Lemma ui_goto_unfold (T : PageTable) (fuel : nat) (destination : Page) (get_ship : bool)
      (off : Offset) (skip : bool) (w : World) :
  ui_goto T fuel destination get_ship off skip w =
  let w1 := snd (init_connection T destination w) in
  let w2 := with_events (events w1 ++ [IntervalClear (iter_check_buttons T)]) w1 in
  match ui_goto_loop T fuel destination get_ship off skip w2 with
  | (Ret _, w3) => (Ret tt, with_parent no_parent w3)
  | (Raise e, w3) => (Raise e, w3)
  | (Starved, w3) => (Starved, w3)
  end.
Proof.
  unfold ui_goto, bind, init_connection, emit, clear_connection. cbn [snd].
  destruct (ui_goto_loop T fuel destination get_ship off skip _) as [[[]|e|] w3];
    reflexivity.
Qed.

(** C2 (as amended).  When [ui_goto] returns, that is on arrival, every
    page's [parent] pointer is null: [Page.clear_connection()] has run, after
    the loop.  When it ends in an exception, or is still polling, the
    pointers are those [Page.init_connection(destination)] set:
    [clear_connection] has not run. *)
Theorem ui_goto_connection_cleanup :
  forall (T : PageTable) (fuel : nat) (destination : Page) (get_ship : bool)
         (off : Offset) (skip : bool) (w : World),
    match fst (ui_goto T fuel destination get_ship off skip w) with
    | Ret _ => parent (snd (ui_goto T fuel destination get_ship off skip w)) = no_parent
    | _ =>
        parent (snd (ui_goto T fuel destination get_ship off skip w)) =
        parent (snd (init_connection T destination w))
    end.
Proof.
  intros T fuel destination get_ship off skip w.
  rewrite ui_goto_unfold. cbv zeta.
  set (w1 := snd (init_connection T destination w)).
  set (w2 := with_events _ w1).
  pose proof (ui_goto_loop_parent T fuel destination get_ship off skip w2) as P.
  destruct (ui_goto_loop T fuel destination get_ship off skip w2) as [[[]|e|] w3];
    cbn [fst snd] in *.
  - reflexivity.
  - exact P.
  - exact P.
Qed.

(** C2: the claim as stated fails on the fatal exit.  Five clicks on
    RESET_FLEET_PREPARATION use up the OpSi budget; the sixth pass of the
    loop ends [ui_goto] in RequestHumanTakeover, and the event page still
    points to the stage page. *)
Lemma ui_goto_fatal_keeps_connection :
  let w := boot (view 0 [RESET_FLEET_PREPARATION])
                (views [4000; 8000; 12000; 16000; 20000] [RESET_FLEET_PREPARATION]) in
  fst (ui_goto demo 10 demo_stage true (Offset2 30 30) true w)
  = Raise RequestHumanTakeover
  /\ parent (snd (ui_goto demo 10 demo_stage true (Offset2 30 30) true w)) "page_event"
     = Some "page_stage".
Proof. split; reflexivity. Qed.

(** ** Page identification *)

Lemma scan_current_page_eq (T : PageTable) (ps : list Page) (w : World) :
  scan_current_page T ps w = (identify T ps (image w), w).
Proof.
  induction ps as [|page rest IH]; [reflexivity|].
  cbn [scan_current_page identify].
  destruct (check_button page); [|exact IH].
  unfold bind. rewrite ui_page_appear_eq.
  destruct (page_appears T page (Offset2 30 30) 0 (image w)) as [[|]|e|];
    try reflexivity. exact IH.
Qed.

Lemma identify_raise (T : PageTable) (ps : list Page) (f : Frame) (e : Exn) :
  identify T ps f = Raise e -> e = AttributeError "name".
Proof.
  induction ps as [|page rest IH]; [discriminate|].
  cbn [identify]. destruct (check_button page); [|exact IH].
  destruct (page_appears T page (Offset2 30 30) 0 f) as [[|]|e0|] eqn:P;
    try discriminate; [exact IH|].
  intros [= <-]. exact (page_appears_raise _ _ _ _ _ _ P).
Qed.

Lemma identify_not_starved (T : PageTable) (ps : list Page) (f : Frame) :
  identify T ps f <> Starved.
Proof.
  induction ps as [|page rest IH]; [discriminate|].
  cbn [identify]. destruct (check_button page); [|exact IH].
  destruct (page_appears T page (Offset2 30 30) 0 f) as [[|]|e0|] eqn:P;
    try discriminate; [exact IH|].
  exfalso. exact (page_appears_not_starved _ _ _ _ _ P).
Qed.

Lemma identify_some (T : PageTable) (ps : list Page) (f : Frame) (p : Page) :
  identify T ps f = Ret (Some p) ->
  In p ps /\ page_appears T p (Offset2 30 30) 0 f = Ret true.
Proof.
  induction ps as [|page rest IH]; [discriminate|].
  cbn [identify]. 
  destruct (check_button page).
  - destruct (page_appears T page (Offset2 30 30) 0 f) as [[|]|e0|] eqn:P;
      try discriminate.
    + intros [= <-]. split; [left; reflexivity | exact P].
    + intros H. destruct (IH H). split; [right|]; assumption.
  - intros H. destruct (IH H). split; [right|]; assumption.
Qed.

Lemma ui_get_current_page_loop_result (T : PageTable) (fuel : nat) :
  forall (skip : bool) (tm ot : Timer.t) (ac mc : bool) (w : World)
         (r : Outcome Page) (w' : World),
    ui_get_current_page_loop T fuel skip tm ot ac mc w = (r, w') ->
    identified T r w'.
Proof.
  induction fuel as [|fuel IH]; intros skip tm ot ac mc w r w' H.
  - injection H as <- <-. exact I.
  - cbn [ui_get_current_page_loop] in H. unfold bind at 1 in H.
    destruct (first_screenshot skip w) as [[[]|e|] w1] eqn:FS.
    2:{ exfalso. unfold first_screenshot, screenshot, bind in FS.
        destruct skip; [destruct (has_cached_image w)|];
          try discriminate; destruct (pending w); discriminate. }
    2:{ injection H as <- <-. exact I. }
    cbv beta iota delta [bind clock ret Timer.reached] in H.
    split_head H.
    { cbv beta iota delta [unknown_page bind logs_all raise] in H.
      injection H as <- <-. cbn. intros _. eexists. reflexivity. }
    rewrite scan_current_page_eq in H.
    destruct (identify T (iter_pages T) (image w1)) as [[p|]|e|] eqn:ID.
    + cbv beta iota delta [log set_ui_current] in H. injection H as <- <-.
      destruct (identify_some _ _ _ _ ID). cbn. auto.
    + cbv beta iota delta [appear_then_click appear appear_sim frame bind ret click
                           emit] in H.
      split_head H; [exact (IH _ _ _ _ _ _ _ _ H)|].
      split_head H; [exact (IH _ _ _ _ _ _ _ _ H)|].
      split_head H; [exact (IH _ _ _ _ _ _ _ _ H)|].
      destruct (ui_additional true w1) as [r3 w3] eqn:E3.
      destruct (ui_additional_quiet _ _ _ _ E3) as [_ R3].
      destruct r3 as [[|]|e|].
      * exact (IH _ _ _ _ _ _ _ _ H).
      * cbv beta iota delta [app_check minicap_check frame bind ret raise emit] in H.
        destruct ac.
        -- destruct mc.
           ++ split_head H; exact (IH _ _ _ _ _ _ _ _ H).
           ++ split_head H; split_head H; exact (IH _ _ _ _ _ _ _ _ H).
        -- split_head H.
           ++ destruct mc.
              ** split_head H; exact (IH _ _ _ _ _ _ _ _ H).
              ** split_head H; split_head H; exact (IH _ _ _ _ _ _ _ _ H).
           ++ injection H as <- <-. cbn. discriminate.
      * injection H as <- <-. cbn. intros ->. specialize (R3 _ eq_refl). discriminate.
      * injection H as <- <-. exact I.
    + injection H as <- <-. cbn. intros ->.
      apply identify_raise in ID. discriminate.
    + exfalso. exact (identify_not_starved _ _ _ ID).
Qed.

Lemma ui_get_current_page_result (T : PageTable) (fuel : nat) (skip : bool) (w : World)
      (r : Outcome Page) (w' : World) :
  ui_get_current_page T fuel skip w = (r, w') -> identified T r w'.
Proof.
  unfold ui_get_current_page, bind, clock. apply ui_get_current_page_loop_result.
Qed.

Lemma ui_ensure_already_there (T : PageTable) (fuel : nat) (destination : Page)
      (skip : bool) (w : World) (p : Page) (w1 : World) :
  ui_get_current_page T fuel skip w = (Ret p, w1) ->
  name p = name destination ->
  ui_ensure T fuel destination skip w = (Ret false, w1).
Proof.
  intros H N. destruct (ui_get_current_page_result _ _ _ _ _ _ H) as (C & _).
  unfold ui_ensure, bind. rewrite H, C, N, String.eqb_refl. reflexivity.
Qed.

Lemma ui_ensure_elsewhere (T : PageTable) (fuel : nat) (destination : Page)
      (skip : bool) (w : World) (p : Page) (w1 : World) :
  ui_get_current_page T fuel skip w = (Ret p, w1) ->
  name p <> name destination ->
  ui_ensure T fuel destination skip w =
  (ui_goto T fuel destination true (Offset2 30 30) true ;; ret true) w1.
Proof.
  intros H N. destruct (ui_get_current_page_result _ _ _ _ _ _ H) as (C & _).
  unfold ui_ensure, bind at 1. rewrite H. unfold bind at 1. rewrite C.
  destruct (String.eqb_spec (name p) (name destination)); [contradiction|].
  reflexivity.
Qed.

Lemma ui_get_current_page_at_once (T : PageTable) (fuel : nat) (w : World) (p : Page) :
  has_cached_image w = true ->
  identify T (iter_pages T) (image w) = Ret (Some p) ->
  ui_get_current_page T (S fuel) true w =
  (Ret p, with_ui_current (Some (name p)) (with_logs (logs w ++ [Attr "UI" (name p)]) w)).
Proof.
  intros C I.
  unfold ui_get_current_page, bind at 1, clock.
  cbn [ui_get_current_page_loop]. unfold bind at 1, first_screenshot, bind at 1.
  rewrite C. cbn [ret].
  unfold bind at 1, clock. unfold Timer.reached, Timer.start, Timer.new, Timer.poll.
  cbn [Timer.started Timer.current Timer.limit Timer.count Timer.reach_count
       Timer.window_over].
  rewrite andb_false_r.
  unfold bind at 1. rewrite scan_current_page_eq, I. reflexivity.
Qed.

Lemma ui_goto_loop_arrived (T : PageTable) (fuel : nat) (destination : Page)
      (get_ship : bool) (off : Offset) (w : World) :
  page_appears T destination off 0 (image w) = Ret true ->
  ui_goto_loop T (S fuel) destination get_ship off true w =
  (Ret tt, with_events (events w ++ [ClearOffset GOTO_MAIN]) w).
Proof.
  intros H. cbn [ui_goto_loop]. unfold bind at 1, emit. unfold bind at 1. cbn [ret].
  unfold bind at 1. rewrite ui_page_appear_eq. world_simpl. rewrite H. reflexivity.
Qed.

Lemma ui_goto_arrives_at_once (T : PageTable) (fuel : nat) (destination : Page)
      (get_ship : bool) (off : Offset) (w : World) :
  page_appears T destination off 0 (image w) = Ret true ->
  fst (ui_goto T (S fuel) destination get_ship off true w) = Ret tt
  /\ events (snd (ui_goto T (S fuel) destination get_ship off true w)) =
     (events w ++ [IntervalClear (iter_check_buttons T); ClearOffset GOTO_MAIN])%list
  /\ pending (snd (ui_goto T (S fuel) destination get_ship off true w)) = pending w
  /\ image (snd (ui_goto T (S fuel) destination get_ship off true w)) = image w.
Proof.
  intros H. rewrite ui_goto_unfold. cbv zeta.
  rewrite ui_goto_loop_arrived by exact H.
  unfold init_connection. cbn [fst snd]. world_simpl.
  rewrite <- app_assoc. repeat split.
Qed.

Lemma ui_goto_loop_arrived_after_screenshot (T : PageTable) (fuel : nat)
      (destination : Page) (get_ship : bool) (off : Offset) (w : World) (f : Frame)
      (rest : list Frame) :
  pending w = f :: rest ->
  page_appears T destination off 0 f = Ret true ->
  ui_goto_loop T (S fuel) destination get_ship off false w =
  (Ret tt,
   with_image f rest
     (with_events ((events w ++ [ClearOffset GOTO_MAIN]) ++ [Screenshot]) w)).
Proof.
  intros P H. cbn [ui_goto_loop]. unfold bind at 1, emit. unfold bind at 1, screenshot.
  world_simpl. rewrite P.
  unfold bind at 1. rewrite ui_page_appear_eq. world_simpl. rewrite H. reflexivity.
Qed.

Lemma ui_ensure_at_once (T : PageTable) (fuel : nat) (destination : Page) (w : World)
      (p : Page) :
  has_cached_image w = true ->
  identify T (iter_pages T) (image w) = Ret (Some p) ->
  page_appears T destination (Offset2 30 30) 0 (image w) = Ret true ->
  fst (ui_ensure T (S fuel) destination true w)
  = Ret (negb (String.eqb (name p) (name destination)))
  /\ clicks (events (snd (ui_ensure T (S fuel) destination true w))) = clicks (events w)
  /\ pending (snd (ui_ensure T (S fuel) destination true w)) = pending w.
Proof.
  intros C I H.
  destruct (String.eqb_spec (name p) (name destination)) as [N|N].
  - rewrite (ui_ensure_already_there T (S fuel) destination true w p _
               (ui_get_current_page_at_once T fuel w p C I) N).
    repeat split.
  - rewrite (ui_ensure_elsewhere T (S fuel) destination true w p _
               (ui_get_current_page_at_once T fuel w p C I) N).
    set (w1 := with_ui_current _ _).
    destruct (ui_goto_arrives_at_once T fuel destination true (Offset2 30 30) w1 H)
      as (R & E & P & _).
    unfold bind.
    destruct (ui_goto T (S fuel) destination true (Offset2 30 30) true w1) as [r2 w2].
    cbn [fst snd] in *. subst r2. cbn [fst snd ret].
    split; [reflexivity|]. split; [|exact P].
    rewrite E. subst w1. world_simpl. rewrite clicks_app. cbn. lia.
Qed.

(** C5.  When the current screen already shows the destination, [ui_goto]
    returns from the first pass of its loop: the destination's predicate is
    tested before the page scan, nothing is clicked and, unless the caller
    asked for a first screenshot, none is taken.  [ui_ensure] returns false,
    without calling [ui_goto], whenever the page [ui_get_current_page]
    identified is the destination; when a page is identified on the cached
    screenshot and the destination is on screen, [ui_ensure] has clicked
    nothing, whichever page was identified. *)
Theorem arrival_is_idempotent :
  forall (T : PageTable) (fuel : nat) (destination : Page) (get_ship : bool)
         (off : Offset) (w : World),
    page_appears T destination off 0 (image w) = Ret true ->
    (fst (ui_goto T (S fuel) destination get_ship off true w) = Ret tt
     /\ clicks (events (snd (ui_goto T (S fuel) destination get_ship off true w)))
        = clicks (events w)
     /\ pending (snd (ui_goto T (S fuel) destination get_ship off true w)) = pending w)
    /\ (forall w0 f rest,
           pending w0 = f :: rest -> f = image w ->
           fst (ui_goto T (S fuel) destination get_ship off false w0) = Ret tt
           /\ clicks (events (snd (ui_goto T (S fuel) destination get_ship off false w0)))
              = clicks (events w0)
           /\ pending (snd (ui_goto T (S fuel) destination get_ship off false w0)) = rest)
    /\ (forall fuel' skip w0 p w1,
           ui_get_current_page T fuel' skip w0 = (Ret p, w1) ->
           name p = name destination ->
           ui_ensure T fuel' destination skip w0 = (Ret false, w1))
    /\ (forall p,
           off = Offset2 30 30 ->
           has_cached_image w = true ->
           identify T (iter_pages T) (image w) = Ret (Some p) ->
           fst (ui_ensure T (S fuel) destination true w)
           = Ret (negb (String.eqb (name p) (name destination)))
           /\ clicks (events (snd (ui_ensure T (S fuel) destination true w)))
              = clicks (events w)
           /\ pending (snd (ui_ensure T (S fuel) destination true w)) = pending w).
Proof.
  intros T fuel destination get_ship off w H. split; [|split; [|split]].
  - destruct (ui_goto_arrives_at_once T fuel destination get_ship off w H)
      as (R & E & P & _).
    split; [exact R|]. split; [|exact P].
    rewrite E, clicks_app. cbn. lia.
  - intros w0 f rest P ->. rewrite ui_goto_unfold. cbv zeta.
    rewrite (ui_goto_loop_arrived_after_screenshot T fuel destination get_ship off _
               (image w) rest) by (try exact H; exact P).
    unfold init_connection. cbn [fst snd]. world_simpl.
    split; [reflexivity|]. split; [|reflexivity].
    rewrite !clicks_app. cbn. lia.
  - intros fuel' skip w0 p w1. apply ui_ensure_already_there.
  - intros p -> C I. exact (ui_ensure_at_once T fuel destination w p C I H).
Qed.

Lemma arrival_is_idempotent_witness :
  let w := boot (view 0 ["STAGE_CHECK"]) [] in
  page_appears demo demo_stage (Offset2 30 30) 0 (image w) = Ret true
  /\ fst (ui_goto demo 1 demo_stage true (Offset2 30 30) true w) = Ret tt
  /\ clicks (events (snd (ui_goto demo 1 demo_stage true (Offset2 30 30) true w))) = 0
  /\ fst (ui_ensure demo 1 demo_stage true w) = Ret false
  /\ clicks (events (snd (ui_ensure demo 1 demo_stage true w))) = 0.
Proof.
  intro w.
  pose proof (arrival_is_idempotent demo 0 demo_stage true (Offset2 30 30) w eq_refl)
    as ((R & C & _) & _ & _ & E).
  destruct (E demo_stage eq_refl eq_refl eq_refl) as (R' & E' & _).
  split; [reflexivity|]. split; [exact R|]. split; [exact C|].
  split; [exact R' | exact E'].
Defined.

(** ** The timeout of [ui_get_current_page] *)

Lemma first_screenshot_frames (skip : bool) (w : World) (g : Frame) (rest : list Frame) :
  frames_to_see skip w = g :: rest ->
  exists w1,
    first_screenshot skip w = (Ret tt, w1)
    /\ image w1 = g /\ pending w1 = rest
    /\ opsi_reset_fleet_preparation_click w1 = opsi_reset_fleet_preparation_click w
    /\ config w1 = config w.
Proof.
  unfold frames_to_see, first_screenshot, bind, screenshot. intros H.
  destruct skip; cbn [andb] in H.
  - destruct (has_cached_image w).
    + injection H as <- <-. exists w. repeat split.
    + rewrite H. eexists. split; [reflexivity|]. repeat split.
  - rewrite H. eexists. split; [reflexivity|]. repeat split.
Qed.

Lemma appear_then_click_false (b : Button) (off : Offset) (interval : Z) (w : World) :
  appear_on (image w) b off 85 interval = false ->
  appear_then_click b off interval w = (Ret false, w).
Proof.
  intros H. unfold appear_then_click, bind. rewrite appear_eq, H. reflexivity.
Qed.

(** One pass of the loop over a frame on which nothing is recognised, the
    timeout not yet expired: the loop goes round with the timeout polled
    once more. *)
Lemma unrecognised_tick (T : PageTable) (fuel : nat) (skip : bool) (tm ot : Timer.t)
      (ac mc : bool) (w w1 : World) :
  first_screenshot skip w = (Ret tt, w1) ->
  unrecognised T (image w1) ->
  opsi_reset_fleet_preparation_click w1 < 5 ->
  fst (Timer.reached (now (image w1)) tm) = false ->
  exists ot' w2,
    ui_get_current_page_loop T (S fuel) skip tm ot ac mc w =
    ui_get_current_page_loop T fuel false (Timer.poll tm) ot' true true w2
    /\ image w2 = image w1 /\ pending w2 = pending w1
    /\ opsi_reset_fleet_preparation_click w2 = opsi_reset_fleet_preparation_click w1
    /\ config w2 = config w1.
Proof.
  intros FS (U1 & U2 & U3 & U4 & U5 & U6 & U7) O E.
  cbn [ui_get_current_page_loop]. unfold bind at 1. rewrite FS. cbv beta iota.
  unfold bind at 1, clock. cbv beta iota.
  unfold Timer.reached in *. cbn [fst] in E. rewrite E. cbv beta iota.
  unfold bind at 1. rewrite scan_current_page_eq, U1. cbv beta iota.
  unfold bind at 1. rewrite (appear_then_click_false _ _ _ _ U2). cbv beta iota.
  unfold bind at 1. rewrite (appear_then_click_false _ _ _ _ U3). cbv beta iota.
  unfold bind at 1. rewrite (appear_then_click_false _ _ _ _ U4). cbv beta iota.
  unfold bind at 1.
  rewrite (ui_additional_is_run_once true w1 O U5), (run_once_none _ _ U6).
  cbv beta iota.
  cbv beta iota delta [app_check minicap_check frame bind ret raise emit clock].
  destruct ac; destruct mc; cbv beta iota; rewrite ?U7; cbv beta iota;
    repeat match goal with
           | |- context [if ?c then _ else _] =>
               lazymatch c with
               | context [if _ then _ else _] => fail
               | _ => destruct c; cbv beta iota
               end
           end;
    eexists _, _; (split; [reflexivity | repeat split]).
Qed.

Lemma unknown_page_eq (T : PageTable) (w : World) :
  @unknown_page T Page w =
  (Raise GamePageUnknownError, with_logs (logs w ++ unknown_page_dump T (config w)) w).
Proof. reflexivity. Qed.

Lemma expired_tick (T : PageTable) (fuel : nat) (skip : bool) (tm ot : Timer.t)
      (ac mc : bool) (w w1 : World) :
  first_screenshot skip w = (Ret tt, w1) ->
  fst (Timer.reached (now (image w1)) tm) = true ->
  ui_get_current_page_loop T (S fuel) skip tm ot ac mc w =
  (Raise GamePageUnknownError, with_logs (logs w1 ++ unknown_page_dump T (config w1)) w1).
Proof.
  intros FS E.
  cbn [ui_get_current_page_loop]. unfold bind at 1. rewrite FS.
  unfold bind at 1, clock. unfold Timer.reached in *. cbn [fst] in E. rewrite E.
  apply unknown_page_eq.
Qed.

Lemma unknown_page_after_timeout (T : PageTable) (pre : list Frame) :
  forall (f : Frame) (post : list Frame) (fuel : nat) (skip : bool) (tm ot : Timer.t)
         (ac mc : bool) (w : World) (c : Z),
    frames_to_see skip w = (pre ++ f :: post)%list ->
    (forall g, In g (pre ++ [f]) -> unrecognised T g) ->
    opsi_reset_fleet_preparation_click w < 5 ->
    Timer.limit tm = 10000 -> Timer.count tm = 20 -> Timer.current tm = Some c ->
    10000 < now f - c ->
    20 < Timer.reach_count tm + Z.of_nat (List.length pre) + 1 ->
    (List.length pre < fuel)%nat ->
    exists w',
      ui_get_current_page_loop T fuel skip tm ot ac mc w =
      (Raise GamePageUnknownError,
       with_logs (logs w' ++ unknown_page_dump T (config w)) w').
Proof.
  induction pre as [|g pre IH]; intros f post fuel skip tm ot ac mc w c F U O L C K W R Fu.
  - destruct fuel as [|fuel]; [cbn in Fu; lia|].
    cbn [app] in F.
    destruct (first_screenshot_frames _ _ _ _ F) as (w1 & FS & Im & _ & _ & Co).
    exists w1. rewrite <- Co.
    apply (expired_tick T fuel skip tm ot ac mc w w1 FS).
    unfold Timer.reached, Timer.window_over, Timer.poll. cbn [fst Timer.reach_count].
    rewrite K, L, C, Im. cbn [List.length] in R.
    apply andb_true_intro. split; apply Z.ltb_lt; lia.
  - destruct fuel as [|fuel]; [cbn in Fu; lia|].
    cbn [app] in F.
    destruct (first_screenshot_frames _ _ _ _ F) as (w1 & FS & Im & Pe & Op & Co).
    destruct (fst (Timer.reached (now (image w1)) tm)) eqn:E.
    + exists w1. rewrite <- Co. exact (expired_tick T fuel skip tm ot ac mc w w1 FS E).
    + assert (Ug : unrecognised T (image w1)).
      { rewrite Im. apply U. left. reflexivity. }
      destruct (unrecognised_tick T fuel skip tm ot ac mc w w1 FS Ug ltac:(lia) E)
        as (ot' & w2 & -> & Im2 & Pe2 & Op2 & Co2).
      replace (config w) with (config w2) by congruence.
      apply (IH f post fuel false (Timer.poll tm) ot' true true w2 c).
      * unfold frames_to_see. cbn [andb]. congruence.
      * intros g' Hg'. apply U. right. exact Hg'.
      * lia.
      * exact L.
      * exact C.
      * exact K.
      * exact W.
      * cbn [Timer.poll Timer.reach_count]. cbn [List.length] in R. lia.
      * cbn [List.length] in Fu. lia.
Qed.

Lemma ui_ensure_propagates (T : PageTable) (fuel : nat) (destination : Page) (skip : bool)
      (w : World) (e : Exn) (w' : World) :
  ui_get_current_page T fuel skip w = (Raise e, w') ->
  ui_ensure T fuel destination skip w = (Raise e, w').
Proof. intros H. unfold ui_ensure, bind. rewrite H. reflexivity. Qed.

(** C6.  When for more than the 10 s of the timeout, and more than its 20
    polls, no declared page is recognised on any screenshot, and nothing
    else resets the timeout, [ui_get_current_page] raises
    GamePageUnknownError; so does every pass of its loop that finds the
    timeout reached.  Whenever it raises that error, the last eight lines
    of the log are the diagnostic dump, written out here line by line: the
    warning, the screenshot method, the control method and the server of
    the configuration, and the names of the declared pages as Python prints
    a list of strings.  [ui_ensure] does not catch or retry: it ends in the
    same error in the same world, without calling [ui_goto]. *)
Theorem unknown_page_is_fatal :
  forall (T : PageTable) (fuel : nat) (destination : Page) (w : World)
         (pre : list Frame) (f : Frame) (post : list Frame),
    has_cached_image w = true ->
    image w :: pending w = (pre ++ f :: post)%list ->
    (forall g, In g (pre ++ [f]) -> unrecognised T g) ->
    opsi_reset_fleet_preparation_click w < 5 ->
    10000 < now f - now (image w) ->
    (20 <= List.length pre)%nat ->
    (List.length pre < fuel)%nat ->
    let dump := fun c : Config =>
      [ Warning "Unknown ui page";
        Attr "EMULATOR__SCREENSHOT_METHOD" (Emulator_ScreenshotMethod c);
        Attr "EMULATOR__CONTROL_METHOD" (Emulator_ControlMethod c);
        Attr "SERVER" (SERVER c);
        Warning "Starting from current page is not supported";
        Warning ("Supported page: ["
                 ++ join ", " (map (fun p => "'" ++ name p ++ "'") (iter_pages T))
                 ++ "]");
        Warning ("Supported page: Any page with a " ++ quote_char ++ "HOME"
                 ++ quote_char ++ " button on the upper-right");
        Critical "Please switch to a supported page before starting Alas" ] in
    (exists w',
        ui_get_current_page T fuel true w =
        (Raise GamePageUnknownError, with_logs (logs w' ++ dump (config w)) w')
        /\ ui_ensure T fuel destination true w =
           (Raise GamePageUnknownError, with_logs (logs w' ++ dump (config w)) w'))
    /\ (forall fuel0 skip w0 w1,
           ui_get_current_page T fuel0 skip w0 = (Raise GamePageUnknownError, w1) ->
           (exists ls, logs w1 = (ls ++ dump (config w1))%list)
           /\ ui_ensure T fuel0 destination skip w0 = (Raise GamePageUnknownError, w1))
    /\ (forall fuel0 skip tm ot ac mc w0 w1,
           first_screenshot skip w0 = (Ret tt, w1) ->
           fst (Timer.reached (now (image w1)) tm) = true ->
           ui_get_current_page_loop T (S fuel0) skip tm ot ac mc w0 =
           (Raise GamePageUnknownError, with_logs (logs w1 ++ dump (config w1)) w1)).
Proof.
  intros T fuel destination w pre f post C F U O W L Fu dump.
  assert (D : forall c, unknown_page_dump T c = dump c).
  { intros c. unfold unknown_page_dump, dump, list_repr, quoted.
    rewrite map_map. reflexivity. }
  split; [|split].
  - destruct (unknown_page_after_timeout T pre f post fuel true
                (Timer.start (now (image w)) (Timer.new 10000 20)) (Timer.new 5000 0)
                false false w (now (image w))) as [w' E]; auto.
    + unfold frames_to_see. rewrite C. exact F.
    + cbn. lia.
    + exists w'. rewrite <- D.
      assert (G : ui_get_current_page T fuel true w =
        (Raise GamePageUnknownError,
         with_logs (logs w' ++ unknown_page_dump T (config w)) w')).
      { unfold ui_get_current_page, bind, clock. exact E. }
      split; [exact G | exact (ui_ensure_propagates _ _ _ _ _ _ _ G)].
  - intros fuel0 skip w0 w1 H. split.
    + rewrite <- D. exact (ui_get_current_page_result _ _ _ _ _ _ H eq_refl).
    + exact (ui_ensure_propagates _ _ _ _ _ _ _ H).
  - intros fuel0 skip tm ot ac mc w0 w1. rewrite <- D. apply expired_tick.
Qed.

Lemma blank_view_unrecognised (t : Z) : unrecognised demo (view t []).
Proof.
  unfold unrecognised. repeat split; try reflexivity.
  intros q Hq. cbn in Hq.
  repeat (destruct Hq as [<-|Hq]; [reflexivity|]). contradiction.
Qed.

Lemma blank_views_unrecognised (ts : list Z) (g : Frame) :
  In g (views ts []) -> unrecognised demo g.
Proof.
  unfold views. intros H. apply in_map_iff in H. destruct H as (t & <- & _).
  apply blank_view_unrecognised.
Qed.

Lemma unknown_page_is_fatal_witness :
  let w := boot (view 0 []) (tl (views (half_seconds 23) [])) in
  fst (ui_get_current_page demo 30 true w) = Raise GamePageUnknownError
  /\ fst (ui_ensure demo 30 demo_stage true w) = Raise GamePageUnknownError
  /\ exists ls,
       logs (snd (ui_get_current_page demo 30 true w)) =
       (ls ++ [ Warning "Unknown ui page";
                Attr "EMULATOR__SCREENSHOT_METHOD" "ADB";
                Attr "EMULATOR__CONTROL_METHOD" "ADB";
                Attr "SERVER" "cn";
                Warning "Starting from current page is not supported";
                Warning "Supported page: ['page_main', 'page_main_white', 'page_event', 'page_stage', 'page_coalition']";
                Warning ("Supported page: Any page with a " ++ quote_char ++ "HOME"
                         ++ quote_char ++ " button on the upper-right");
                Critical "Please switch to a supported page before starting Alas" ])%list.
Proof.
  intro w.
  destruct (unknown_page_is_fatal demo 30 demo_stage w
              (views (half_seconds 21) []) (view 10500 [])
              (views [11000] []))
    as [(w' & G & E) _].
  - reflexivity.
  - reflexivity.
  - intros g Hg. apply (blank_views_unrecognised (half_seconds 22)). exact Hg.
  - cbn. lia.
  - cbn. lia.
  - cbn. lia.
  - cbn. lia.
  - rewrite G, E. split; [reflexivity|]. split; [reflexivity|].
    exists (logs w'). reflexivity.
Defined.

(** ** The confirmation window of [ui_click] *)











(** * Further properties *)

(** ** The stage tables of [CoalitionUI] *)

Lemma lookup2_same_keys {A B : Type} (d1 : list (string * string * A)) :
  forall (d2 : list (string * string * B)) (event stage : string),
    map fst d1 = map fst d2 ->
    (lookup2 event stage d1 = None <-> lookup2 event stage d2 = None).
Proof.
  induction d1 as [|[[e s] v] d1 IH]; intros [|[[e' s'] v'] d2] event stage K;
    try discriminate K.
  - split; reflexivity.
  - cbn in K. injection K as <- <- K. cbn [lookup2].
    destruct (String.eqb event e && String.eqb stage s).
    + split; discriminate.
    + apply IH. exact K.
Qed.

Lemma battles_in_range :
  Forall (fun kv => 1 <= snd kv <= 5) battles_dic.
Proof. repeat constructor; cbn; lia. Qed.

Lemma lower_ascii_idempotent (c : ascii) : lower_ascii (lower_ascii c) = lower_ascii c.
Proof. destruct c as [[] [] [] [] [] [] [] []]; reflexivity. Qed.

Lemma lower_idempotent (s : string) : lower (lower s) = lower s.
Proof.
  induction s as [|c s IH]; [reflexivity|].
  cbn [lower]. rewrite lower_ascii_idempotent, IH. reflexivity.
Qed.

(** X1.  [coalition_get_battles] knows exactly the (event, stage) pairs
    [coalition_get_entrance] knows: for a pair with an entrance it answers
    a number of battles between 1 and 5, and for every other pair both
    raise CampaignNameError. *)
Theorem battles_defined_with_entrance :
  forall (event stage : string) (w : World),
    match fst (coalition_get_entrance event stage w),
          fst (coalition_get_battles event stage w) with
    | Ret _, Ret n => 1 <= n <= 5
    | Raise e1, Raise e2 => e1 = CampaignNameError /\ e2 = CampaignNameError
    | _, _ => False
    end.
Proof.
  intros event stage w. unfold coalition_get_entrance, coalition_get_battles.
  pose proof (lookup2_same_keys entrance_dic battles_dic event (lower stage) eq_refl) as K.
  destruct (lookup2 event (lower stage) entrance_dic) as [b|] eqn:E;
    destruct (lookup2 event (lower stage) battles_dic) as [n|] eqn:N.
  - rewrite (dic_get_some _ _ _ _ _ E), (dic_get_some _ _ _ _ _ N). cbn [fst].
    apply lookup2_in in N.
    exact (proj1 (Forall_forall _ _) battles_in_range _ N).
  - destruct K as [_ K]. discriminate (K eq_refl).
  - destruct K as [K _]. discriminate (K eq_refl).
  - rewrite (dic_get_none _ _ _ _ E), (dic_get_none _ _ _ _ N). cbn [fst]. auto.
Qed.

(** ** The letter case of [stage] *)

Lemma handle_fleet_preparation_lower (event s1 s2 mode : string) :
  lower s1 = lower s2 ->
  handle_fleet_preparation event s1 mode = handle_fleet_preparation event s2 mode.
Proof. intros H. unfold handle_fleet_preparation. rewrite H. reflexivity. Qed.

Lemma enter_map_tick_lower (T : PageTable) (event s1 s2 mode : string) (button : Button)
      (bd : option Button) (fp : Button) :
  lower s1 = lower s2 ->
  enter_map_tick T event s1 mode button bd fp = enter_map_tick T event s2 mode button bd fp.
Proof.
  intros H. unfold enter_map_tick, fleet_preparation_step.
  rewrite (handle_fleet_preparation_lower event s1 s2 mode H). reflexivity.
Qed.

Lemma enter_map_loop_lower (T : PageTable) (event s1 s2 mode : string) (button : Button)
      (bd : option Button) (fp : Button) :
  lower s1 = lower s2 ->
  forall (fuel : nat) (skip : bool),
    enter_map_loop T fuel event s1 mode button bd fp skip
    = enter_map_loop T fuel event s2 mode button bd fp skip.
Proof.
  intros H. induction fuel as [|fuel IH]; intros skip; [reflexivity|].
  cbn [enter_map_loop].
  rewrite (enter_map_tick_lower T event s1 s2 mode button bd fp H), (IH false).
  reflexivity.
Qed.

Lemma bind_ext {A B : Type} (m : M A) (k1 k2 : A -> M B) (w : World) :
  (forall a w', k1 a w' = k2 a w') -> bind m k1 w = bind m k2 w.
Proof. intros H. unfold bind. destruct (m w) as [[a| |] w']; auto. Qed.

(** X2.  The letter case of [stage] never matters: two stage names with
    the same lower-case form get the same answer from the three table
    lookups and from [handle_fleet_preparation], and [enter_map] runs the
    same way on both. *)
Theorem stage_case_is_ignored :
  forall (T : PageTable) (fuel : nat) (event s1 s2 mode : string) (skip : bool)
         (w : World),
    lower s1 = lower s2 ->
    coalition_get_entrance event s1 w = coalition_get_entrance event s2 w
    /\ coalition_20251120_get_entrance_difficulty event s1 w
       = coalition_20251120_get_entrance_difficulty event s2 w
    /\ coalition_get_battles event s1 w = coalition_get_battles event s2 w
    /\ handle_fleet_preparation event s1 mode w = handle_fleet_preparation event s2 mode w
    /\ enter_map T fuel event s1 mode skip w = enter_map T fuel event s2 mode skip w.
Proof.
  intros T fuel event s1 s2 mode skip w H.
  unfold coalition_get_entrance, coalition_20251120_get_entrance_difficulty,
    coalition_get_battles.
  rewrite H, (handle_fleet_preparation_lower event s1 s2 mode H).
  repeat (split; [reflexivity|]).
  unfold enter_map, call_method. cbn [lookup coalition_ui_methods String.eqb Ascii.eqb Bool.eqb].
  unfold coalition_get_entrance, coalition_20251120_get_entrance_difficulty.
  rewrite H.
  do 5 (apply bind_ext; intros).
  rewrite (enter_map_loop_lower T event s1 s2 mode _ _ _ H). reflexivity.
Qed.

Lemma stage_case_is_ignored_witness :
  lower "TC1" = lower "tc1"
  /\ enter_map demo 3 "coalition_20230323" "TC1" "single" true
               (boot (view 0 ["COALITION_CHECK"]) [view 100 [BATTLE_PREPARATION]])
     = enter_map demo 3 "coalition_20230323" "tc1" "single" true
                 (boot (view 0 ["COALITION_CHECK"]) [view 100 [BATTLE_PREPARATION]]).
Proof.
  split; [reflexivity|].
  exact (proj2 (proj2 (proj2 (proj2
           (stage_case_is_ignored demo 3 "coalition_20230323" "TC1" "tc1" "single" true
              (boot (view 0 ["COALITION_CHECK"]) [view 100 [BATTLE_PREPARATION]])
              eq_refl))))).
Defined.

(** ** What [enter_map] clicks *)

Lemma entrance_event_is_known (event stage : string) (button : Button) :
  lookup2 event stage entrance_dic = Some button ->
  mem event ["coalition_20230323"; "coalition_20240627"; "coalition_20250626";
             "coalition_20251120"; "coalition_20260122"] = true.
Proof.
  intros H. apply lookup2_in in H.
  assert (D : forallb (fun kv => mem (fst (fst kv))
                         ["coalition_20230323"; "coalition_20240627"; "coalition_20250626";
                          "coalition_20251120"; "coalition_20260122"])
                      entrance_dic = true) by reflexivity.
  rewrite forallb_forall in D. exact (D _ H).
Qed.

Lemma known_event_has_fleet_preparation (event : string) :
  mem event ["coalition_20230323"; "coalition_20240627"; "coalition_20250626";
             "coalition_20251120"; "coalition_20260122"] = true ->
  exists fp, In fp fleet_preparation_buttons
             /\ forall w, coalition_get_fleet_preparation event w = (Ret fp, w).
Proof.
  unfold mem, coalition_get_fleet_preparation, fleet_preparation_buttons.
  cbn [existsb].
  repeat match goal with
         | |- context [String.eqb event ?e] =>
             destruct (String.eqb event e);
             [intros _; eexists; split; [|intros w; reflexivity]; cbn; tauto|]
         end.
  discriminate.
Qed.

Lemma enter_map_is_loop (T : PageTable) (event stage : string) (button : Button) :
  lookup2 event (lower stage) entrance_dic = Some button ->
  String.eqb event "coalition_20260122" = false ->
  exists fp,
    In fp fleet_preparation_buttons
    /\ (forall w, coalition_get_fleet_preparation event w = (Ret fp, w))
    /\ forall (fuel : nat) (mode : string) (skip : bool) (w : World),
        enter_map T fuel event stage mode skip w =
        enter_map_loop T fuel event stage mode button None fp skip enter_map_init w.
Proof.
  intros E N.
  destruct (known_event_has_fleet_preparation event (entrance_event_is_known _ _ _ E))
    as (fp & F & G).
  exists fp. split; [exact F|]. split; [exact G|].
  intros fuel mode skip w.
  destruct (String.eqb event "coalition_20251120") eqn:D.
  - apply String.eqb_eq in D. subst event.
    rewrite (enter_map_20251120_loop T fuel stage mode skip w button E).
    specialize (G w). injection G as <-. reflexivity.
  - unfold enter_map, bind.
    rewrite call_get_entrance, (dic_get_some _ _ _ _ w E), D, N.
    cbn [ret]. rewrite call_get_entrance, (dic_get_some _ _ _ _ w E), (G w).
    reflexivity.
Qed.

Lemma enter_map_events_refl (button fp : Button) (w : World) :
  enter_map_events button fp w w.
Proof. exists []. rewrite app_nil_r. auto. Qed.

Lemma enter_map_events_trans (button fp : Button) (w1 w2 w3 : World) :
  enter_map_events button fp w1 w2 -> enter_map_events button fp w2 w3 ->
  enter_map_events button fp w1 w3.
Proof.
  intros (es & E & F) (es' & E' & F'). exists (es ++ es')%list.
  rewrite E', E, app_assoc, forallb_app, F, F'. auto.
Qed.

Lemma enter_map_events_one (button fp : Button) (w : World) (e : Event) :
  enter_map_event button fp e = true ->
  enter_map_events button fp w (with_events (events w ++ [e]) w).
Proof.
  intros H. exists [e]. world_simpl. cbn [forallb]. rewrite H. auto.
Qed.

Lemma enter_map_events_same (button fp : Button) (w w' : World) :
  events w' = events w -> enter_map_events button fp w w'.
Proof. intros H. exists []. rewrite app_nil_r. auto. Qed.

Lemma coalition_ensure_fleet_events (button fp : Button) (event mode : string)
      (w : World) :
  enter_map_events button fp w (snd (coalition_ensure_fleet event mode w)).
Proof.
  destruct (coalition_ensure_fleet event mode w) as [r w'] eqn:H. cbn [snd].
  cbv beta iota delta [coalition_ensure_fleet bind ret emit log raise] in H.
  repeat (split_head H;
          [ repeat (split_head H;
                    [ injection H as _ <-; apply enter_map_events_one; reflexivity | ]);
            injection H as _ <-; apply enter_map_events_same; reflexivity | ]).
  injection H as _ <-. apply enter_map_events_same. reflexivity.
Qed.

Lemma handle_fleet_preparation_events (button fp : Button) (event stage mode : string)
      (w : World) :
  enter_map_events button fp w (snd (handle_fleet_preparation event stage mode w)).
Proof.
  unfold handle_fleet_preparation.
  repeat match goal with
         | |- context [if ?c && ?d then _ else _] =>
             destruct (c && d); [apply enter_map_events_same; reflexivity|]
         end.
  unfold bind at 1.
  pose proof (coalition_ensure_fleet_events button fp event mode w) as H.
  destruct (coalition_ensure_fleet event mode w) as [[[]|e|] w1]; exact H.
Qed.

Lemma fleet_preparation_step_events (button fp : Button) (event stage mode : string)
      (s : EnterMap) (w : World) :
  enter_map_events button fp w (snd (fleet_preparation_step event stage mode fp s w)).
Proof.
  cbv beta iota delta [fleet_preparation_step bind clock ret appear appear_sim frame
                       click emit Timer.reached].
  destruct (Timer.window_over _ _ && _); cbv beta iota;
    [|apply enter_map_events_same; reflexivity].
  destruct (appear_on (image w) fp (Offset2 20 50) 85 0); [|apply enter_map_events_same; reflexivity].
  pose proof (handle_fleet_preparation_events button fp event stage mode w) as H.
  destruct (handle_fleet_preparation event stage mode w) as [[b|e|] w1];
    cbn [snd] in *; try exact H.
  apply (enter_map_events_trans button fp w w1 _ H).
  apply enter_map_events_one. cbn. rewrite String.eqb_refl, orb_true_r. reflexivity.
Qed.

Lemma enter_map_tick_events (T : PageTable) (event stage mode : string)
      (button fp : Button) (s : EnterMap) (w : World) (r : Outcome (Flow EnterMap))
      (w' : World) :
  enter_map_tick T event stage mode button None fp s w = (r, w') ->
  enter_map_events button fp w w'.
Proof.
  intros H. unfold enter_map_tick in H.
  cbv beta iota delta [fleet_warning bind appear appear_sim frame ret interrupted handle
    emit clock click raise log logs_all Timer.reached
    in_coalition_20251120_difficulty_selection
    in_coalition_20260122_difficulty_selection] in H.
  do 3 (split_head H; [injection H as _ <-; apply enter_map_events_same; reflexivity|]).
  do 6 (split_head H; [injection H as _ <-; apply enter_map_events_same; reflexivity|]).
  split_head H; [injection H as _ <-; apply enter_map_events_same; reflexivity|].
  do 7 (split_head H;
        [injection H as _ <-; apply enter_map_events_one; reflexivity|]).
  match type of H with
  | context [(if ?c then in_coalition T else ?g) w] =>
      replace ((if c then in_coalition T else g) w)
        with ((if c then page_appears T (page_coalition T) (Offset2 20 20) 0 (image w)
               else Ret false), w) in H
        by (destruct c; [rewrite in_coalition_eq|]; reflexivity);
      destruct (if c then page_appears T (page_coalition T) (Offset2 20 20) 0 (image w)
                else Ret false) as [[|]|e0|] eqn:P
  end.
  - injection H as _ <-. apply enter_map_events_one.
    cbn. rewrite String.eqb_refl. reflexivity.
  - cbv beta iota in H.
    assert (D : forall (sel : M bool) (tm : Timer.t) (w0 : World),
               (forall w1, exists a, sel w1 = (Ret a, w1)) ->
               exists tm', difficulty_click sel None tm w0 = (Ret (false, tm'), w0)).
    { intros sel tm w0 Ps.
      destruct (difficulty_click_effect sel None tm w0 Ps)
        as [E | (b & tm' & Hb & _)]; [exact E | discriminate Hb]. }
    repeat match type of H with
           | context [difficulty_click ?sel None ?tm ?w0] =>
               let tm' := fresh "tm" in
               let E := fresh "E" in
               destruct (D sel tm w0) as (tm' & E);
               [ intros; eexists; reflexivity | ];
               rewrite E in H; clear E; cbv beta iota in H
           | context [if ?c then _ else _] =>
               lazymatch c with
               | context [if _ then _ else _] => fail
               | _ => destruct c eqn:?; cbv beta iota in H
               end
           end;
      match type of H with
      | fleet_preparation_step _ _ _ _ ?s0 _ = _ =>
          pose proof (fleet_preparation_step_events button fp event stage mode s0 w) as F;
          rewrite H in F; exact F
      end.
  - injection H as _ <-. apply enter_map_events_same. reflexivity.
  - injection H as _ <-. apply enter_map_events_same. reflexivity.
Qed.

Lemma enter_map_loop_events (T : PageTable) (event stage mode : string)
      (button fp : Button) (fuel : nat) (skip : bool) (s : EnterMap) (w : World) :
  enter_map_events button fp w
    (snd (enter_map_loop T fuel event stage mode button None fp skip s w)).
Proof.
  destruct (enter_map_loop T fuel event stage mode button None fp skip s w)
    as [r w'] eqn:H. cbn [snd].
  apply (enter_map_loop_rule T event stage mode button fp None
           (fun _ w1 => enter_map_events button fp w w1)
           (fun _ w1 => enter_map_events button fp w w1))
    with (fuel := fuel) (skip := skip) (s := s) (w := w) (r := r) (w' := w');
    auto using enter_map_events_refl.
  - intros s0 w0 f rest I0 _.
    apply (enter_map_events_trans button fp w w0 _ I0).
    exists [Screenshot]. world_simpl. auto.
  - intros s0 w0 s1 w1 I0 E.
    exact (enter_map_events_trans button fp w w0 w1 I0
             (enter_map_tick_events _ _ _ _ _ _ _ _ _ _ E)).
  - intros s0 w0 w1 I0 E.
    exact (enter_map_events_trans button fp w w0 w1 I0
             (enter_map_tick_events _ _ _ _ _ _ _ _ _ _ E)).
  - intros s0 w0 e w1 I0 E.
    exact (enter_map_events_trans button fp w w0 w1 I0
             (enter_map_tick_events _ _ _ _ _ _ _ _ _ _ E)).
Qed.

(** X3.  Every device call [enter_map] makes is a screenshot, a click on
    the entrance of the stage, a click on the fleet preparation button of
    the event, a call of one of its seven inherited handlers or
    [fleet_switch.set] with state single or multi: the events of the call
    are of these five kinds, however it ends.  So [enter_map] itself
    clicks no difficulty button and no other asset; what the inherited
    handlers and [Switch.set] click in turn is outside these files and is
    not counted.  An event that has an entrance for the stage always has a
    fleet preparation button; for a stage without entrance nothing is done
    to the device. *)
Theorem enter_map_device_calls :
  forall (T : PageTable) (fuel : nat) (event stage mode : string) (skip : bool)
         (w : World),
    match lookup2 event (lower stage) entrance_dic with
    | Some button =>
        match fst (coalition_get_fleet_preparation event w) with
        | Ret fp =>
            exists es,
              events (snd (enter_map T fuel event stage mode skip w))
              = (events w ++ es)%list
              /\ forall e, In e es ->
                   e = Screenshot \/ e = Click button \/ e = Click fp
                   \/ (exists h, In h enter_map_handlers /\ e = Handled h)
                   \/ e = SwitchSet "FleetMode" "single"
                   \/ e = SwitchSet "FleetMode" "multi"
        | _ => False
        end
    | None =>
        events (snd (enter_map T fuel event stage mode skip w)) = events w
    end.
Proof.
  intros T fuel event stage mode skip w.
  destruct (enter_map T fuel event stage mode skip w) as [r w'] eqn:R. cbn [snd].
  destruct (lookup2 event (lower stage) entrance_dic) as [button|] eqn:E.
  - destruct (known_event_has_fleet_preparation event (entrance_event_is_known _ _ _ E))
      as (fp & F & G).
    rewrite (G w). cbn [fst].
    assert (A : enter_map_events button fp w w').
    { destruct (enter_map_cases _ _ _ _ _ _ _ _ _ R)
        as [(e & _ & _ & Ev & _) | (button' & fp' & E' & F' & G' & _ & L)].
      - exists []. rewrite app_nil_r. auto.
      - rewrite E in E'. injection E' as <-.
        rewrite (G w) in G'. injection G' as <-.
        pose proof (enter_map_loop_events T event stage mode button fp fuel skip
                      enter_map_init w) as H.
        rewrite L in H. exact H. }
    destruct A as (es & Ev & Fa). exists es. split; [exact Ev|].
    intros e He. rewrite forallb_forall in Fa. specialize (Fa e He).
    destruct e as [b| |ms|h0|b|bs|b ms|b| | |sw st]; cbn [enter_map_event] in Fa;
      try discriminate Fa.
    + apply orb_true_iff in Fa. destruct Fa as [Fa|Fa]; apply String.eqb_eq in Fa;
        subst; auto.
    + auto.
    + right. right. right. left. exists h0. split; [|reflexivity].
      unfold mem in Fa. apply existsb_exists in Fa. destruct Fa as (h & Hh & Eq).
      apply String.eqb_eq in Eq. subst. exact Hh.
    + apply andb_true_iff in Fa. destruct Fa as [Sw St].
      apply String.eqb_eq in Sw. subst. unfold mem in St. cbn [existsb] in St.
      repeat (apply orb_true_iff in St; destruct St as [St|St];
              [apply String.eqb_eq in St; subst; auto 7|]).
      discriminate St.
  - unfold enter_map, bind in R. rewrite call_get_entrance in R.
    rewrite (dic_get_none _ _ _ w E) in R. injection R as _ <-. reflexivity.
Qed.

Lemma enter_map_tick_warning (T : PageTable) (event stage mode : string) (button : Button)
      (bd : option Button) (fp : Button) (s : EnterMap) (w : World) :
  within_budget s ->
  fleet_warning_on (image w) = true ->
  exists w',
    enter_map_tick T event stage mode button bd fp s w = (Raise RequestHumanTakeover, w')
    /\ events w' = events w /\ pending w' = pending w /\ image w' = image w.
Proof.
  intros (B1 & B2 & B3) Wn. unfold enter_map_tick.
  replace (5 <? campaign_click s) with false by (symmetry; apply Z.ltb_ge; lia).
  replace (5 <? campaign_difficulty_click s) with false by (symmetry; apply Z.ltb_ge; lia).
  replace (5 <? fleet_click s) with false by (symmetry; apply Z.ltb_ge; lia).
  unfold fleet_warning_on, fleet_warnings in Wn. cbn [existsb] in Wn.
  cbv beta iota delta [fleet_warning bind appear appear_sim frame ret raise logs_all].
  repeat match goal with
         | |- context [if appear_on (image w) ?b (Offset2 20 20) 85 0 then _ else _] =>
             destruct (appear_on (image w) b (Offset2 20 20) 85 0);
             [eexists; split; [reflexivity|]; world_simpl; auto|]
         end.
  discriminate Wn.
Qed.

Lemma enter_map_tick_arrival (T : PageTable) (event stage mode : string) (button : Button)
      (bd : option Button) (fp : Button) (s : EnterMap) (w : World) :
  within_budget s ->
  fleet_warning_on (image w) = false ->
  appear_on (image w) BATTLE_PREPARATION (Offset2 20 20) 85 0 = true ->
  enter_map_tick T event stage mode button bd fp s w = (Ret Break, w).
Proof.
  intros (B1 & B2 & B3) Wn A. unfold enter_map_tick.
  replace (5 <? campaign_click s) with false by (symmetry; apply Z.ltb_ge; lia).
  replace (5 <? campaign_difficulty_click s) with false by (symmetry; apply Z.ltb_ge; lia).
  replace (5 <? fleet_click s) with false by (symmetry; apply Z.ltb_ge; lia).
  unfold fleet_warning_on, fleet_warnings in Wn. cbn [existsb] in Wn.
  repeat match type of Wn with
         | (_ || _) = false => apply orb_false_elim in Wn; destruct Wn as [? Wn]
         end.
  cbv beta iota delta [fleet_warning bind appear appear_sim frame ret raise logs_all].
  repeat match goal with
         | E : appear_on (image w) ?b (Offset2 20 20) 85 0 = false |- _ =>
             rewrite E; clear E
         end.
  rewrite A. reflexivity.
Qed.

Lemma enter_map_init_within_budget : within_budget enter_map_init.
Proof. unfold within_budget. cbn. lia. Qed.

Lemma enter_map_loop_first_pass (T : PageTable) (fuel : nat) (event stage mode : string)
      (button : Button) (bd : option Button) (fp : Button) (s : EnterMap) (w : World) :
  enter_map_loop T (S fuel) event stage mode button bd fp true s w =
  match enter_map_tick T event stage mode button bd fp s w with
  | (Ret Break, w') => (Ret tt, w')
  | (Ret (Continue s'), w') =>
      enter_map_loop T fuel event stage mode button bd fp false s' w'
  | (Raise e, w') => (Raise e, w')
  | (Starved, w') => (Starved, w')
  end.
Proof.
  cbn [enter_map_loop]. unfold bind at 1. cbn [ret]. unfold bind at 1.
  destruct (enter_map_tick T event stage mode button bd fp s w) as [[[s'|]| |] w'];
    reflexivity.
Qed.

(** X4.  On the screenshot [enter_map] starts from, a fleet warning comes
    first: when one of the six warning assets shows, the call raises
    RequestHumanTakeover without a click or a screenshot, even if
    BATTLE_PREPARATION shows as well.  Without a warning, a call that
    starts on the battle preparation page returns at once and leaves
    everything as it was. *)
Theorem enter_map_first_screenshot :
  forall (T : PageTable) (fuel : nat) (event stage mode : string) (w : World)
         (button : Button),
    lookup2 event (lower stage) entrance_dic = Some button ->
    String.eqb event "coalition_20260122" = false ->
    (fleet_warning_on (image w) = true ->
     fst (enter_map T (S fuel) event stage mode true w) = Raise RequestHumanTakeover
     /\ events (snd (enter_map T (S fuel) event stage mode true w)) = events w
     /\ pending (snd (enter_map T (S fuel) event stage mode true w)) = pending w)
    /\ (fleet_warning_on (image w) = false ->
        appear_on (image w) BATTLE_PREPARATION (Offset2 20 20) 85 0 = true ->
        enter_map T (S fuel) event stage mode true w = (Ret tt, w)).
Proof.
  intros T fuel event stage mode w button E N.
  destruct (enter_map_is_loop T event stage button E N) as (fp & _ & _ & L).
  rewrite L, enter_map_loop_first_pass.
  split.
  - intros Wn.
    destruct (enter_map_tick_warning T event stage mode button None fp enter_map_init w
                enter_map_init_within_budget Wn) as (w' & -> & Ev & Pe & _).
    cbn [fst snd]. auto.
  - intros Wn A.
    rewrite (enter_map_tick_arrival T event stage mode button None fp enter_map_init w
               enter_map_init_within_budget Wn A).
    reflexivity.
Qed.

Lemma enter_map_first_screenshot_witness :
  let w := boot (view 0 [EMPTY_FLAGSHIP; BATTLE_PREPARATION]) [] in
  let w' := boot (view 0 [BATTLE_PREPARATION]) [] in
  fleet_warning_on (image w) = true
  /\ fst (enter_map demo 1 "coalition_20230323" "tc1" "single" true w)
     = Raise RequestHumanTakeover
  /\ enter_map demo 1 "coalition_20230323" "tc1" "single" true w' = (Ret tt, w').
Proof.
  intros w w'.
  pose proof (enter_map_first_screenshot demo 0 "coalition_20230323" "tc1" "single" w
                FROSTFALL_TC1 eq_refl eq_refl) as [Hw _].
  pose proof (enter_map_first_screenshot demo 0 "coalition_20230323" "tc1" "single" w'
                FROSTFALL_TC1 eq_refl eq_refl) as [_ Ha].
  split; [reflexivity|]. split.
  - exact (proj1 (Hw eq_refl)).
  - exact (Ha eq_refl eq_refl).
Defined.

(** ** The exceptions of [enter_map] *)

Lemma coalition_ensure_fleet_raises (event mode : string) (w : World) (e : Exn) :
  fst (coalition_ensure_fleet event mode w) = Raise e ->
  e = ScriptError
  /\ mem event ["coalition_20230323"; "coalition_20240627"; "coalition_20250626";
                "coalition_20260122"] = false.
Proof.
  unfold coalition_ensure_fleet, mem. cbn [existsb].
  repeat match goal with
         | |- context [String.eqb event ?ev] =>
             destruct (String.eqb event ev);
             [ unfold bind; cbn [ret];
               destruct (String.eqb mode "single"); [discriminate|];
               destruct (String.eqb mode "multi"); discriminate | ]
         end.
  unfold bind, log, raise. cbn [fst]. intros [= <-]. auto.
Qed.

Lemma handle_fleet_preparation_raises (event stage mode : string) (w : World) (e : Exn) :
  fst (handle_fleet_preparation event stage mode w) = Raise e ->
  e = ScriptError
  /\ mem event ["coalition_20230323"; "coalition_20240627"; "coalition_20250626";
                "coalition_20260122"] = false.
Proof.
  unfold handle_fleet_preparation.
  repeat match goal with
         | |- context [if ?c && ?d then _ else _] => destruct (c && d); [discriminate|]
         end.
  unfold bind at 1.
  destruct (coalition_ensure_fleet event mode w) as [[[]|e'|] w'] eqn:F;
    cbn [fst ret]; try discriminate.
  intros [= <-]. apply (coalition_ensure_fleet_raises event mode w).
  rewrite F. reflexivity.
Qed.

Lemma fleet_preparation_step_raises (event stage mode : string) (fp : Button)
      (s : EnterMap) (w : World) (e : Exn) (w' : World) :
  fleet_preparation_step event stage mode fp s w = (Raise e, w') ->
  fst (handle_fleet_preparation event stage mode w) = Raise e.
Proof.
  unfold fleet_preparation_step.
  cbv beta iota delta [bind clock appear appear_sim frame ret Timer.reached click emit].
  match goal with
  | |- context [if ?c then _ else _] => destruct c; cbv beta iota
  end; [|discriminate].
  destruct (appear_on (image w) fp (Offset2 20 50) 85 0); [|discriminate].
  destruct (handle_fleet_preparation event stage mode w) as [[b|e'|] w1];
    cbn [fst]; [discriminate| |discriminate].
  intros [= <- _]. reflexivity.
Qed.

Lemma difficulty_click_no_raise (sel : M bool) (bd : option Button) (tm : Timer.t)
      (w : World) :
  (forall w0, exists a, sel w0 = (Ret a, w0)) ->
  exists r w', difficulty_click sel bd tm w = (Ret r, w') /\ image w' = image w.
Proof.
  intros P.
  destruct (difficulty_click_effect sel bd tm w P) as [[tm' E] | (b & tm' & _ & E)];
    rewrite E; eexists _, _; split; reflexivity.
Qed.

Lemma enter_map_tick_raises (T : PageTable) (event stage mode : string) (button : Button)
      (bd : option Button) (fp : Button) (s : EnterMap) (w : World) (e : Exn)
      (w' : World) :
  enter_map_tick T event stage mode button bd fp s w = (Raise e, w') ->
  e = RequestHumanTakeover
  \/ e = AttributeError "name"
  \/ exists wa, fst (handle_fleet_preparation event stage mode wa) = Raise e.
Proof.
  intros H. unfold enter_map_tick in H.
  cbv beta iota delta [fleet_warning bind appear appear_sim frame ret interrupted handle
    emit clock click raise log logs_all Timer.reached
    in_coalition_20251120_difficulty_selection
    in_coalition_20260122_difficulty_selection] in H.
  do 3 (split_head H; [injection H as <- _; left; reflexivity|]).
  do 6 (split_head H; [injection H as <- _; left; reflexivity|]).
  split_head H; [discriminate H|].
  do 7 (split_head H; [discriminate H|]).
  match type of H with
  | context [(if ?c then in_coalition T else ?g) w] =>
      replace ((if c then in_coalition T else g) w)
        with ((if c then page_appears T (page_coalition T) (Offset2 20 20) 0 (image w)
               else Ret false), w) in H
        by (destruct c; [rewrite in_coalition_eq|]; reflexivity);
      destruct (if c then page_appears T (page_coalition T) (Offset2 20 20) 0 (image w)
                else Ret false) as [[|]|e0|] eqn:P
  end.
  - discriminate H.
  - cbv beta iota in H.
    assert (F : forall (s0 : EnterMap) (w0 : World),
               fleet_preparation_step event stage mode fp s0 w0 = (Raise e, w') ->
               e = RequestHumanTakeover \/ e = AttributeError "name"
               \/ exists wa, fst (handle_fleet_preparation event stage mode wa) = Raise e).
    { intros s0 w0 E. right. right. exists w0.
      exact (fleet_preparation_step_raises _ _ _ _ _ _ _ _ E). }
    assert (D : forall (sel : M bool) (tm : Timer.t) (w0 : World),
               (forall w1, exists a, sel w1 = (Ret a, w1)) ->
               exists r w1, difficulty_click sel bd tm w0 = (Ret r, w1)).
    { intros sel tm w0 Ps.
      destruct (difficulty_click_no_raise sel bd tm w0 Ps) as (r & w1 & E & _).
      eauto. }
    repeat match type of H with
           | context [difficulty_click ?sel ?b0 ?tm ?w0] =>
               let r := fresh "r" in
               let w1 := fresh "w1" in
               let E := fresh "E" in
               destruct (D sel tm w0) as (r & w1 & E);
               [ intros; eexists; reflexivity | ];
               rewrite E in H; clear E; destruct r as [[|] ?]; cbv beta iota in H
           | context [if ?c then _ else _] =>
               lazymatch c with
               | context [if _ then _ else _] => fail
               | _ => destruct c eqn:?; cbv beta iota in H
               end
           end;
    try discriminate H; eapply F; exact H.
  - injection H as <- _.
    match type of P with
    | (if ?c then _ else _) = _ => destruct c; [|discriminate]
    end.
    right. left. exact (page_appears_raise _ _ _ _ _ _ P).
  - exfalso.
    match type of P with
    | (if ?c then _ else _) = _ => destruct c; [|discriminate]
    end.
    exact (page_appears_not_starved _ _ _ _ _ P).
Qed.

Lemma enter_map_loop_raises (T : PageTable) (event stage mode : string)
      (button fp : Button) (bd : option Button) (fuel : nat) (skip : bool) (s : EnterMap)
      (w : World) (e : Exn) (w' : World) :
  enter_map_loop T fuel event stage mode button bd fp skip s w = (Raise e, w') ->
  e = RequestHumanTakeover
  \/ e = AttributeError "name"
  \/ exists wa, fst (handle_fleet_preparation event stage mode wa) = Raise e.
Proof.
  intros H.
  apply (enter_map_loop_rule T event stage mode button fp bd
           (fun _ _ => True)
           (fun r _ => forall e0, r = Raise e0 ->
                e0 = RequestHumanTakeover
                \/ e0 = AttributeError "name"
                \/ exists wa, fst (handle_fleet_preparation event stage mode wa) = Raise e0))
    with (fuel := fuel) (skip := skip) (s := s) (w := w) (r := Raise e) (w' := w');
    auto; try discriminate.
  intros s0 w0 e0 w1 _ E e1 [= <-].
  exact (enter_map_tick_raises _ _ _ _ _ _ _ _ _ _ _ E).
Qed.

Lemma enter_map_20260122_missing_method (T : PageTable) (fuel : nat) (stage mode : string)
      (skip : bool) (w : World) (button : Button) :
  lookup2 "coalition_20260122" (lower stage) entrance_dic = Some button ->
  enter_map T fuel "coalition_20260122" stage mode skip w =
  (Raise (AttributeError "coalition_20260122_get_entrance_difficulty"), w).
Proof.
  intros E. unfold enter_map, bind.
  rewrite call_get_entrance, (dic_get_some _ _ _ _ w E).
  cbn [String.eqb Ascii.eqb Bool.eqb ret].
  rewrite call_get_entrance, (dic_get_some _ _ _ _ w E), call_missing_20260122.
  reflexivity.
Qed.

(** X5.  The exceptions of [enter_map].  It raises CampaignNameError
    exactly for a stage without an entrance: whenever the stage has none,
    and never otherwise.  It raises an attribute error only for
    coalition_20260122, whose difficulty method does not exist, or for a
    page without a check button; ScriptError only for coalition_20251120,
    the event [coalition_ensure_fleet] has no switch for; and otherwise
    only RequestHumanTakeover.  It never raises a KeyError, a
    GamePageUnknownError or a GameNotRunningError. *)
Theorem enter_map_exceptions :
  forall (T : PageTable) (fuel : nat) (event stage mode : string) (skip : bool)
         (w : World),
    (fst (enter_map T fuel event stage mode skip w) = Raise CampaignNameError
     <-> lookup2 event (lower stage) entrance_dic = None)
    /\ forall e : Exn,
        fst (enter_map T fuel event stage mode skip w) = Raise e ->
        match e with
        | RequestHumanTakeover => True
        | CampaignNameError => lookup2 event (lower stage) entrance_dic = None
        | AttributeError a =>
            (a = "coalition_20260122_get_entrance_difficulty"
             /\ event = "coalition_20260122")
            \/ a = "name"
        | ScriptError => event = "coalition_20251120"
        | GamePageUnknownError | GameNotRunningError | KeyError => False
        end.
Proof.
  intros T fuel event stage mode skip w.
  assert (Only : forall e : Exn,
             fst (enter_map T fuel event stage mode skip w) = Raise e ->
             match e with
             | RequestHumanTakeover => True
             | CampaignNameError => lookup2 event (lower stage) entrance_dic = None
             | AttributeError a =>
                 (a = "coalition_20260122_get_entrance_difficulty"
                  /\ event = "coalition_20260122")
                 \/ a = "name"
             | ScriptError => event = "coalition_20251120"
             | GamePageUnknownError | GameNotRunningError | KeyError => False
             end).
  { intros e H.
    destruct (lookup2 event (lower stage) entrance_dic) as [button|] eqn:E.
    2:{ unfold enter_map, bind in H. rewrite call_get_entrance in H.
        rewrite (dic_get_none _ _ _ w E) in H. injection H as <-. reflexivity. }
    destruct (String.eqb event "coalition_20260122") eqn:N.
    { apply String.eqb_eq in N. subst event.
      rewrite (enter_map_20260122_missing_method T fuel stage mode skip w button E) in H.
      injection H as <-. left. auto. }
    destruct (enter_map_is_loop T event stage button E N) as (fp & _ & _ & L).
    rewrite L in H.
    destruct (enter_map_loop T fuel event stage mode button None fp skip enter_map_init w)
      as [r w'] eqn:R.
    cbn [fst] in H. subst r.
    destruct (enter_map_loop_raises _ _ _ _ _ _ _ _ _ _ _ _ _ R) as [-> | [-> | [wa F]]].
    - exact I.
    - right. reflexivity.
    - destruct (handle_fleet_preparation_raises _ _ _ _ _ F) as [-> Four].
      pose proof (entrance_event_is_known _ _ _ E) as Five.
      unfold mem in Four, Five. cbn [existsb] in Four, Five.
      rewrite N in Four.
      repeat match type of Four with
             | (_ || _) = false => apply orb_false_elim in Four; destruct Four as [? Four]
             end.
      repeat match goal with
             | F0 : String.eqb event _ = false |- _ => rewrite F0 in Five; clear F0
             end.
      cbn [orb] in Five. rewrite orb_false_r in Five.
      apply String.eqb_eq in Five. exact Five. }
  split; [|exact Only]. split.
  - intros H. exact (Only CampaignNameError H).
  - intros E. unfold enter_map, bind. rewrite call_get_entrance.
    rewrite (dic_get_none _ _ _ w E). reflexivity.
Qed.

Lemma enter_map_exceptions_witness :
  let w := boot (view 0 [DAL_FLEET_PREPARATION]) [] in
  fst (enter_map demo 1 "coalition_20251120" "area1-normal" "single" true w)
  = Raise ScriptError
  /\ "coalition_20251120" = "coalition_20251120"
  /\ fst (enter_map demo 1 "coalition_20251120" "area7" "single" true w)
     = Raise CampaignNameError.
Proof.
  intro w.
  assert (R : fst (enter_map demo 1 "coalition_20251120" "area1-normal" "single" true w)
              = Raise ScriptError) by reflexivity.
  split; [exact R|]. split.
  - exact (proj2 (enter_map_exceptions demo 1 "coalition_20251120" "area1-normal" "single"
                    true w) ScriptError R).
  - exact (proj2 (proj1 (enter_map_exceptions demo 1 "coalition_20251120" "area7" "single"
                           true w)) eq_refl).
Defined.

(** ** Mode and fleet switches *)

Lemma known_event_has_entrance (event : string) :
  mem event ["coalition_20230323"; "coalition_20240627"; "coalition_20250626";
             "coalition_20251120"; "coalition_20260122"] = true ->
  exists stage button, lookup2 event stage entrance_dic = Some button.
Proof.
  unfold mem. cbn [existsb]. intros H.
  repeat match type of H with
         | (String.eqb event ?ev || _) = true =>
             destruct (String.eqb event ev) eqn:?; [clear H | cbn [orb] in H]
         end;
    try discriminate H;
    match goal with
    | E : String.eqb event _ = true |- _ => apply String.eqb_eq in E; subst event
    end;
    [ exists "tc1" | exists "easy" | exists "easy" | exists "area1-normal"
      | exists "area1-normal" ];
    eexists; reflexivity.
Qed.

Lemma coalition_ensure_mode_cases (event mode : string) (w : World) :
  (mem event ["coalition_20230323"; "coalition_20240627"; "coalition_20250626";
              "coalition_20251120"; "coalition_20260122"] = true
   /\ fst (coalition_ensure_mode event mode w) = Ret tt
   /\ (events (snd (coalition_ensure_mode event mode w)) = events w
       \/ events (snd (coalition_ensure_mode event mode w))
          = (events w ++ [SwitchSet "CoalitionMode" mode])%list)
   /\ (event = "coalition_20251120" -> snd (coalition_ensure_mode event mode w) = w))
  \/ (mem event ["coalition_20230323"; "coalition_20240627"; "coalition_20250626";
                 "coalition_20251120"; "coalition_20260122"] = false
      /\ coalition_ensure_mode event mode w =
         (Raise ScriptError,
          with_logs (logs w ++ [Error ("MODE_SWITCH is not defined in event " ++ event)]) w)).
Proof.
  unfold coalition_ensure_mode, mem. cbn [existsb].
  destruct (String.eqb event "coalition_20230323") eqn:E1;
    [| destruct (String.eqb event "coalition_20240627") eqn:E2;
       [| destruct (String.eqb event "coalition_20250626") eqn:E3;
          [| destruct (String.eqb event "coalition_20260122") eqn:E5;
             [| destruct (String.eqb event "coalition_20251120") eqn:E4 ]]]].
  1-4: left; rewrite ?orb_true_r; split; [reflexivity|];
       unfold bind; cbn [ret]; unfold switch_set, add_state, new_switch;
       cbn [switch_name];
       destruct (String.eqb mode "story") eqn:Ms;
       [ apply String.eqb_eq in Ms; subst mode; split; [reflexivity|];
         split; [right; reflexivity|]
       | destruct (String.eqb mode "battle") eqn:Mb;
         [ apply String.eqb_eq in Mb; subst mode; split; [reflexivity|];
           split; [right; reflexivity|]
         | split; [reflexivity|]; split; [left; reflexivity|] ] ];
       intros ->; discriminate.
  - left. split; [reflexivity|]. unfold bind. cbn [ret fst snd]. auto.
  - right. split; [reflexivity|]. reflexivity.
Qed.

(** X6.  The mode switch, the fleet switch and the entrance table agree
    on the events but for one: [coalition_ensure_mode] raises ScriptError
    exactly for an event that has no stage in the entrance table, and
    otherwise returns having set the CoalitionMode switch at most once and
    clicked nothing; for coalition_20251120 it does nothing at all.
    [coalition_ensure_fleet] fails for the same events and for
    coalition_20251120 as well. *)
Theorem mode_and_fleet_switch_events :
  forall (event mode : string) (w : World),
    (fst (coalition_ensure_mode event mode w) = Raise ScriptError
     <-> forall stage, lookup2 event stage entrance_dic = None)
    /\ (fst (coalition_ensure_mode event mode w) = Ret tt
        \/ fst (coalition_ensure_mode event mode w) = Raise ScriptError)
    /\ (events (snd (coalition_ensure_mode event mode w)) = events w
        \/ events (snd (coalition_ensure_mode event mode w))
           = (events w ++ [SwitchSet "CoalitionMode" mode])%list)
    /\ (event = "coalition_20251120" -> coalition_ensure_mode event mode w = (Ret tt, w))
    /\ (fst (coalition_ensure_fleet event mode w) = Raise ScriptError
        <-> event = "coalition_20251120"
            \/ forall stage, lookup2 event stage entrance_dic = None).
Proof.
  intros event mode w.
  assert (Five : mem event ["coalition_20230323"; "coalition_20240627";
                            "coalition_20250626"; "coalition_20251120";
                            "coalition_20260122"] = false
                 <-> forall stage, lookup2 event stage entrance_dic = None).
  { split.
    - intros F stage.
      destruct (lookup2 event stage entrance_dic) as [b|] eqn:E; [|reflexivity].
      rewrite (entrance_event_is_known _ _ _ E) in F. discriminate.
    - intros N.
      destruct (mem event _) eqn:K; [|reflexivity].
      destruct (known_event_has_entrance event K) as (stage & b & E).
      rewrite N in E. discriminate. }
  split; [|split; [|split; [|split]]].
  - destruct (coalition_ensure_mode_cases event mode w) as [(K & R & _) | (K & R)];
      rewrite R; cbn [fst].
    + split; [discriminate|]. intros N. apply Five in N. congruence.
    + split; [intros _; apply Five; exact K | reflexivity].
  - destruct (coalition_ensure_mode_cases event mode w) as [(_ & R & _) | (_ & R)];
      rewrite R; auto.
  - destruct (coalition_ensure_mode_cases event mode w) as [(_ & _ & Ev & _) | (_ & R)].
    + exact Ev.
    + rewrite R. left. reflexivity.
  - intros ->. reflexivity.
  - split.
    + intros R. destruct (coalition_ensure_fleet_raises _ _ _ _ R) as [_ Four].
      destruct (String.eqb event "coalition_20251120") eqn:D.
      * left. apply String.eqb_eq. exact D.
      * right. apply Five. unfold mem in *. cbn [existsb] in *.
        repeat match type of Four with
               | (_ || _) = false => apply orb_false_elim in Four; destruct Four as [? Four]
               end.
        repeat match goal with
               | F0 : String.eqb event _ = false |- _ => rewrite F0; clear F0
               end.
        reflexivity.
    + intros [-> | N]; [reflexivity|].
      apply Five in N. unfold mem in N. cbn [existsb] in N.
      repeat match type of N with
             | (_ || _) = false => apply orb_false_elim in N; destruct N as [? N]
             end.
      unfold coalition_ensure_fleet.
      repeat match goal with
             | F0 : String.eqb event _ = false |- _ => rewrite F0; clear F0
             end.
      reflexivity.
Qed.

(** ** Leaving a coalition stage: [coalition_map_exit] *)

Lemma clicks_of_snoc_other (b b' : Button) (es : list Event) :
  b <> b' -> clicks_of b (es ++ [Click b']) = clicks_of b es.
Proof.
  intros N. rewrite clicks_of_app, (clicks_of_click_other b b' N). lia.
Qed.

Lemma clicks_snoc_click (b : Button) (es : list Event) :
  clicks (es ++ [Click b]) = clicks es + 1.
Proof. rewrite clicks_app. reflexivity. Qed.

Lemma coalition_map_exit_loop_effect (T : PageTable) (fp : Button) (fuel : nat) :
  forall (skip : bool) (w : World) (r : Outcome unit) (w' : World),
    coalition_map_exit_loop T fuel fp skip w = (r, w') ->
    (forall b,
        b <> BACK_ARROW -> b <> NEONCITY_PREPARATION_EXIT ->
        b <> DAL_DIFFICULTY_EXIT -> b <> Light_Shadow_Fashion_EXIT ->
        clicks_of b (events w') = clicks_of b (events w))
    /\ clicks (events w') + Z.of_nat (List.length (pending w'))
       <= clicks (events w) + Z.of_nat (List.length (frames_from skip w))
    /\ (forall e, r = Raise e -> e = AttributeError "name")
    /\ (r = Ret tt ->
        page_appears T (page_coalition T) (Offset2 20 20) 0 (image w') = Ret true
        \/ page_appears T (page_main T) (Offset2 30 30) 0 (image w') = Ret true).
Proof.
  induction fuel as [|fuel IH]; intros skip w r w' H.
  - injection H as <- <-. unfold frames_from.
    split; [reflexivity|]. split; [destruct skip; cbn [List.length]; lia|].
    split; discriminate.
  - cbn [coalition_map_exit_loop] in H.
    assert (Body : forall w1,
               (a <- in_coalition T ;;
                if a then ret tt
                else
                  b <- is_in_main T (Offset2 30 30) 0 ;;
                  if b then ret tt
                  else
                    c <- appear BATTLE_PREPARATION (Offset2 20 20) 3000 ;;
                    if c then
                      click BACK_ARROW ;;
                      coalition_map_exit_loop T fuel fp false
                    else
                      d <- appear fp (Offset2 20 20) 3000 ;;
                      if d then
                        click NEONCITY_PREPARATION_EXIT ;;
                        coalition_map_exit_loop T fuel fp false
                      else
                        e <- appear_then_click DAL_DIFFICULTY_EXIT (Offset2 20 20) 3000 ;;
                        if e then coalition_map_exit_loop T fuel fp false
                        else
                          _ <- appear_then_click Light_Shadow_Fashion_EXIT
                                                 (Offset2 20 20) 3000 ;;
                          coalition_map_exit_loop T fuel fp false) w1 = (r, w') ->
               (forall b,
                   b <> BACK_ARROW -> b <> NEONCITY_PREPARATION_EXIT ->
                   b <> DAL_DIFFICULTY_EXIT -> b <> Light_Shadow_Fashion_EXIT ->
                   clicks_of b (events w') = clicks_of b (events w1))
               /\ clicks (events w') + Z.of_nat (List.length (pending w'))
                  <= clicks (events w1) + 1 + Z.of_nat (List.length (pending w1))
               /\ (forall e, r = Raise e -> e = AttributeError "name")
               /\ (r = Ret tt ->
                   page_appears T (page_coalition T) (Offset2 20 20) 0 (image w') = Ret true
                   \/ page_appears T (page_main T) (Offset2 30 30) 0 (image w') = Ret true)).
    { intros w1 B.
      assert (Next : forall (es : list Event) (w2 : World),
                 w2 = with_events (events w1 ++ es) w1 ->
                 (forall b,
                     b <> BACK_ARROW -> b <> NEONCITY_PREPARATION_EXIT ->
                     b <> DAL_DIFFICULTY_EXIT -> b <> Light_Shadow_Fashion_EXIT ->
                     clicks_of b es = 0) ->
                 clicks es <= 1 ->
                 coalition_map_exit_loop T fuel fp false w2 = (r, w') ->
                 (forall b,
                     b <> BACK_ARROW -> b <> NEONCITY_PREPARATION_EXIT ->
                     b <> DAL_DIFFICULTY_EXIT -> b <> Light_Shadow_Fashion_EXIT ->
                     clicks_of b (events w') = clicks_of b (events w1))
                 /\ clicks (events w') + Z.of_nat (List.length (pending w'))
                    <= clicks (events w1) + 1 + Z.of_nat (List.length (pending w1))
                 /\ (forall e, r = Raise e -> e = AttributeError "name")
                 /\ (r = Ret tt ->
                     page_appears T (page_coalition T) (Offset2 20 20) 0 (image w')
                     = Ret true
                     \/ page_appears T (page_main T) (Offset2 30 30) 0 (image w')
                        = Ret true)).
      { intros es w2 -> Other One L.
        destruct (IH _ _ _ _ L) as (O & C & R & A).
        unfold frames_from in C. revert O C. world_simpl. intros O C.
        split; [|split; [|split]]; auto.
        - intros b N1 N2 N3 N4. rewrite (O b N1 N2 N3 N4), clicks_of_app.
          rewrite (Other b N1 N2 N3 N4). lia.
        - rewrite clicks_app in C. lia. }
      unfold bind at 1 in B. rewrite in_coalition_eq in B.
      destruct (page_appears T (page_coalition T) (Offset2 20 20) 0 (image w1))
        as [[|]|e|] eqn:P1.
      - injection B as <- <-. split; [reflexivity|]. split; [lia|].
        split; [discriminate|]. auto.
      - unfold bind at 1, is_in_main in B. rewrite ui_page_appear_eq in B.
        destruct (page_appears T (page_main T) (Offset2 30 30) 0 (image w1))
          as [[|]|e|] eqn:P2.
        + injection B as <- <-. split; [reflexivity|]. split; [lia|].
          split; [discriminate|]. auto.
        + unfold bind at 1 in B. rewrite appear_eq in B.
          destruct (appear_on (image w1) BATTLE_PREPARATION (Offset2 20 20) 85 3000).
          { unfold bind, click, emit in B.
            apply (Next [Click BACK_ARROW] _ eq_refl); [| reflexivity | exact B].
            intros b N1 _ _ _. apply clicks_of_click_other. exact N1. }
          unfold bind at 1 in B. rewrite appear_eq in B.
          destruct (appear_on (image w1) fp (Offset2 20 20) 85 3000).
          { unfold bind, click, emit in B.
            apply (Next [Click NEONCITY_PREPARATION_EXIT] _ eq_refl);
              [| reflexivity | exact B].
            intros b _ N2 _ _. apply clicks_of_click_other. exact N2. }
          unfold bind at 1, appear_then_click in B. unfold bind at 1 in B.
          rewrite appear_eq in B.
          destruct (appear_on (image w1) DAL_DIFFICULTY_EXIT (Offset2 20 20) 85 3000).
          { unfold bind, click, emit in B. cbn [ret] in B.
            apply (Next [Click DAL_DIFFICULTY_EXIT] _ eq_refl);
              [| reflexivity | exact B].
            intros b _ _ N3 _. apply clicks_of_click_other. exact N3. }
          cbn [ret] in B. unfold bind at 1, appear_then_click in B.
          unfold bind at 1 in B. rewrite appear_eq in B.
          destruct (appear_on (image w1) Light_Shadow_Fashion_EXIT (Offset2 20 20) 85 3000).
          { unfold bind, click, emit in B. cbn [ret] in B.
            apply (Next [Click Light_Shadow_Fashion_EXIT] _ eq_refl);
              [| reflexivity | exact B].
            intros b _ _ _ N4. apply clicks_of_click_other. exact N4. }
          cbn [ret] in B.
          apply (Next [] w1); [| reflexivity | cbn; lia | exact B].
          destruct w1; unfold with_events; cbn; rewrite app_nil_r; reflexivity.
        + injection B as <- <-. split; [reflexivity|]. split; [lia|].
          split; [|discriminate].
          intros e0 [= <-]. exact (page_appears_raise _ _ _ _ _ _ P2).
        + exfalso. exact (page_appears_not_starved _ _ _ _ _ P2).
      - injection B as <- <-. split; [reflexivity|]. split; [lia|].
        split; [|discriminate].
        intros e0 [= <-]. exact (page_appears_raise _ _ _ _ _ _ P1).
      - exfalso. exact (page_appears_not_starved _ _ _ _ _ P1). }
    unfold bind at 1 in H. destruct skip.
    + cbn [ret] in H. destruct (Body w H) as (O & C & R & A).
      unfold frames_from. cbn [List.length]. repeat split; auto. lia.
    + unfold screenshot in H. unfold frames_from.
      destruct (pending w) as [|f rest] eqn:P.
      * injection H as <- <-. rewrite P. split; [reflexivity|]. split; [cbn; lia|].
        split; discriminate.
      * destruct (Body _ H) as (O & C & R & A). revert O C. world_simpl. intros O C.
        split; [|split; [|split]]; auto.
        -- intros b N1 N2 N3 N4. rewrite (O b N1 N2 N3 N4), clicks_of_app.
           cbn. lia.
        -- rewrite clicks_app in C. cbn [List.length]. cbn in C |- *. lia.
Qed.

(** X7.  [coalition_map_exit] has no click budget and clicks nothing but
    its four exit buttons.  For an event without a fleet preparation
    button it raises ScriptError before looking at the screen.  Otherwise
    every click is on BACK_ARROW, NEONCITY_PREPARATION_EXIT,
    DAL_DIFFICULTY_EXIT or Light_Shadow_Fashion_EXIT, there is at most one
    click for each screenshot looked at, the only exception that can come
    out is the attribute error of a page without a check button (never
    RequestHumanTakeover), and when the call returns the screenshot shows
    the coalition page or the main page. *)
Theorem coalition_map_exit_clicks_exits_only :
  forall (T : PageTable) (fuel : nat) (event : string) (w : World),
    match fst (coalition_get_fleet_preparation event w) with
    | Ret _ =>
        (forall b,
            b <> BACK_ARROW -> b <> NEONCITY_PREPARATION_EXIT ->
            b <> DAL_DIFFICULTY_EXIT -> b <> Light_Shadow_Fashion_EXIT ->
            clicks_of b (events (snd (coalition_map_exit T fuel event w)))
            = clicks_of b (events w))
        /\ clicks (events (snd (coalition_map_exit T fuel event w))) - clicks (events w)
           <= 1 + Z.of_nat (List.length (pending w))
              - Z.of_nat (List.length (pending (snd (coalition_map_exit T fuel event w))))
        /\ (forall e, fst (coalition_map_exit T fuel event w) = Raise e ->
                      e = AttributeError "name")
        /\ (fst (coalition_map_exit T fuel event w) = Ret tt ->
            page_appears T (page_coalition T) (Offset2 20 20) 0
                         (image (snd (coalition_map_exit T fuel event w))) = Ret true
            \/ page_appears T (page_main T) (Offset2 30 30) 0
                            (image (snd (coalition_map_exit T fuel event w))) = Ret true)
    | _ =>
        coalition_map_exit T fuel event w =
        (Raise ScriptError,
         with_logs (logs w ++ [Error ("FLEET_PREPARATION is not defined in event " ++ event)])
                   w)
    end.
Proof.
  intros T fuel event w.
  destruct (coalition_get_fleet_preparation_cases event w) as [(fp & _ & G) | G].
  - rewrite G. cbn [fst].
    assert (E : coalition_map_exit T fuel event w
                = coalition_map_exit_loop T fuel fp true w).
    { unfold coalition_map_exit, bind. rewrite G. reflexivity. }
    rewrite E.
    destruct (coalition_map_exit_loop T fuel fp true w) as [r w'] eqn:L.
    destruct (coalition_map_exit_loop_effect T fp fuel true w r w' L) as (O & C & R & A).
    cbn [fst snd]. unfold frames_from in C. cbn [List.length] in C.
    repeat split; auto. lia.
  - rewrite G. cbn [fst]. unfold coalition_map_exit, bind. rewrite G. reflexivity.
Qed.

(** X8.  [coalition_map_exit] is idempotent at its target: called for a
    known event while the screenshot at hand already shows the coalition
    page or the main page, it returns at once and changes nothing: no
    click, no screenshot. *)
Theorem coalition_map_exit_already_out :
  forall (T : PageTable) (fuel : nat) (event : string) (w : World) (fp : Button),
    coalition_get_fleet_preparation event w = (Ret fp, w) ->
    page_appears T (page_coalition T) (Offset2 20 20) 0 (image w) = Ret true
    \/ (page_appears T (page_coalition T) (Offset2 20 20) 0 (image w) = Ret false
        /\ page_appears T (page_main T) (Offset2 30 30) 0 (image w) = Ret true) ->
    coalition_map_exit T (S fuel) event w = (Ret tt, w).
Proof.
  intros T fuel event w fp G P.
  unfold coalition_map_exit. unfold bind at 1. rewrite G.
  cbn [coalition_map_exit_loop]. unfold bind at 1. cbn [ret].
  unfold bind at 1. rewrite in_coalition_eq.
  destruct P as [P | [P Q]]; rewrite P; [reflexivity|].
  unfold bind at 1, is_in_main. rewrite ui_page_appear_eq, Q. reflexivity.
Qed.

Lemma coalition_map_exit_already_out_witness :
  let w := boot (view 0 ["MAIN_CHECK"]) [] in
  coalition_get_fleet_preparation "coalition_20250626" w = (Ret NEONCITY_FLEET_PREPARATION, w)
  /\ coalition_map_exit demo 1 "coalition_20250626" w = (Ret tt, w).
Proof.
  intro w. split; [reflexivity|].
  apply (coalition_map_exit_already_out demo 0 "coalition_20250626" w
           NEONCITY_FLEET_PREPARATION eq_refl).
  right. split; reflexivity.
Defined.


(** ** [ui_main_appear_then_click] *)

Lemma link_to_eq (source page : Page) (w : World) :
  link_to source page w =
  match lookup (name page) (links source) with
  | Some button => (Ret button, w)
  | None => (Raise KeyError, w)
  end.
Proof. unfold link_to. destruct (lookup (name page) (links source)); reflexivity. Qed.

Lemma ui_main_appear_then_click_eq (T : PageTable) (page : Page) (off : Offset)
      (interval : Z) (w : World) :
  ui_main_appear_then_click T page off interval w =
  match check_on (page_main T) off interval (image w) with
  | Ret true =>
      match lookup (name page) (links (page_main T)) with
      | Some button => (Ret true, with_events (events w ++ [Click button]) w)
      | None => (Raise KeyError, w)
      end
  | Ret false =>
      match check_on (page_main_white T) (Offset2 5 5) interval (image w) with
      | Ret true =>
          match lookup (name page) (links (page_main_white T)) with
          | Some button => (Ret true, with_events (events w ++ [Click button]) w)
          | None => (Raise KeyError, w)
          end
      | Ret false => (Ret false, w)
      | Raise e => (Raise e, w)
      | Starved => (Starved, w)
      end
  | Raise e => (Raise e, w)
  | Starved => (Starved, w)
  end.
Proof.
  unfold ui_main_appear_then_click. unfold bind at 1. rewrite appear_check_eq.
  destruct (check_on (page_main T) off interval (image w)) as [[|]|e|]; try reflexivity.
  - unfold bind at 1. rewrite link_to_eq.
    destruct (lookup (name page) (links (page_main T))); reflexivity.
  - unfold bind at 1. rewrite appear_check_eq.
    destruct (check_on (page_main_white T) (Offset2 5 5) interval (image w))
      as [[|]|e|]; try reflexivity.
    unfold bind at 1. rewrite link_to_eq.
    destruct (lookup (name page) (links (page_main_white T))); reflexivity.
Qed.

(** X10.  [ui_main_appear_then_click] clicks at most once and says so: it
    answers True exactly when it clicked, and then the click is on the
    link to [page] of the main page that appears, the plain main page
    (tested at the caller's offset) before the white one (tested at
    offset (5, 5)); it answers False only when neither appears, and then
    it has changed nothing.  When the main page that appears has no link
    to [page] the call fails with KeyError without clicking and without
    trying the other main page. *)
Theorem ui_main_appear_then_click_contract :
  forall (T : PageTable) (page : Page) (off : Offset) (interval : Z) (w : World),
    let on_main := check_on (page_main T) off interval (image w) in
    let on_white := check_on (page_main_white T) (Offset2 5 5) interval (image w) in
    match fst (ui_main_appear_then_click T page off interval w) with
    | Ret true =>
        exists button,
          snd (ui_main_appear_then_click T page off interval w)
          = with_events (events w ++ [Click button]) w
          /\ ((on_main = Ret true
               /\ lookup (name page) (links (page_main T)) = Some button)
              \/ (on_main = Ret false /\ on_white = Ret true
                  /\ lookup (name page) (links (page_main_white T)) = Some button))
    | Ret false =>
        snd (ui_main_appear_then_click T page off interval w) = w
        /\ on_main = Ret false /\ on_white = Ret false
    | Raise e =>
        snd (ui_main_appear_then_click T page off interval w) = w
        /\ ((e = KeyError /\ on_main = Ret true
             /\ lookup (name page) (links (page_main T)) = None)
            \/ (e = KeyError /\ on_main = Ret false /\ on_white = Ret true
                /\ lookup (name page) (links (page_main_white T)) = None)
            \/ e = AttributeError "name")
    | Starved => False
    end.
Proof.
  intros T page off interval w on_main on_white.
  rewrite ui_main_appear_then_click_eq. fold on_main on_white.
  destruct on_main as [[|]|e|] eqn:M.
  - destruct (lookup (name page) (links (page_main T))) as [button|] eqn:L; cbn [fst snd].
    + exists button. auto.
    + auto.
  - destruct on_white as [[|]|e|] eqn:W'.
    + destruct (lookup (name page) (links (page_main_white T))) as [button|] eqn:L;
        cbn [fst snd].
      * exists button. auto.
      * split; [reflexivity|]. right. left. auto.
    + cbn [fst snd]. auto.
    + cbn [fst snd]. split; [reflexivity|]. right. right.
      unfold on_white, check_on in W'.
      destruct (check_button (page_main_white T)); [discriminate|].
      injection W' as <-. reflexivity.
    + exfalso. exact (check_on_not_starved _ _ _ _ W').
  - cbn [fst snd]. split; [reflexivity|]. right. right.
    unfold on_main, check_on in M.
    destruct (check_button (page_main T)); [discriminate|].
    injection M as <-. reflexivity.
  - exfalso. exact (check_on_not_starved _ _ _ _ M).
Qed.

(** ** [ui_ensure_index] *)

Lemma emits_effect (es : list Event) (w : World) :
  exists w2, emits es w = (Ret tt, w2) /\ adds w w2 es.
Proof.
  unfold emits, adds. destruct es as [|e es].
  - exists w. rewrite app_nil_r. auto.
  - eexists. split; [reflexivity|]. world_simpl. auto.
Qed.

Lemma clicks_of_repeat_other (b b' : Button) (n : nat) :
  b <> b' -> clicks_of b (repeat (Click b') n) = 0.
Proof.
  intros N. induction n as [|n IH]; [reflexivity|].
  change (repeat (Click b') (S n)) with ([Click b'] ++ repeat (Click b') n)%list.
  rewrite clicks_of_app, IH, (clicks_of_click_other b b' N). reflexivity.
Qed.

Lemma clicks_of_repeat_same (b : Button) (n : nat) :
  clicks_of b (repeat (Click b) n) = Z.of_nat n.
Proof.
  induction n as [|n IH]; [reflexivity|].
  change (repeat (Click b) (S n)) with ([Click b] ++ repeat (Click b) n)%list.
  rewrite clicks_of_app, IH, clicks_of_click_same. lia.
Qed.

(** What the click step of [ui_ensure_index] adds. *)
Lemma index_click_effect (fast : bool) (button : Button) (n : Z) (interval : Z * Z)
      (w : World) :
  exists w2,
    (if fast then multi_click button n interval else click button) w = (Ret tt, w2)
    /\ adds w w2 (if fast then repeat (Click button) (Z.to_nat n) else [Click button]).
Proof.
  destruct fast.
  - unfold multi_click. apply emits_effect.
  - unfold click, emit. eexists. split; [reflexivity|]. unfold adds. world_simpl. auto.
Qed.

Lemma index_clicks_other (fast : bool) (button b : Button) (n : Z) :
  b <> button ->
  clicks_of b (if fast then repeat (Click button) (Z.to_nat n) else [Click button]) = 0.
Proof.
  intros N. destruct fast.
  - apply clicks_of_repeat_other. exact N.
  - apply clicks_of_click_other. exact N.
Qed.

Lemma ui_ensure_index_loop_effect (index : Z) (letter : Frame -> Z)
      (next_button prev_button : Button) (fast : bool) (interval : Z * Z) (fuel : nat) :
  forall (skip : bool) (retry : Timer.t) (w : World) (r : Outcome unit) (w' : World),
    ui_ensure_index_loop fuel index letter next_button prev_button skip fast interval
                         retry w = (r, w') ->
    (forall b, b <> next_button -> b <> prev_button ->
               clicks_of b (events w') = clicks_of b (events w))
    /\ (forall e, r <> Raise e)
    /\ (r = Ret tt -> letter (image w') = index)
    /\ ((forall g, In g (frames_from skip w) -> letter g <= index) ->
        next_button <> prev_button ->
        clicks_of prev_button (events w') = clicks_of prev_button (events w))
    /\ ((forall g, In g (frames_from skip w) -> index <= letter g) ->
        next_button <> prev_button ->
        clicks_of next_button (events w') = clicks_of next_button (events w)).
Proof.
  induction fuel as [|fuel IH]; intros skip retry w r w' H.
  - injection H as <- <-. repeat split; try reflexivity; discriminate.
  - cbn [ui_ensure_index_loop] in H.
    assert (Body : forall w1,
               (f <- frame ;;
                log (Attr "Index" (str_of_int (letter f))) ;;
                if index - letter f =? 0 then ret tt
                else
                  t <- clock ;;
                  let '(due, retry0) := Timer.reached t retry in
                  if due then
                    (if fast
                     then multi_click (if 0 <? index - letter f then next_button
                                       else prev_button)
                                      (Z.abs (index - letter f)) interval
                     else click (if 0 <? index - letter f then next_button
                                 else prev_button)) ;;
                    t' <- clock ;;
                    ui_ensure_index_loop fuel index letter next_button prev_button false
                                         fast interval (Timer.reset t' retry0)
                  else
                    ui_ensure_index_loop fuel index letter next_button prev_button false
                                         fast interval retry0) w1 = (r, w') ->
               (forall b, b <> next_button -> b <> prev_button ->
                          clicks_of b (events w') = clicks_of b (events w1))
               /\ (forall e, r <> Raise e)
               /\ (r = Ret tt -> letter (image w') = index)
               /\ ((forall g, In g (image w1 :: pending w1) -> letter g <= index) ->
                   next_button <> prev_button ->
                   clicks_of prev_button (events w') = clicks_of prev_button (events w1))
               /\ ((forall g, In g (image w1 :: pending w1) -> index <= letter g) ->
                   next_button <> prev_button ->
                   clicks_of next_button (events w') = clicks_of next_button (events w1))).
    { intros w1 B.
      unfold bind at 1, frame in B. unfold bind at 1, log in B.
      set (w2 := with_logs (logs w1 ++ [Attr "Index" (str_of_int (letter (image w1)))]) w1)
        in B.
      destruct (index - letter (image w1) =? 0) eqn:Z0.
      { injection B as <- <-. apply Z.eqb_eq in Z0.
        subst w2. world_simpl. repeat split; try reflexivity; try discriminate. lia. }
      apply Z.eqb_neq in Z0.
      unfold bind at 1, clock in B.
      destruct (Timer.reached (now (image w2)) retry) as [due retry0].
      destruct due.
      - unfold bind at 1 in B.
        set (button := if 0 <? index - letter (image w1) then next_button
                       else prev_button) in B.
        destruct (index_click_effect fast button (Z.abs (index - letter (image w1)))
                    interval w2) as (w3 & E & A3 & P3 & Ev3).
        rewrite E in B. unfold bind at 1, clock in B.
        destruct (IH _ _ _ _ _ B) as (O & NR & Rt & Lo & Hi).
        assert (I3 : image w3 = image w1) by (rewrite A3; reflexivity).
        assert (Q3 : pending w3 = pending w1) by (rewrite P3; reflexivity).
        assert (Ev : events w3
                     = (events w1 ++ (if fast
                                      then repeat (Click button)
                                             (Z.to_nat (Z.abs (index - letter (image w1))))
                                      else [Click button]))%list)
          by (rewrite Ev3; reflexivity).
        unfold frames_from in Lo, Hi. rewrite Q3 in Lo, Hi.
        split; [|split; [|split; [|split]]]; auto.
        + intros b N1 N2. rewrite (O b N1 N2), Ev, clicks_of_app.
          rewrite index_clicks_other; [lia|].
          unfold button. destruct (0 <? index - letter (image w1)); assumption.
        + intros Le Ne. rewrite Lo; auto.
          * rewrite Ev, clicks_of_app, index_clicks_other; [lia|].
            unfold button.
            replace (0 <? index - letter (image w1)) with true; [auto|].
            symmetry. apply Z.ltb_lt.
            specialize (Le (image w1) (or_introl eq_refl)). lia.
          * intros g G. apply Le. right. exact G.
        + intros Ge Ne. rewrite Hi; auto.
          * rewrite Ev, clicks_of_app, index_clicks_other; [lia|].
            unfold button.
            replace (0 <? index - letter (image w1)) with false; [auto|].
            symmetry. apply Z.ltb_ge.
            specialize (Ge (image w1) (or_introl eq_refl)). lia.
          * intros g G. apply Ge. right. exact G.
      - destruct (IH _ _ _ _ _ B) as (O & NR & Rt & Lo & Hi).
        unfold frames_from in Lo, Hi. subst w2. revert O Lo Hi. world_simpl.
        intros O Lo Hi.
        split; [|split; [|split; [|split]]]; auto.
        + intros Le Ne. apply Lo; auto. intros g G. apply Le. right. exact G.
        + intros Ge Ne. apply Hi; auto. intros g G. apply Ge. right. exact G. }
    unfold bind at 1 in H. destruct skip.
    + cbn [ret] in H. exact (Body w H).
    + unfold screenshot in H. unfold frames_from.
      destruct (pending w) as [|f rest] eqn:P.
      * injection H as <- <-. repeat split; try reflexivity; discriminate.
      * destruct (Body _ H) as (O & NR & Rt & Lo & Hi).
        revert O Lo Hi. world_simpl. intros O Lo Hi.
        split; [|split; [|split; [|split]]]; auto.
        -- intros b N1 N2. rewrite (O b N1 N2), clicks_of_app. cbn. lia.
        -- intros Le Ne. rewrite (Lo Le Ne), clicks_of_app. cbn. lia.
        -- intros Ge Ne. rewrite (Hi Ge Ne), clicks_of_app. cbn. lia.
Qed.

Lemma enter_frame_clicks (skip : bool) (w : World) (g : Frame) (rest : list Frame) :
  frames_from skip w = g :: rest ->
  exists w1,
    (if skip then ret tt else screenshot) w = (Ret tt, w1)
    /\ image w1 = g /\ pending w1 = rest
    /\ forall b, clicks_of b (events w1) = clicks_of b (events w).
Proof.
  unfold frames_from, screenshot. intros H. destruct skip.
  - injection H as <- <-. exists w. auto.
  - rewrite H. eexists. split; [reflexivity|]. world_simpl.
    repeat split. intros b. rewrite clicks_of_app. cbn. lia.
Qed.

(** X11.  [ui_ensure_index] clicks nothing but [next_button] and
    [prev_button], never raises, and returns only on a screenshot whose
    index reads as the target. *)
Theorem ui_ensure_index_clicks_and_result :
  forall (fuel : nat) (index : Z) (letter : Frame -> Z) (next_button prev_button : Button)
         (skip fast : bool) (interval : Z * Z) (w : World),
    (forall b, b <> next_button -> b <> prev_button ->
               clicks_of b (events (snd (ui_ensure_index fuel index letter next_button
                                           prev_button skip fast interval w)))
               = clicks_of b (events w))
    /\ (fst (ui_ensure_index fuel index letter next_button prev_button skip fast
                             interval w) = Ret tt
        \/ fst (ui_ensure_index fuel index letter next_button prev_button skip fast
                                interval w) = Starved)
    /\ (fst (ui_ensure_index fuel index letter next_button prev_button skip fast
                             interval w) = Ret tt ->
        letter (image (snd (ui_ensure_index fuel index letter next_button prev_button
                              skip fast interval w))) = index).
Proof.
  intros fuel index letter next_button prev_button skip fast interval w.
  unfold ui_ensure_index.
  destruct (ui_ensure_index_loop fuel index letter next_button prev_button skip fast
              interval (Timer.new 1000 2) w) as [r w'] eqn:R.
  destruct (ui_ensure_index_loop_effect _ _ _ _ _ _ _ _ _ _ _ _ R) as (O & NR & Rt & _).
  cbn [fst snd]. split; [exact O|]. split; [|exact Rt].
  destruct r as [[]|e|]; auto. exfalso. exact (NR e eq_refl).
Qed.

(** X12.  [ui_ensure_index] only moves towards the target: as long as no
    screenshot reads an index above the target, [prev_button] is never
    clicked, and as long as none reads one below it, [next_button] is
    never clicked. *)
Theorem ui_ensure_index_direction :
  forall (fuel : nat) (index : Z) (letter : Frame -> Z) (next_button prev_button : Button)
         (skip fast : bool) (interval : Z * Z) (w : World),
    next_button <> prev_button ->
    ((forall g, In g (frames_from skip w) -> letter g <= index) ->
     clicks_of prev_button
               (events (snd (ui_ensure_index fuel index letter next_button prev_button
                               skip fast interval w)))
     = clicks_of prev_button (events w))
    /\ ((forall g, In g (frames_from skip w) -> index <= letter g) ->
        clicks_of next_button
                  (events (snd (ui_ensure_index fuel index letter next_button prev_button
                                  skip fast interval w)))
        = clicks_of next_button (events w)).
Proof.
  intros fuel index letter next_button prev_button skip fast interval w Ne.
  unfold ui_ensure_index.
  destruct (ui_ensure_index_loop fuel index letter next_button prev_button skip fast
              interval (Timer.new 1000 2) w) as [r w'] eqn:R.
  destruct (ui_ensure_index_loop_effect _ _ _ _ _ _ _ _ _ _ _ _ R) as (_ & _ & _ & Lo & Hi).
  cbn [snd]. split; intros B; auto.
Qed.

Lemma ui_ensure_index_direction_witness :
  let w := boot (view 0 []) [view 100 []; view 200 []] in
  "NEXT" <> "PREV"
  /\ clicks_of "PREV"
               (events (snd (ui_ensure_index 5 3 (fun f => now f / 100) "NEXT" "PREV"
                               true true (200, 300) w)))
     = clicks_of "PREV" (events w).
Proof.
  intro w.
  assert (Ne : "NEXT" <> "PREV") by discriminate.
  split; [exact Ne|].
  apply (proj1 (ui_ensure_index_direction 5 3 (fun f => now f / 100) "NEXT" "PREV"
                  true true (200, 300) w Ne)).
  intros g G. cbn in G.
  repeat (destruct G as [<-|G]; [vm_compute; discriminate|]). contradiction.
Defined.

(** X13.  The first correction of [ui_ensure_index] is made at once and
    has the size of the difference: when the first screenshot reads an
    index other than the target, [next_button] (target above) or
    [prev_button] (target below) is clicked |index - current| times in
    fast mode and once otherwise, before the next screenshot; if that one
    reads the target, the call returns there. *)
Theorem ui_ensure_index_first_correction :
  forall (fuel : nat) (index : Z) (letter : Frame -> Z) (next_button prev_button : Button)
         (skip fast : bool) (interval : Z * Z) (w : World) (g1 g2 : Frame)
         (rest : list Frame),
    frames_from skip w = g1 :: g2 :: rest ->
    letter g1 <> index ->
    letter g2 = index ->
    let button := if letter g1 <? index then next_button else prev_button in
    fst (ui_ensure_index (S (S fuel)) index letter next_button prev_button skip fast
                         interval w) = Ret tt
    /\ image (snd (ui_ensure_index (S (S fuel)) index letter next_button prev_button
                                   skip fast interval w)) = g2
    /\ pending (snd (ui_ensure_index (S (S fuel)) index letter next_button prev_button
                                     skip fast interval w)) = rest
    /\ clicks_of button
                 (events (snd (ui_ensure_index (S (S fuel)) index letter next_button
                                 prev_button skip fast interval w)))
       = clicks_of button (events w)
         + (if fast then Z.abs (index - letter g1) else 1).
Proof.
  intros fuel index letter next_button prev_button skip fast interval w g1 g2 rest
         F N1 N2 button.
  unfold ui_ensure_index.
  destruct (ui_ensure_index_loop (S (S fuel)) index letter next_button prev_button skip
              fast interval (Timer.new 1000 2) w) as [r w'] eqn:R.
  cbn [fst snd].
  destruct (enter_frame_clicks skip w g1 (g2 :: rest) F) as (w1 & E1 & I1 & P1 & C1).
  cbn [ui_ensure_index_loop] in R. unfold bind at 1 in R. rewrite E1 in R.
  unfold bind at 1, frame in R. unfold bind at 1, log in R.
  rewrite I1 in R.
  replace (index - letter g1 =? 0) with false in R by (symmetry; apply Z.eqb_neq; lia).
  unfold bind at 1, clock in R.
  cbn [Timer.reached Timer.new Timer.window_over Timer.current Timer.poll Timer.count
       Timer.reach_count Timer.limit andb] in R.
  replace (2 <? 2 + 1) with true in R by reflexivity.
  cbv beta iota in R.
  replace (0 <? index - letter g1) with (letter g1 <? index) in R
    by (destruct (Z.ltb_spec (letter g1) index), (Z.ltb_spec 0 (index - letter g1));
        (reflexivity || lia)).
  fold button in R.
  set (w2 := with_logs (logs w1 ++ [Attr "Index" (str_of_int (letter g1))]) w1) in R.
  destruct (index_click_effect fast button (Z.abs (index - letter g1)) interval w2)
    as (w3 & E3 & A3 & P3 & Ev3).
  unfold bind at 1 in R. rewrite E3 in R. unfold bind at 1 in R.
  unfold bind at 1 in R.
  assert (S3 : screenshot w3
               = (Ret tt, with_image g2 rest (with_events (events w3 ++ [Screenshot]) w3))).
  { unfold screenshot. rewrite P3. subst w2. world_simpl. rewrite P1. reflexivity. }
  rewrite S3 in R.
  unfold bind at 1 in R. unfold bind at 1 in R.
  revert R. world_simpl. rewrite N2, Z.sub_diag. cbn [Z.eqb ret].
  intros [= <- <-]. world_simpl.
  repeat split.
  rewrite clicks_of_app, Ev3. subst w2. world_simpl. rewrite clicks_of_app, C1.
  cbn [clicks_of filter is_click List.length Z.of_nat].
  destruct fast.
  - rewrite clicks_of_repeat_same, Z2Nat.id; lia.
  - rewrite clicks_of_click_same. lia.
Qed.

Lemma ui_ensure_index_first_correction_witness :
  let w := boot (view 500 []) [view 200 []] in
  frames_from true w = [view 500 []; view 200 []]
  /\ clicks_of "PREV"
               (events (snd (ui_ensure_index 2 2 (fun f => now f / 100) "NEXT" "PREV"
                               true true (200, 300) w)))
     = 3.
Proof.
  intro w. split; [reflexivity|].
  exact (proj2 (proj2 (proj2
           (ui_ensure_index_first_correction 0 2 (fun f => now f / 100) "NEXT" "PREV"
              true true (200, 300) w (view 500 []) (view 200 []) []
              eq_refl ltac:(vm_compute; discriminate) eq_refl)))).
Defined.


(** ** One action for each call of the interrupt chain *)

Ltac count_all_clicks :=
  repeat match goal with
         | |- context [clicks [?e]] =>
             let v := eval vm_compute in (clicks [e]) in
             change (clicks [e]) with v
         end.

Ltac rule_action H :=
  cbv beta iota delta [action click_rule see_click_rule see_then_click_rule handler_rule
                       idle_rule click emit bind ret interval_reset opsi_click_incr] in H;
  injection H as <- <-; world_simpl;
  rewrite ?clicks_of_app, ?clicks_app; count_clicks; count_all_clicks.

Lemma rules_click_once (get_ship : bool) :
  Forall (fun q => forall w r w',
              action q w = (r, w') ->
              0 <= clicks (events w') - clicks (events w) <= 1)
         (ui_additional_rules get_ship).
Proof.
  unfold ui_additional_rules, rules_before_withdraw, rules_after_withdraw,
    ui_page_os_popups_rules, ui_page_main_popups_rules.
  cbn [app].
  repeat (apply Forall_cons; [intros w r w' H; rule_action H; lia|]).
  apply Forall_nil.
Qed.

Lemma rules_leave_get_ship :
  Forall (fun q => forall w r w',
              predicate q (image w) = true ->
              action q w = (r, w') ->
              clicks_of GET_SHIP (events w') = clicks_of GET_SHIP (events w))
         (ui_additional_rules false).
Proof.
  unfold ui_additional_rules, rules_before_withdraw, rules_after_withdraw,
    ui_page_os_popups_rules, ui_page_main_popups_rules.
  cbn [app].
  repeat (apply Forall_cons;
          [intros w r w' Hp H;
           first [discriminate Hp | rule_action H; lia]|]).
  apply Forall_nil.
Qed.

Lemma run_once_effect (P : World -> World -> Prop) (rules : list InterruptRule)
      (w : World) (r : Outcome bool) (w' : World) :
  Forall (fun q => forall w r w',
              predicate q (image w) = true -> action q w = (r, w') -> P w w') rules ->
  run_once rules w = (r, w') ->
  (r = Ret false /\ w' = w) \/ (r <> Ret false /\ P w w').
Proof.
  intros F. induction F as [|q rules Hq F IH]; intros H.
  - injection H as <- <-. left. auto.
  - rewrite run_once_cons in H. destruct (predicate q (image w)) eqn:Pq; [|auto].
    right. unfold bind, ret in H.
    destruct (action q w) as [[[]|e|] w1] eqn:E; injection H as <- <-;
      (split; [discriminate | exact (Hq _ _ _ Pq E)]).
Qed.

Lemma withdraw_step_clicks (w : World) (r : Outcome bool) (w' : World) :
  withdraw_step w = (r, w') ->
  0 <= clicks (events w') - clicks (events w) <= 1
  /\ (r <> Ret true -> clicks (events w') = clicks (events w))
  /\ clicks_of GET_SHIP (events w') = clicks_of GET_SHIP (events w)
  /\ (forall e, r <> Raise e).
Proof.
  intros H.
  cbv beta iota delta [withdraw_step bind appear appear_sim frame ret emit screenshot
                       appear_then_click click interval_reset log] in H.
  world_simpl_in H.
  destruct (appear_on (image w) WITHDRAW (Offset2 30 30) 85 3000).
  - destruct (pending w) as [|f rest].
    + injection H as <- <-. world_simpl.
      rewrite ?clicks_of_app, ?clicks_app. count_clicks. count_all_clicks.
      repeat split; try lia; discriminate.
    + cbv beta iota in H. world_simpl_in H.
      destruct (appear_on f WITHDRAW (Offset2 30 30) 85 0);
        injection H as <- <-; world_simpl;
        rewrite ?clicks_of_app, ?clicks_app; count_clicks; count_all_clicks;
        repeat split; try lia; try discriminate; congruence.
  - injection H as <- <-. repeat split; try lia; discriminate.
Qed.

(** X14.  One call of [ui_additional] clicks at most once, and when it
    answers False, or raises, it has clicked nothing. *)
Theorem ui_additional_clicks_at_most_once :
  forall (get_ship : bool) (w : World),
    0 <= clicks (events (snd (ui_additional get_ship w))) - clicks (events w) <= 1
    /\ (fst (ui_additional get_ship w) <> Ret true ->
        clicks (events (snd (ui_additional get_ship w))) = clicks (events w)).
Proof.
  intros get_ship w.
  destruct (ui_additional get_ship w) as [r w'] eqn:H. cbn [fst snd].
  destruct (Z.le_gt_cases 5 (opsi_reset_fleet_preparation_click w)) as [G|G].
  { rewrite (ui_additional_exhausted _ _ G) in H. injection H as <- <-.
    world_simpl. split; [lia | reflexivity]. }
  pose proof (rules_click_once get_ship) as F.
  unfold ui_additional_rules in F. apply Forall_app in F. destruct F as [F1 F2].
  assert (Weak : forall rules,
             Forall (fun q => forall w r w',
                         action q w = (r, w') ->
                         0 <= clicks (events w') - clicks (events w) <= 1) rules ->
             Forall (fun q => forall w r w',
                         predicate q (image w) = true -> action q w = (r, w') ->
                         0 <= clicks (events w') - clicks (events w) <= 1) rules).
  { intros rules. apply Forall_impl. intros q Hq w0 r0 w0' _. apply Hq. }
  apply Weak in F1, F2.
  rewrite (ui_additional_is_chain _ _ G), or_else_eval in H.
  destruct (run_once (rules_before_withdraw get_ship) w) as [r1 w1] eqn:E1.
  destruct (run_once_effect _ _ _ _ _ F1 E1) as [[-> ->] | [N1 C1]].
  - rewrite or_else_eval in H.
    destruct (withdraw_step w) as [r2 w2] eqn:E2.
    destruct (withdraw_step_clicks _ _ _ E2) as (C2 & K2 & _ & NR).
    destruct r2 as [[|]|e|].
    + injection H as <- <-. split; [exact C2 | congruence].
    + specialize (K2 ltac:(discriminate)).
      destruct (run_once_effect _ _ _ _ _ F2 H) as [[-> ->] | [N3 C3]].
      * split; [lia | intros _; exact K2].
      * split; [lia|]. intros N.
        exfalso. destruct r as [[|]|e|]; try congruence.
        -- destruct (run_once_quiet _ _ _ _ (proj2 (proj1 (Forall_app _ _ _)
                       (rules_are_quiet get_ship))) H) as [_ [b B]]. discriminate B.
        -- destruct (run_once_quiet _ _ _ _ (proj2 (proj1 (Forall_app _ _ _)
                       (rules_are_quiet get_ship))) H) as [_ [b B]]. discriminate B.
    + exfalso. exact (NR e eq_refl).
    + injection H as <- <-. split; [exact C2 | intros _; apply K2; discriminate].
  - destruct (run_once_quiet _ _ _ _ (proj1 (proj1 (Forall_app _ _ _)
                (rules_are_quiet get_ship))) E1) as [_ [b ->]].
    destruct b; [|congruence].
    injection H as <- <-. split; [exact C1 | congruence].
Qed.

(** X15.  With [get_ship=False] the interrupt chain leaves the GET_SHIP
    popup alone: neither [ui_page_main_popups] nor [ui_additional] ever
    clicks GET_SHIP. *)
Theorem get_ship_popup_is_left_alone :
  forall (w : World),
    clicks_of GET_SHIP (events (snd (ui_additional false w)))
    = clicks_of GET_SHIP (events w)
    /\ clicks_of GET_SHIP (events (snd (ui_page_main_popups false w)))
       = clicks_of GET_SHIP (events w).
Proof.
  intros w.
  pose proof rules_leave_get_ship as F.
  unfold ui_additional_rules in F. apply Forall_app in F. destruct F as [F1 F2].
  split.
  - destruct (ui_additional false w) as [r w'] eqn:H. cbn [snd].
    destruct (Z.le_gt_cases 5 (opsi_reset_fleet_preparation_click w)) as [G|G].
    { rewrite (ui_additional_exhausted _ _ G) in H. injection H as <- <-. reflexivity. }
    rewrite (ui_additional_is_chain _ _ G), or_else_eval in H.
    destruct (run_once (rules_before_withdraw false) w) as [r1 w1] eqn:E1.
    destruct (run_once_effect _ _ _ _ _ F1 E1) as [[-> ->] | [N1 C1]].
    + rewrite or_else_eval in H.
      destruct (withdraw_step w) as [r2 w2] eqn:E2.
      destruct (withdraw_step_clicks _ _ _ E2) as (_ & _ & K2 & NR).
      destruct r2 as [[|]|e|]; try (injection H as <- <-; exact K2).
      destruct (run_once_effect _ _ _ _ _ F2 H) as [[-> ->] | [N3 C3]]; congruence.
    + destruct r1 as [[|]|e|]; try congruence; injection H as <- <-; exact C1.
  - rewrite ui_page_main_popups_is_chain.
    destruct (run_once (ui_page_main_popups_rules false) w) as [r w'] eqn:H. cbn [snd].
    unfold rules_before_withdraw in F1.
    apply Forall_app in F1. destruct F1 as [_ F1].
    apply Forall_app in F1. destruct F1 as [_ F1].
    apply Forall_app in F1. destruct F1 as [F1 _].
    destruct (run_once_effect _ _ _ _ _ F1 H) as [[-> ->] | [N1 C1]];
      [reflexivity | exact C1].
Qed.

(** X16.  The OpSi click counter is never reset: once it has reached 5,
    whatever screenshots and interrupt-chain calls follow, every call of
    [ui_additional] raises RequestHumanTakeover without touching the
    device, and RESET_FLEET_PREPARATION is never clicked again. *)
Theorem opsi_budget_is_never_restored :
  forall (w0 w1 : World) (get_ship : bool),
    5 <= opsi_reset_fleet_preparation_click w0 ->
    interrupt_activity w0 w1 ->
    opsi_reset_fleet_preparation_click w1 = opsi_reset_fleet_preparation_click w0
    /\ clicks_of RESET_FLEET_PREPARATION (events w1)
       = clicks_of RESET_FLEET_PREPARATION (events w0)
    /\ fst (ui_additional get_ship w1) = Raise RequestHumanTakeover
    /\ events (snd (ui_additional get_ship w1)) = events w1.
Proof.
  intros w0 w1 get_ship G A.
  assert (Inv : opsi_reset_fleet_preparation_click w1
                = opsi_reset_fleet_preparation_click w0
                /\ clicks_of RESET_FLEET_PREPARATION (events w1)
                   = clicks_of RESET_FLEET_PREPARATION (events w0)).
  { induction A as [|w w' _ IH S|gs w r w' _ IH H].
    - auto.
    - destruct IH as [I1 I2]. unfold screenshot in S.
      destruct (pending w); [discriminate|]. injection S as <-.
      world_simpl. rewrite clicks_of_app. count_clicks. split; [exact I1 | lia].
    - destruct IH as [I1 I2].
      rewrite (ui_additional_exhausted gs w) in H by lia.
      injection H as _ <-. world_simpl. auto. }
  destruct Inv as [I1 I2].
  split; [exact I1|]. split; [exact I2|].
  rewrite (ui_additional_exhausted get_ship w1) by lia. auto.
Qed.

Lemma opsi_budget_is_never_restored_witness :
  let w0 := with_opsi_click 5 (boot (view 0 [RESET_FLEET_PREPARATION]) []) in
  5 <= opsi_reset_fleet_preparation_click w0
  /\ fst (ui_additional true w0) = Raise RequestHumanTakeover.
Proof.
  intro w0.
  assert (G : 5 <= opsi_reset_fleet_preparation_click w0) by (cbn; lia).
  split; [exact G|].
  exact (proj1 (proj2 (proj2
           (opsi_budget_is_never_restored w0 w0 true G (activity_start w0))))).
Defined.

(** ** What [ui_click] clicks, and how often *)

Lemma trigger_is_silent (appear_button : AppearButton) (off : Offset) :
  silent_trigger appear_button ->
  silent (match appear_button with
          | AppearSingle b => appear b off 0
          | AppearCallable f => f
          end).
Proof.
  destruct appear_button as [b|f]; intros S; [|exact S].
  intros w. rewrite appear_eq. eexists _, w, []. split; [reflexivity|].
  split; [apply adds_nil | reflexivity].
Qed.

(** One pass through the loop of [ui_click]. *)
Lemma ui_click_pass (cond : Frame -> bool) (click_button : Button) (check : CheckButton)
      (appear_button : AppearButton) (additional : option (M bool)) (off : Offset) :
  observes check off cond ->
  silent_trigger appear_button ->
  silent_hook additional ->
  forall (fuel : nat) (skip : bool) (ct cft : Timer.t) (w : World) (r : Outcome unit)
         (w' : World),
    ui_click_loop (S fuel) click_button check appear_button additional off skip ct cft w
    = (r, w') ->
    (frames_from skip w = [] /\ r = Starved /\ w' = w)
    \/ exists g rest w1,
        frames_from skip w = g :: rest
        /\ image w1 = g /\ pending w1 = rest
        /\ (forall b, clicks_of b (events w1) = clicks_of b (events w))
        /\ ((r = Ret tt /\ w' = w1)
            \/ (exists es w2 cft',
                   fst (Timer.reached (now g) ct) = true
                   /\ adds w1 w2 (es ++ [Click click_button])
                   /\ clicks es = 0
                   /\ ui_click_loop fuel click_button check appear_button additional off
                                    false (Timer.reset (now g) (Timer.poll ct)) cft' w2
                      = (r, w'))
            \/ (exists es w2 cft',
                   adds w1 w2 es
                   /\ clicks es = 0
                   /\ ui_click_loop fuel click_button check appear_button additional off
                                    false (Timer.poll ct) cft' w2
                      = (r, w'))).
Proof.
  intros Hc Ht Hh fuel skip ct cft w r w' H.
  cbn [ui_click_loop] in H. unfold bind at 1 in H.
  destruct (frames_from skip w) as [|g rest] eqn:F.
  { left. unfold frames_from in F. destruct skip; [discriminate|].
    unfold screenshot in H. rewrite F in H. injection H as <- <-. auto. }
  right.
  destruct (enter_frame_clicks skip w g rest F) as (w1 & E1 & I1 & P1 & C1).
  rewrite E1 in H. exists g, rest, w1.
  split; [reflexivity|]. split; [exact I1|]. split; [exact P1|]. split; [exact C1|].
  unfold bind at 1 in H. rewrite (Hc w1) in H.
  unfold bind at 1, clock in H. rewrite I1 in H.
  destruct (if cond g then Timer.reached (now g) cft
            else (false, Timer.reset (now g) cft)) as [arrived cft'].
  destruct arrived.
  { injection H as <- <-. left. auto. }
  right.
  change (Timer.reached (now g) ct)
    with (fst (Timer.reached (now g) ct), Timer.poll ct) in H.
  cbv beta iota in H.
  destruct (fst (Timer.reached (now g) ct)) eqn:Due.
  - unfold bind at 1 in H.
    destruct (trigger_is_silent appear_button off Ht w1) as (b & w2 & es & E2 & A2 & K2).
    rewrite E2 in H. destruct b.
    + left. unfold bind at 1, click, emit in H. unfold bind at 1, clock in H.
      revert H. world_simpl. intros H.
      destruct A2 as (I2 & P2 & Ev2).
      exists es, (with_events (events w2 ++ [Click click_button]) w2), cft'.
      split; [reflexivity|]. split.
      { unfold adds. world_simpl. rewrite Ev2, app_assoc. auto. }
      split; [exact K2|]. rewrite I2, I1 in H. exact H.
    + right. destruct additional as [hook|].
      * unfold bind at 1 in H.
        destruct (Hh w2) as (b3 & w3 & es3 & E3 & A3 & K3). rewrite E3 in H.
        destruct A2 as (I2 & P2 & Ev2). destruct A3 as (I3 & P3 & Ev3).
        exists (es ++ es3)%list, w3, cft'. split.
        { unfold adds. rewrite I3, I2, P3, P2, Ev3, Ev2, app_assoc. auto. }
        split; [rewrite clicks_app; lia | exact H].
      * exists es, w2, cft'. auto.
  - unfold bind at 1 in H. cbn [ret] in H. right.
    destruct additional as [hook|].
    + unfold bind at 1 in H.
      destruct (Hh w1) as (b3 & w3 & es3 & E3 & A3 & K3). rewrite E3 in H.
      exists es3, w3, cft'. auto.
    + exists [], w1, cft'. split; [apply adds_nil|]. auto.
Qed.

Lemma ui_click_loop_clicks (cond : Frame -> bool) (click_button : Button)
      (check : CheckButton) (appear_button : AppearButton) (additional : option (M bool))
      (off : Offset) :
  observes check off cond ->
  silent_trigger appear_button ->
  silent_hook additional ->
  forall (fuel : nat) (skip : bool) (ct cft : Timer.t) (w : World) (r : Outcome unit)
         (w' : World),
    ui_click_loop fuel click_button check appear_button additional off skip ct cft w
    = (r, w') ->
    (forall b, b <> click_button -> clicks_of b (events w') = clicks_of b (events w))
    /\ clicks_of click_button (events w') + Z.of_nat (List.length (pending w'))
       <= clicks_of click_button (events w) + Z.of_nat (List.length (frames_from skip w))
    /\ clicks_of click_button (events w) <= clicks_of click_button (events w')
    /\ (forall e, r <> Raise e).
Proof.
  intros Hc Ht Hh.
  induction fuel as [|fuel IH]; intros skip ct cft w r w' H.
  - injection H as <- <-. unfold frames_from.
    repeat split; try lia; try discriminate.
    destruct skip; cbn [List.length]; lia.
  - destruct (ui_click_pass cond click_button check appear_button additional off
                Hc Ht Hh fuel skip ct cft w r w' H)
      as [(F & -> & ->) | (g & rest & w1 & F & I1 & P1 & C1 & Hcase)].
    + rewrite F. repeat split; try lia; try discriminate.
      unfold frames_from in F. destruct skip; [discriminate|]. rewrite F. cbn. lia.
    + rewrite F. cbn [List.length].
      destruct Hcase as [[-> ->] | [(es & w2 & cft' & _ & (I2 & P2 & Ev2) & K & L)
                                   | (es & w2 & cft' & (I2 & P2 & Ev2) & K & L)]].
      * rewrite P1. repeat split; try discriminate.
        -- intros b _. apply C1.
        -- rewrite C1. lia.
        -- rewrite C1. lia.
      * destruct (IH _ _ _ _ _ _ L) as (O & B & Mo & NR).
        unfold frames_from in B. rewrite P2, P1 in B.
        rewrite Ev2 in O, B, Mo. rewrite !clicks_of_app in B, Mo.
        rewrite (clicks_of_none click_button es K), clicks_of_click_same, C1 in B, Mo.
        repeat split; auto; try lia.
        intros b Nb. rewrite (O b Nb), !clicks_of_app, (clicks_of_none b es K),
          (clicks_of_click_other b click_button Nb), C1. lia.
      * destruct (IH _ _ _ _ _ _ L) as (O & B & Mo & NR).
        unfold frames_from in B. rewrite P2, P1 in B.
        rewrite Ev2 in O, B, Mo. rewrite !clicks_of_app in B, Mo.
        rewrite (clicks_of_none click_button es K), C1 in B, Mo.
        repeat split; auto; try lia.
        intros b Nb. rewrite (O b Nb), !clicks_of_app, (clicks_of_none b es K), C1. lia.
Qed.

Lemma ui_click_loop_waits (cond : Frame -> bool) (click_button : Button)
      (check : CheckButton) (appear_button : AppearButton) (additional : option (M bool))
      (off : Offset) :
  observes check off cond ->
  silent_trigger appear_button ->
  silent_hook additional ->
  forall (fuel : nat) (skip : bool) (ct cft : Timer.t) (w : World) (r : Outcome unit)
         (w' : World) (c : Z),
    ui_click_loop fuel click_button check appear_button additional off skip ct cft w
    = (r, w') ->
    Timer.current ct = Some c ->
    (forall g, In g (frames_from skip w) -> now g - c <= Timer.limit ct) ->
    clicks_of click_button (events w') = clicks_of click_button (events w).
Proof.
  intros Hc Ht Hh.
  induction fuel as [|fuel IH]; intros skip ct cft w r w' c H Cur Near.
  - injection H as _ <-. reflexivity.
  - destruct (ui_click_pass cond click_button check appear_button additional off
                Hc Ht Hh fuel skip ct cft w r w' H)
      as [(F & -> & ->) | (g & rest & w1 & F & I1 & P1 & C1 & Hcase)]; [reflexivity|].
    rewrite F in Near.
    destruct Hcase as [[-> ->] | [(es & w2 & cft' & Due & _)
                                 | (es & w2 & cft' & (I2 & P2 & Ev2) & K & L)]].
    + apply C1.
    + exfalso. unfold Timer.reached, Timer.window_over in Due. cbn [fst] in Due.
      rewrite Cur in Due. apply andb_prop in Due. destruct Due as [Due _].
      apply Z.ltb_lt in Due. specialize (Near g (or_introl eq_refl)). lia.
    + rewrite (IH _ _ _ _ _ _ c L); [| exact Cur |].
      * rewrite Ev2, clicks_of_app, (clicks_of_none click_button es K), C1. lia.
      * unfold frames_from. rewrite P2, P1. intros g' G'.
        cbn [Timer.poll Timer.limit]. apply Near. right. exact G'.
Qed.

Lemma ui_click_loop_once (cond : Frame -> bool) (click_button : Button)
      (check : CheckButton) (appear_button : AppearButton) (additional : option (M bool))
      (off : Offset) :
  observes check off cond ->
  silent_trigger appear_button ->
  silent_hook additional ->
  forall (fuel : nat) (skip : bool) (ct cft : Timer.t) (w : World) (r : Outcome unit)
         (w' : World),
    ui_click_loop fuel click_button check appear_button additional off skip ct cft w
    = (r, w') ->
    taken_within (Timer.limit ct) (frames_from skip w) ->
    clicks_of click_button (events w') - clicks_of click_button (events w) <= 1.
Proof.
  intros Hc Ht Hh.
  induction fuel as [|fuel IH]; intros skip ct cft w r w' H Near.
  - injection H as _ <-. lia.
  - destruct (ui_click_pass cond click_button check appear_button additional off
                Hc Ht Hh fuel skip ct cft w r w' H)
      as [(F & -> & ->) | (g & rest & w1 & F & I1 & P1 & C1 & Hcase)]; [lia|].
    rewrite F in Near.
    destruct Hcase as [[-> ->] | [(es & w2 & cft' & _ & (I2 & P2 & Ev2) & K & L)
                                 | (es & w2 & cft' & (I2 & P2 & Ev2) & K & L)]].
    + rewrite C1. lia.
    + rewrite (ui_click_loop_waits cond click_button check appear_button additional off
                 Hc Ht Hh _ _ _ _ _ _ _ (now g) L eq_refl).
      * rewrite Ev2, !clicks_of_app, (clicks_of_none click_button es K),
          clicks_of_click_same, C1. lia.
      * unfold frames_from. rewrite P2, P1. intros g' G'.
        cbn [Timer.reset Timer.poll Timer.limit].
        apply Near; [left; reflexivity | right; exact G'].
    + assert (B : clicks_of click_button (events w')
                  - clicks_of click_button (events w2) <= 1).
      { apply (IH _ _ _ _ _ _ L). unfold frames_from. rewrite P2, P1.
        cbn [Timer.poll Timer.limit].
        intros g1 g2 G1 G2. apply Near; right; assumption. }
      rewrite Ev2, clicks_of_app, (clicks_of_none click_button es K), C1 in B. lia.
Qed.

Lemma ui_click_is_loop (fuel : nat) (click_button : Button) (check : CheckButton)
      (appear_button : option AppearButton) (additional : option (M bool))
      (confirm_wait : Z) (off : Offset) (retry_wait : Z) (skip : bool) (w : World) :
  exists (ab : AppearButton) (cft : Timer.t),
    ab = match appear_button with None => AppearSingle click_button | Some a => a end
    /\ ui_click fuel click_button check appear_button additional confirm_wait off
                retry_wait skip w
       = ui_click_loop fuel click_button check ab additional off skip
                       (Timer.new retry_wait (retry_wait / 500)) cft w.
Proof.
  eexists _, _. split; [reflexivity|]. unfold ui_click. unfold bind at 1, clock.
  reflexivity.
Qed.

(** X17.  [ui_click] itself clicks nothing but [click_button], at most
    once for each screenshot it looks at, and never raises: with a check
    that is a condition on the screenshot and a click trigger and hook
    that do not raise, take screenshots or click, the clicks on every other
    button are as before the call.  In particular [ui_back] clicks
    nothing but BACK_ARROW. *)
Theorem ui_click_clicks_its_button_only :
  forall (cond : Frame -> bool) (fuel : nat) (click_button : Button) (check : CheckButton)
         (appear_button : option AppearButton) (additional : option (M bool))
         (confirm_wait : Z) (off : Offset) (retry_wait : Z) (skip : bool) (w : World),
    observes check off cond ->
    silent_appear_button appear_button ->
    silent_hook additional ->
    ((forall b, b <> click_button ->
                clicks_of b (events (snd (ui_click fuel click_button check appear_button
                                            additional confirm_wait off retry_wait skip w)))
                = clicks_of b (events w))
     /\ 0 <= clicks_of click_button
                       (events (snd (ui_click fuel click_button check appear_button
                                       additional confirm_wait off retry_wait skip w)))
             - clicks_of click_button (events w)
          <= Z.of_nat (List.length (frames_from skip w))
             - Z.of_nat (List.length
                           (pending (snd (ui_click fuel click_button check appear_button
                                            additional confirm_wait off retry_wait skip
                                            w))))
     /\ (forall e, fst (ui_click fuel click_button check appear_button additional
                                 confirm_wait off retry_wait skip w) <> Raise e))
    /\ (forall b, b <> BACK_ARROW ->
                  clicks_of b (events (snd (ui_back fuel check appear_button off retry_wait
                                              skip w)))
                  = clicks_of b (events w)).
Proof.
  intros cond fuel click_button check appear_button additional confirm_wait off
         retry_wait skip w Hc Ht Hh.
  assert (Ht' : forall cb,
             silent_trigger (match appear_button with
                             | None => AppearSingle cb
                             | Some a => a
                             end)).
  { intros cb. destruct appear_button; [exact Ht | exact I]. }
  split.
  - destruct (ui_click_is_loop fuel click_button check appear_button additional
                confirm_wait off retry_wait skip w) as (ab & cft & -> & ->).
    destruct (ui_click_loop fuel click_button check _ additional off skip _ cft w)
      as [r w'] eqn:L.
    destruct (ui_click_loop_clicks cond click_button check _ additional off
                Hc (Ht' click_button) Hh _ _ _ _ _ _ _ L) as (O & B & Mo & NR).
    cbn [fst snd]. repeat split; auto; lia.
  - unfold ui_back.
    destruct (ui_click_is_loop fuel BACK_ARROW check appear_button None
                1000 off retry_wait skip w) as (ab & cft & -> & ->).
    destruct (ui_click_loop fuel BACK_ARROW check _ None off skip _ cft w)
      as [r w'] eqn:L.
    destruct (ui_click_loop_clicks cond BACK_ARROW check _ None off
                Hc (Ht' BACK_ARROW) I _ _ _ _ _ _ _ L) as (O & _).
    exact O.
Qed.

Lemma ui_click_clicks_its_button_only_witness :
  let w := boot (view 0 ["BUTTON"]) [view 100 ["CHECK"]] in
  clicks_of "OTHER"
            (events (snd (ui_click 3 "BUTTON" (CheckSingle "CHECK") None None 1000
                            (Offset2 30 30) 10000 true w)))
  = clicks_of "OTHER" (events w).
Proof.
  intro w.
  refine (proj1 (proj1
            (ui_click_clicks_its_button_only
               (fun f => appear_on f "CHECK" (Offset2 30 30) 85 0) 3 "BUTTON"
               (CheckSingle "CHECK") None None 1000 (Offset2 30 30) 10000 true w
               _ I I)) "OTHER" _).
  - intros w0. reflexivity.
  - discriminate.
Defined.

(** X18.  [ui_click] does not click again within [retry_wait]: over
    screenshots that were all taken within [retry_wait] of each other it
    clicks [click_button] at most once, however often the click trigger
    shows. *)
Theorem ui_click_waits_before_retry :
  forall (cond : Frame -> bool) (fuel : nat) (click_button : Button) (check : CheckButton)
         (appear_button : option AppearButton) (additional : option (M bool))
         (confirm_wait : Z) (off : Offset) (retry_wait : Z) (skip : bool) (w : World),
    observes check off cond ->
    silent_appear_button appear_button ->
    silent_hook additional ->
    taken_within retry_wait (frames_from skip w) ->
    clicks_of click_button
              (events (snd (ui_click fuel click_button check appear_button additional
                              confirm_wait off retry_wait skip w)))
    - clicks_of click_button (events w) <= 1.
Proof.
  intros cond fuel click_button check appear_button additional confirm_wait off
         retry_wait skip w Hc Ht Hh Near.
  assert (Ht' : silent_trigger (match appear_button with
                                | None => AppearSingle click_button
                                | Some a => a
                                end)).
  { destruct appear_button; [exact Ht | exact I]. }
  destruct (ui_click_is_loop fuel click_button check appear_button additional
              confirm_wait off retry_wait skip w) as (ab & cft & -> & ->).
  destruct (ui_click_loop fuel click_button check _ additional off skip _ cft w)
    as [r w'] eqn:L.
  cbn [snd].
  apply (ui_click_loop_once cond click_button check _ additional off Hc Ht' Hh
           _ _ _ _ _ _ _ L).
  exact Near.
Qed.

Lemma ui_click_waits_before_retry_witness :
  let w := boot (view 0 ["BUTTON"]) [view 4000 ["BUTTON"]; view 8000 ["BUTTON"]] in
  taken_within 10000 (frames_from true w)
  /\ clicks_of "BUTTON"
               (events (snd (ui_click 5 "BUTTON" (CheckSingle "CHECK") None None 1000
                               (Offset2 30 30) 10000 true w)))
     - clicks_of "BUTTON" (events w) <= 1.
Proof.
  intro w.
  assert (Near : taken_within 10000 (frames_from true w)).
  { intros g g' G G'. cbn in G, G'.
    repeat (destruct G as [<-|G]; [|]);
      repeat (destruct G' as [<-|G']; [|]);
      try contradiction; cbn; lia. }
  split; [exact Near|].
  refine (ui_click_waits_before_retry
            (fun f => appear_on f "CHECK" (Offset2 30 30) 85 0) 5 "BUTTON"
            (CheckSingle "CHECK") None None 1000 (Offset2 30 30) 10000 true w
            _ I I Near).
  intros w0. reflexivity.
Defined.

(** ** Which page [ui_get_current_page] reports, and the game-running check *)

Lemma identify_first (T : PageTable) (f : Frame) (pre : list Page) (p : Page)
      (post : list Page) :
  (forall q, In q pre ->
             check_button q = None \/ page_appears T q (Offset2 30 30) 0 f = Ret false) ->
  check_button p <> None ->
  page_appears T p (Offset2 30 30) 0 f = Ret true ->
  identify T (pre ++ p :: post) f = Ret (Some p).
Proof.
  intros Hpre Hc Hp. induction pre as [|q pre IH]; cbn [app identify].
  - destruct (check_button p); [|congruence]. rewrite Hp. reflexivity.
  - destruct (Hpre q (or_introl eq_refl)) as [N|N].
    + rewrite N. apply IH. intros q' Hq'. apply Hpre. right. exact Hq'.
    + destruct (check_button q); rewrite ?N;
        apply IH; intros q' Hq'; apply Hpre; right; exact Hq'.
Qed.

(** X19.  [ui_get_current_page] reports the first declared page that
    appears: pages without a check button are passed over, a page declared
    later is never preferred to one that appears before it, and a page
    recognised on the screenshot at hand is reported without a click or a
    screenshot, recorded as [ui_current] and logged. *)
Theorem ui_get_current_page_first_declared :
  forall (T : PageTable) (fuel : nat) (w : World) (pre : list Page) (p : Page)
         (post : list Page),
    has_cached_image w = true ->
    iter_pages T = (pre ++ p :: post)%list ->
    (forall q, In q pre ->
               check_button q = None
               \/ page_appears T q (Offset2 30 30) 0 (image w) = Ret false) ->
    check_button p <> None ->
    page_appears T p (Offset2 30 30) 0 (image w) = Ret true ->
    ui_get_current_page T (S fuel) true w =
    (Ret p, with_ui_current (Some (name p)) (with_logs (logs w ++ [Attr "UI" (name p)]) w)).
Proof.
  intros T fuel w pre p post Hc Hi Hpre Hcb Hp.
  apply ui_get_current_page_at_once; [exact Hc|].
  rewrite Hi. apply identify_first; assumption.
Qed.

Lemma ui_get_current_page_first_declared_witness :
  let w := boot (view 0 ["STAGE_CHECK"; "EVENT_CHECK"]) [] in
  page_appears demo demo_stage (Offset2 30 30) 0 (image w) = Ret true
  /\ fst (ui_get_current_page demo 1 true w) = Ret demo_event.
Proof.
  intro w. split; [reflexivity|].
  rewrite (ui_get_current_page_first_declared demo 0 w [demo_main; demo_main_white]
             demo_event [demo_stage; demo_coalition] eq_refl eq_refl).
  - reflexivity.
  - intros q Hq. right. cbn in Hq.
    repeat (destruct Hq as [<-|Hq]; [reflexivity|]). contradiction.
  - discriminate.
  - reflexivity.
Defined.

Lemma unrecognised_is_nothing_to_do (T : PageTable) (f : Frame) :
  unrecognised T f -> nothing_to_do T f /\ app_is_running f = true.
Proof. intros (U1 & U2 & U3 & U4 & U5 & U6 & U7). repeat split; assumption. Qed.

(** A pass over a frame with nothing to do, up to the game-running check. *)
Lemma idle_tick (T : PageTable) (fuel : nat) (skip : bool) (tm ot : Timer.t)
      (ac mc : bool) (w w1 : World) :
  first_screenshot skip w = (Ret tt, w1) ->
  nothing_to_do T (image w1) ->
  opsi_reset_fleet_preparation_click w1 < 5 ->
  fst (Timer.reached (now (image w1)) tm) = false ->
  if ac || app_is_running (image w1) then
    exists ot' w2,
      ui_get_current_page_loop T (S fuel) skip tm ot ac mc w =
      ui_get_current_page_loop T fuel false (Timer.poll tm) ot' true true w2
      /\ image w2 = image w1 /\ pending w2 = pending w1
      /\ opsi_reset_fleet_preparation_click w2 = opsi_reset_fleet_preparation_click w1
      /\ config w2 = config w1
  else
    ui_get_current_page_loop T (S fuel) skip tm ot ac mc w = (Raise GameNotRunningError, w1).
Proof.
  intros FS (U1 & U2 & U3 & U4 & U5 & U6) O E.
  unfold Timer.reached in E. cbn [fst] in E.
  destruct ac; cbn [orb]; [|destruct (app_is_running (image w1)) eqn:U7];
    cbn [ui_get_current_page_loop]; unfold bind at 1; rewrite FS; cbv beta iota;
    unfold bind at 1, clock; cbv beta iota;
    unfold Timer.reached; rewrite E; cbv beta iota;
    unfold bind at 1; rewrite scan_current_page_eq, U1; cbv beta iota;
    unfold bind at 1; rewrite (appear_then_click_false _ _ _ _ U2); cbv beta iota;
    unfold bind at 1; rewrite (appear_then_click_false _ _ _ _ U3); cbv beta iota;
    unfold bind at 1; rewrite (appear_then_click_false _ _ _ _ U4); cbv beta iota;
    unfold bind at 1;
    rewrite (ui_additional_is_run_once true w1 O U5), (run_once_none _ _ U6);
    cbv beta iota;
    cbv beta iota delta [app_check minicap_check frame bind ret raise emit clock];
    rewrite ?U7; cbv beta iota;
    try reflexivity;
    destruct mc; cbv beta iota;
    repeat match goal with
           | |- context [if ?c then _ else _] =>
               lazymatch c with
               | context [if _ then _ else _] => fail
               | _ => destruct c; cbv beta iota
               end
           end;
    eexists _, _; (split; [reflexivity | repeat split]).
Qed.

Lemma first_screenshot_clicks (skip : bool) (w w1 : World) :
  first_screenshot skip w = (Ret tt, w1) -> events w1 = events w \/
                                            events w1 = (events w ++ [Screenshot])%list.
Proof.
  unfold first_screenshot, bind, screenshot.
  destruct skip; [destruct (has_cached_image w)|].
  - intros [= <-]. left. reflexivity.
  - destruct (pending w); [discriminate|]. intros [= <-]. right. reflexivity.
  - destruct (pending w); [discriminate|]. intros [= <-]. right. reflexivity.
Qed.

Lemma fresh_timeout_not_reached (t0 t : Z) :
  fst (Timer.reached t (Timer.start t0 (Timer.new 10000 20))) = false.
Proof. unfold Timer.reached. cbn. apply andb_false_r. Qed.

(** X20.  [ui_get_current_page] reports a game that is not running at the
    first screenshot it can make nothing of: with no declared page, no
    go-home button and nothing for the interrupt chain on it, and the game
    not running, the call raises GameNotRunningError there, before the
    ten-second timeout and without a click; [ui_ensure] passes the error
    on. *)
Theorem game_not_running_is_reported :
  forall (T : PageTable) (fuel : nat) (destination : Page) (skip : bool) (w : World)
         (g : Frame) (rest : list Frame),
    frames_to_see skip w = g :: rest ->
    nothing_to_do T g ->
    app_is_running g = false ->
    opsi_reset_fleet_preparation_click w < 5 ->
    exists w1,
      ui_get_current_page T (S fuel) skip w = (Raise GameNotRunningError, w1)
      /\ ui_ensure T (S fuel) destination skip w = (Raise GameNotRunningError, w1)
      /\ image w1 = g /\ pending w1 = rest
      /\ clicks (events w1) = clicks (events w).
Proof.
  intros T fuel destination skip w g rest F N A O.
  destruct (first_screenshot_frames _ _ _ _ F) as (w1 & FS & Im & Pe & Op & Co).
  exists w1.
  assert (G : ui_get_current_page T (S fuel) skip w = (Raise GameNotRunningError, w1)).
  { unfold ui_get_current_page. unfold bind at 1, clock.
    pose proof (idle_tick T fuel skip
                  (Timer.start (now (image w)) (Timer.new 10000 20)) (Timer.new 5000 0)
                  false false w w1 FS) as Tick.
    rewrite Im, A in Tick. cbn [orb] in Tick.
    apply Tick; [exact N | lia | apply fresh_timeout_not_reached]. }
  split; [exact G|]. split; [exact (ui_ensure_propagates _ _ _ _ _ _ _ G)|].
  split; [exact Im|]. split; [exact Pe|].
  destruct (first_screenshot_clicks _ _ _ FS) as [-> | ->]; [reflexivity|].
  rewrite clicks_app. cbn. lia.
Qed.

Lemma dead_view_nothing_to_do (t : Z) : nothing_to_do demo (dead_view t).
Proof.
  unfold nothing_to_do. repeat split; try reflexivity.
  intros q Hq. cbn in Hq.
  repeat (destruct Hq as [<-|Hq]; [reflexivity|]). contradiction.
Qed.

Lemma game_not_running_is_reported_witness :
  let w := boot (dead_view 0) [] in
  frames_to_see true w = [dead_view 0]
  /\ fst (ui_get_current_page demo 1 true w) = Raise GameNotRunningError.
Proof.
  intro w. split; [reflexivity|].
  destruct (game_not_running_is_reported demo 0 demo_stage true w (dead_view 0) []
              eq_refl (dead_view_nothing_to_do 0) eq_refl ltac:(cbn; lia))
    as (w1 & G & _).
  rewrite G. reflexivity.
Defined.

Lemma timeout_without_app_check (T : PageTable) (pre : list Frame) :
  forall (f : Frame) (post : list Frame) (fuel : nat) (skip : bool) (tm ot : Timer.t)
         (mc : bool) (w : World) (c : Z),
    frames_to_see skip w = (pre ++ f :: post)%list ->
    (forall g, In g (pre ++ [f]) -> nothing_to_do T g) ->
    opsi_reset_fleet_preparation_click w < 5 ->
    Timer.limit tm = 10000 -> Timer.count tm = 20 -> Timer.current tm = Some c ->
    10000 < now f - c ->
    20 < Timer.reach_count tm + Z.of_nat (List.length pre) + 1 ->
    (List.length pre < fuel)%nat ->
    exists w',
      ui_get_current_page_loop T fuel skip tm ot true mc w =
      (Raise GamePageUnknownError,
       with_logs (logs w' ++ unknown_page_dump T (config w)) w').
Proof.
  induction pre as [|g pre IH]; intros f post fuel skip tm ot mc w c F U O L C K W R Fu.
  - destruct fuel as [|fuel]; [cbn in Fu; lia|].
    cbn [app] in F.
    destruct (first_screenshot_frames _ _ _ _ F) as (w1 & FS & Im & _ & _ & Co).
    exists w1. rewrite <- Co.
    apply (expired_tick T fuel skip tm ot true mc w w1 FS).
    unfold Timer.reached, Timer.window_over, Timer.poll. cbn [fst Timer.reach_count].
    rewrite K, L, C, Im. cbn [List.length] in R.
    apply andb_true_intro. split; apply Z.ltb_lt; lia.
  - destruct fuel as [|fuel]; [cbn in Fu; lia|].
    cbn [app] in F.
    destruct (first_screenshot_frames _ _ _ _ F) as (w1 & FS & Im & Pe & Op & Co).
    destruct (fst (Timer.reached (now (image w1)) tm)) eqn:E.
    + exists w1. rewrite <- Co. exact (expired_tick T fuel skip tm ot true mc w w1 FS E).
    + assert (Ug : nothing_to_do T (image w1)).
      { rewrite Im. apply U. left. reflexivity. }
      destruct (idle_tick T fuel skip tm ot true mc w w1 FS Ug ltac:(lia) E)
        as (ot' & w2 & -> & Im2 & Pe2 & Op2 & Co2).
      replace (config w) with (config w2) by congruence.
      apply (IH f post fuel false (Timer.poll tm) ot' true w2 c).
      * unfold frames_to_see. cbn [andb]. congruence.
      * intros g' Hg'. apply U. right. exact Hg'.
      * lia.
      * exact L.
      * exact C.
      * exact K.
      * exact W.
      * cbn [Timer.poll Timer.reach_count]. cbn [List.length] in R. lia.
      * cbn [List.length] in Fu. lia.
Qed.

(** X21.  The game-running check of [ui_get_current_page] is made once:
    after a first unrecognised screenshot on which the game was running,
    a game that stops is no longer noticed, and a run over screenshots
    with nothing to act on ends in GamePageUnknownError when the timeout
    expires, whether or not the game is still running on them. *)
Theorem game_running_is_checked_once :
  forall (T : PageTable) (fuel : nat) (w : World) (pre : list Frame) (f : Frame)
         (post : list Frame),
    has_cached_image w = true ->
    pending w = (pre ++ f :: post)%list ->
    unrecognised T (image w) ->
    (forall g, In g (pre ++ [f]) -> nothing_to_do T g) ->
    opsi_reset_fleet_preparation_click w < 5 ->
    10000 < now f - now (image w) ->
    (19 <= List.length pre)%nat ->
    (S (List.length pre) < fuel)%nat ->
    fst (ui_get_current_page T fuel true w) = Raise GamePageUnknownError.
Proof.
  intros T fuel w pre f post Hc F U0 U O W L Fu.
  destruct fuel as [|fuel]; [lia|].
  unfold ui_get_current_page. unfold bind at 1, clock.
  assert (FS : first_screenshot true w = (Ret tt, w)).
  { unfold first_screenshot, bind. rewrite Hc. reflexivity. }
  destruct (unrecognised_is_nothing_to_do _ _ U0) as [N0 A0].
  pose proof (idle_tick T fuel true
                (Timer.start (now (image w)) (Timer.new 10000 20)) (Timer.new 5000 0)
                false false w w FS N0 O (fresh_timeout_not_reached _ _)) as Tick.
  rewrite A0 in Tick. cbn [orb] in Tick.
  destruct Tick as (ot' & w2 & -> & Im2 & Pe2 & Op2 & Co2).
  destruct (timeout_without_app_check T pre f post fuel false
              (Timer.poll (Timer.start (now (image w)) (Timer.new 10000 20))) ot' true
              w2 (now (image w))) as [w' E].
  - unfold frames_to_see. cbn [andb]. congruence.
  - exact U.
  - lia.
  - reflexivity.
  - reflexivity.
  - reflexivity.
  - exact W.
  - cbn [Timer.poll Timer.start Timer.new Timer.reach_count Timer.started Timer.current].
    lia.
  - lia.
  - rewrite E. reflexivity.
Qed.

Lemma game_running_is_checked_once_witness :
  let w := boot (view 0 []) (map dead_view (tl (half_seconds 23))) in
  unrecognised demo (image w)
  /\ fst (ui_get_current_page demo 30 true w) = Raise GamePageUnknownError.
Proof.
  intro w. split; [apply blank_view_unrecognised|].
  apply (game_running_is_checked_once demo 30 w
           (map dead_view (firstn 21 (tl (half_seconds 23)))) (dead_view 11000) []).
  - reflexivity.
  - reflexivity.
  - apply blank_view_unrecognised.
  - intros g Hg. apply in_app_or in Hg. destruct Hg as [Hg|[<-|[]]].
    + apply in_map_iff in Hg. destruct Hg as (t & <- & _). apply dead_view_nothing_to_do.
    + apply dead_view_nothing_to_do.
  - cbn. lia.
  - cbn. lia.
  - cbn. lia.
  - cbn. lia.
Defined.

(** ** Stages that share an entrance *)

Lemma enter_map_lower (T : PageTable) (fuel : nat) (event s1 s2 mode : string)
      (skip : bool) (w : World) :
  lower s1 = lower s2 ->
  enter_map T fuel event s1 mode skip w = enter_map T fuel event s2 mode skip w.
Proof.
  intros H. unfold enter_map, call_method.
  cbn [lookup coalition_ui_methods String.eqb Ascii.eqb Bool.eqb].
  unfold coalition_get_entrance, coalition_20251120_get_entrance_difficulty.
  rewrite H.
  do 5 (apply bind_ext; intros).
  rewrite (enter_map_loop_lower T event s1 s2 mode _ _ _ H). reflexivity.
Qed.

Lemma entrance_is_shared_by_difficulties_only (event s1 s2 : string) (b : Button) :
  lookup2 event s1 entrance_dic = Some b ->
  lookup2 event s2 entrance_dic = Some b ->
  s1 = s2
  \/ String.eqb event "coalition_20251120" = true
  \/ String.eqb event "coalition_20260122" = true.
Proof.
  intros H1 H2. apply lookup2_in in H1, H2.
  assert (D : forallb
                (fun kv1 : string * string * Button =>
                   forallb
                     (fun kv2 : string * string * Button =>
                        negb (String.eqb (fst (fst kv1)) (fst (fst kv2))
                              && String.eqb (snd kv1) (snd kv2))
                        || String.eqb (snd (fst kv1)) (snd (fst kv2))
                        || String.eqb (fst (fst kv1)) "coalition_20251120"
                        || String.eqb (fst (fst kv1)) "coalition_20260122")
                     entrance_dic)
                entrance_dic = true) by (vm_compute; reflexivity).
  rewrite forallb_forall in D. specialize (D _ H1).
  rewrite forallb_forall in D. specialize (D _ H2).
  cbn [fst snd] in D. rewrite !String.eqb_refl in D. cbn [andb negb orb] in D.
  destruct (String.eqb s1 s2) eqn:S; [left; apply String.eqb_eq; exact S|].
  cbn [orb] in D. apply orb_prop in D. tauto.
Qed.

Lemma enter_map_tick_20251120 (T : PageTable) (s1 s2 mode : string) (button : Button)
      (bd : option Button) (fp : Button) :
  enter_map_tick T "coalition_20251120" s1 mode button bd fp
  = enter_map_tick T "coalition_20251120" s2 mode button bd fp.
Proof.
  unfold enter_map_tick, fleet_preparation_step, handle_fleet_preparation.
  cbn [String.eqb Ascii.eqb Bool.eqb andb]. reflexivity.
Qed.

Lemma enter_map_loop_20251120 (T : PageTable) (s1 s2 mode : string) (button : Button)
      (bd : option Button) (fp : Button) :
  forall (fuel : nat) (skip : bool),
    enter_map_loop T fuel "coalition_20251120" s1 mode button bd fp skip
    = enter_map_loop T fuel "coalition_20251120" s2 mode button bd fp skip.
Proof.
  induction fuel as [|fuel IH]; intros skip; [reflexivity|].
  cbn [enter_map_loop].
  rewrite (enter_map_tick_20251120 T s1 s2 mode button bd fp), (IH false).
  reflexivity.
Qed.

(** X22.  [enter_map] cannot tell two stages with the same entrance
    apart: called for two stages of an event that have the same entrance
    button it runs the same way.  So for coalition_20251120 the normal and
    the hard stage of an area are entered by the same clicks. *)
Theorem enter_map_same_entrance_same_run :
  forall (T : PageTable) (fuel : nat) (event s1 s2 mode : string) (skip : bool)
         (w : World) (b : Button),
    lookup2 event (lower s1) entrance_dic = Some b ->
    lookup2 event (lower s2) entrance_dic = Some b ->
    enter_map T fuel event s1 mode skip w = enter_map T fuel event s2 mode skip w.
Proof.
  intros T fuel event s1 s2 mode skip w b E1 E2.
  destruct (entrance_is_shared_by_difficulties_only event _ _ b E1 E2) as [L | [D | D]].
  - apply enter_map_lower. exact L.
  - apply String.eqb_eq in D. subst event.
    rewrite (enter_map_20251120_loop T fuel s1 mode skip w b E1),
      (enter_map_20251120_loop T fuel s2 mode skip w b E2),
      (enter_map_loop_20251120 T s1 s2 mode b None DAL_FLEET_PREPARATION fuel skip).
    reflexivity.
  - apply String.eqb_eq in D. subst event.
    rewrite (enter_map_20260122_missing_method T fuel s1 mode skip w b E1),
      (enter_map_20260122_missing_method T fuel s2 mode skip w b E2).
    reflexivity.
Qed.

Lemma enter_map_same_entrance_same_run_witness :
  let w := boot (view 0 ["COALITION_CHECK"]) [view 6000 [BATTLE_PREPARATION]] in
  lookup2 "coalition_20251120" (lower "area1-normal") entrance_dic = Some DAL_AREA1
  /\ enter_map demo 3 "coalition_20251120" "area1-normal" "single" true w
     = enter_map demo 3 "coalition_20251120" "area1-hard" "single" true w.
Proof.
  intro w. split; [reflexivity|].
  exact (enter_map_same_entrance_same_run demo 3 "coalition_20251120" "area1-normal"
           "area1-hard" "single" true w DAL_AREA1 eq_refl eq_refl).
Defined.

(** ** What holds when a navigation call returns *)

Lemma ui_goto_loop_arrives (T : PageTable) (destination : Page) (get_ship : bool)
      (off : Offset) (fuel : nat) :
  forall (skip : bool) (w : World) (w' : World),
    ui_goto_loop T fuel destination get_ship off skip w = (Ret tt, w') ->
    page_appears T destination off 0 (image w') = Ret true.
Proof.
  induction fuel as [|fuel IH]; intros skip w w' H; [discriminate H|].
  cbn [ui_goto_loop] in H. unfold bind at 1, emit in H.
  assert (Body : forall w1,
             (arrived <- ui_page_appear T destination off 0 ;;
              if arrived then ret tt
              else
                clicked <- ui_goto_scan T off (iter_pages T) ;;
                if clicked then ui_goto_loop T fuel destination get_ship off false
                else
                  _ <- ui_additional get_ship ;;
                  ui_goto_loop T fuel destination get_ship off false) w1 = (Ret tt, w') ->
             page_appears T destination off 0 (image w') = Ret true).
  { intros w1 B. unfold bind at 1 in B. rewrite ui_page_appear_eq in B.
    destruct (page_appears T destination off 0 (image w1)) as [[|]|e|] eqn:P;
      try discriminate B.
    - injection B as <-. exact P.
    - unfold bind at 1 in B.
      destruct (ui_goto_scan T off (iter_pages T) w1) as [[[|]|e|] w2];
        try discriminate B.
      + exact (IH _ _ _ B).
      + unfold bind at 1 in B.
        destruct (ui_additional get_ship w2) as [[b|e|] w3]; try discriminate B.
        exact (IH _ _ _ B). }
  unfold bind at 1 in H. destruct skip.
  - cbn [ret] in H. exact (Body _ H).
  - unfold screenshot in H. world_simpl_in H.
    destruct (pending w) as [|f rest]; [discriminate H|].
    exact (Body _ H).
Qed.

Lemma ui_goto_arrives (T : PageTable) (fuel : nat) (destination : Page) (get_ship : bool)
      (off : Offset) (skip : bool) (w w' : World) :
  ui_goto T fuel destination get_ship off skip w = (Ret tt, w') ->
  page_appears T destination off 0 (image w') = Ret true.
Proof.
  rewrite ui_goto_unfold. cbv zeta.
  match goal with
  | |- context [ui_goto_loop T fuel destination get_ship off skip ?w2] =>
      destruct (ui_goto_loop T fuel destination get_ship off skip w2)
        as [[[]|e|] w3] eqn:L
  end; try discriminate.
  intros [= <-]. world_simpl. exact (ui_goto_loop_arrives _ _ _ _ _ _ _ _ L).
Qed.

(** X24.  A navigation call returns only on a screenshot that shows where
    it was to go: when [ui_goto] returns, the destination appears on the
    current screenshot at the offset given; when [ui_ensure] answers True
    the destination appears at offset (30, 30), and when it answers False
    a declared page of the destination's name does. *)
Theorem navigation_returns_on_the_destination :
  forall (T : PageTable) (fuel : nat) (destination : Page) (get_ship : bool)
         (off : Offset) (skip : bool) (w : World),
    (fst (ui_goto T fuel destination get_ship off skip w) = Ret tt ->
     page_appears T destination off 0
                  (image (snd (ui_goto T fuel destination get_ship off skip w)))
     = Ret true)
    /\ (fst (ui_ensure T fuel destination skip w) = Ret true ->
        page_appears T destination (Offset2 30 30) 0
                     (image (snd (ui_ensure T fuel destination skip w)))
        = Ret true)
    /\ (fst (ui_ensure T fuel destination skip w) = Ret false ->
        exists p,
          In p (iter_pages T) /\ name p = name destination
          /\ ui_current (snd (ui_ensure T fuel destination skip w)) = Some (name p)
          /\ page_appears T p (Offset2 30 30) 0
                          (image (snd (ui_ensure T fuel destination skip w)))
             = Ret true).
Proof.
  intros T fuel destination get_ship off skip w. split; [|split].
  - destruct (ui_goto T fuel destination get_ship off skip w) as [r w'] eqn:G.
    cbn [fst snd]. intros ->. exact (ui_goto_arrives _ _ _ _ _ _ _ _ G).
  - destruct (ui_get_current_page T fuel skip w) as [[p|e|] w1] eqn:P.
    + destruct (String.eqb (name p) (name destination)) eqn:N.
      * apply String.eqb_eq in N.
        rewrite (ui_ensure_already_there _ _ _ _ _ _ _ P N). discriminate.
      * apply String.eqb_neq in N.
        rewrite (ui_ensure_elsewhere _ _ _ _ _ _ _ P N). unfold bind.
        destruct (ui_goto T fuel destination true (Offset2 30 30) true w1)
          as [[[]|e|] w2] eqn:G; cbn [fst snd ret]; try discriminate.
        intros _. exact (ui_goto_arrives _ _ _ _ _ _ _ _ G).
    + rewrite (ui_ensure_propagates _ _ _ _ _ _ _ P). discriminate.
    + unfold ui_ensure, bind. rewrite P. discriminate.
  - destruct (ui_get_current_page T fuel skip w) as [[p|e|] w1] eqn:P.
    + pose proof (ui_get_current_page_result _ _ _ _ _ _ P) as (Cur & Ip & Ap).
      destruct (String.eqb (name p) (name destination)) eqn:N.
      * apply String.eqb_eq in N.
        rewrite (ui_ensure_already_there _ _ _ _ _ _ _ P N). cbn [fst snd].
        intros _. exists p. auto.
      * apply String.eqb_neq in N.
        rewrite (ui_ensure_elsewhere _ _ _ _ _ _ _ P N). unfold bind.
        destruct (ui_goto T fuel destination true (Offset2 30 30) true w1)
          as [[[]|e|] w2]; cbn [fst ret]; discriminate.
    + rewrite (ui_ensure_propagates _ _ _ _ _ _ _ P). discriminate.
    + unfold ui_ensure, bind. rewrite P. discriminate.
Qed.

Lemma enter_map_tick_break (T : PageTable) (event stage mode : string) (button : Button)
      (bd : option Button) (fp : Button) (s : EnterMap) (w w' : World) :
  enter_map_tick T event stage mode button bd fp s w = (Ret Break, w') ->
  w' = w
  /\ appear_on (image w) BATTLE_PREPARATION (Offset2 20 20) 85 0 = true
  /\ fleet_warning_on (image w) = false.
Proof.
  intros H. unfold enter_map_tick in H.
  cbv beta iota delta [fleet_warning bind appear appear_sim frame ret interrupted handle
    emit clock click raise log logs_all Timer.reached
    in_coalition_20251120_difficulty_selection
    in_coalition_20260122_difficulty_selection] in H.
  do 3 (split_head H; [discriminate H|]).
  do 6 (split_head H; [discriminate H|]).
  split_head H.
  { injection H as <-. split; [reflexivity|]. split; [reflexivity|].
    unfold fleet_warning_on, fleet_warnings. cbn [existsb].
    repeat match goal with
           | E : appear_on (image w) _ (Offset2 20 20) 85 0 = false |- _ =>
               rewrite E; clear E
           end.
    reflexivity. }
  exfalso.
  do 7 (split_head H; [discriminate H|]).
  match type of H with
  | context [(if ?c then in_coalition T else ?g) w] =>
      replace ((if c then in_coalition T else g) w)
        with ((if c then page_appears T (page_coalition T) (Offset2 20 20) 0 (image w)
               else Ret false), w) in H
        by (destruct c; [rewrite in_coalition_eq|]; reflexivity);
      destruct (if c then page_appears T (page_coalition T) (Offset2 20 20) 0 (image w)
                else Ret false) as [[|]|e0|] eqn:P
  end; try discriminate H.
  cbv beta iota in H.
  assert (F : forall (s0 : EnterMap) (w0 : World),
             fleet_preparation_step event stage mode fp s0 w0 <> (Ret Break, w')).
  { intros s0 w0 E.
    destruct (fleet_preparation_step_effect _ _ _ _ _ _ _ _ E)
      as [(s' & R & _) | [(s' & hs & wa & wb & R & _) | (R & _)]]; discriminate R. }
  assert (D : forall (sel : M bool) (tm : Timer.t) (w0 : World),
             (forall w1, exists a, sel w1 = (Ret a, w1)) ->
             exists r w1, difficulty_click sel bd tm w0 = (Ret r, w1)).
  { intros sel tm w0 Ps.
    destruct (difficulty_click_no_raise sel bd tm w0 Ps) as (r & w1 & E & _).
    eauto. }
  repeat match type of H with
         | context [difficulty_click ?sel ?b0 ?tm ?w0] =>
             let r := fresh "r" in
             let w1 := fresh "w1" in
             let E := fresh "E" in
             destruct (D sel tm w0) as (r & w1 & E);
             [ intros; eexists; reflexivity | ];
             rewrite E in H; clear E; destruct r as [[|] ?]; cbv beta iota in H
         | context [if ?c then _ else _] =>
             lazymatch c with
             | context [if _ then _ else _] => fail
             | _ => destruct c eqn:?; cbv beta iota in H
             end
         end;
    try discriminate H; exact (F _ _ H).
Qed.

(** X25.  [enter_map] returns only on the battle preparation page: when
    the call returns, BATTLE_PREPARATION shows on the current screenshot
    and none of the six fleet warnings does. *)
Theorem enter_map_returns_on_battle_preparation :
  forall (T : PageTable) (fuel : nat) (event stage mode : string) (skip : bool)
         (w : World),
    fst (enter_map T fuel event stage mode skip w) = Ret tt ->
    appear_on (image (snd (enter_map T fuel event stage mode skip w)))
              BATTLE_PREPARATION (Offset2 20 20) 85 0 = true
    /\ fleet_warning_on (image (snd (enter_map T fuel event stage mode skip w))) = false.
Proof.
  intros T fuel event stage mode skip w.
  destruct (enter_map T fuel event stage mode skip w) as [r w'] eqn:R. cbn [fst snd].
  intros ->.
  destruct (enter_map_cases _ _ _ _ _ _ _ _ _ R)
    as [(e & E & _) | (button & fp & _ & _ & _ & _ & L)]; [discriminate E|].
  apply (enter_map_loop_rule T event stage mode button fp None
           (fun _ _ => True)
           (fun r w1 => r = Ret tt ->
                appear_on (image w1) BATTLE_PREPARATION (Offset2 20 20) 85 0 = true
                /\ fleet_warning_on (image w1) = false))
    with (fuel := fuel) (skip := skip) (s := enter_map_init) (w := w) (r := Ret tt)
         (w' := w');
    auto; try discriminate.
  intros s0 w0 w1 _ E _.
  destruct (enter_map_tick_break _ _ _ _ _ _ _ _ _ _ E) as (-> & A & Wn). auto.
Qed.

Lemma enter_map_returns_on_battle_preparation_witness :
  let w := boot (view 0 ["COALITION_CHECK"]) [view 1000 [BATTLE_PREPARATION]] in
  fst (enter_map demo 3 "coalition_20240627" "hard" "multi" true w) = Ret tt
  /\ now (image (snd (enter_map demo 3 "coalition_20240627" "hard" "multi" true w))) = 1000
  /\ appear_on (image (snd (enter_map demo 3 "coalition_20240627" "hard" "multi" true w)))
               BATTLE_PREPARATION (Offset2 20 20) 85 0 = true.
Proof.
  intro w.
  assert (R : fst (enter_map demo 3 "coalition_20240627" "hard" "multi" true w) = Ret tt)
    by reflexivity.
  split; [exact R|]. split; [reflexivity|].
  exact (proj1 (enter_map_returns_on_battle_preparation demo 3 "coalition_20240627" "hard"
                  "multi" true w R)).
Defined.

(** ** The exceptions of the navigation calls *)

Lemma ui_goto_scan_raises (T : PageTable) (off : Offset) (ps : list Page) (w : World)
      (e : Exn) (w' : World) :
  ui_goto_scan T off ps w = (Raise e, w') -> e = KeyError.
Proof.
  induction ps as [|page rest IH]; [discriminate|].
  rewrite ui_goto_scan_cons.
  destruct (parent w (name page)) as [q|]; [|exact IH].
  destruct (check_button page) as [cb|]; [|exact IH].
  destruct (appear_on (image w) cb off 85 5000); [|exact IH].
  destruct (lookup q (links page)) as [button|].
  - unfold bind at 1, click, emit. unfold bind.
    destruct (ui_button_interval_reset_effect T button
                (with_events (events w ++ [Click button]) w)) as (es & _ & R & _).
    destruct (ui_button_interval_reset T button _) as [r1 w1].
    cbn [fst] in R. subst r1. discriminate.
  - intros [= <- _]. reflexivity.
Qed.

Lemma ui_goto_loop_raises (T : PageTable) (destination : Page) (get_ship : bool)
      (off : Offset) (fuel : nat) :
  forall (skip : bool) (w : World) (e : Exn) (w' : World),
    ui_goto_loop T fuel destination get_ship off skip w = (Raise e, w') ->
    e = RequestHumanTakeover \/ e = KeyError \/ e = AttributeError "name".
Proof.
  induction fuel as [|fuel IH]; intros skip w e w' H; [discriminate H|].
  cbn [ui_goto_loop] in H. unfold bind at 1, emit in H.
  assert (Body : forall w1,
             (arrived <- ui_page_appear T destination off 0 ;;
              if arrived then ret tt
              else
                clicked <- ui_goto_scan T off (iter_pages T) ;;
                if clicked then ui_goto_loop T fuel destination get_ship off false
                else
                  _ <- ui_additional get_ship ;;
                  ui_goto_loop T fuel destination get_ship off false) w1 = (Raise e, w') ->
             e = RequestHumanTakeover \/ e = KeyError \/ e = AttributeError "name").
  { intros w1 B. unfold bind at 1 in B. rewrite ui_page_appear_eq in B.
    destruct (page_appears T destination off 0 (image w1)) as [[|]|e0|] eqn:P;
      try discriminate B.
    - unfold bind at 1 in B.
      destruct (ui_goto_scan T off (iter_pages T) w1) as [[[|]|e0|] w2] eqn:S;
        try discriminate B.
      + exact (IH _ _ _ _ B).
      + unfold bind at 1 in B.
        destruct (ui_additional get_ship w2) as [[b|e1|] w3] eqn:A; try discriminate B.
        * exact (IH _ _ _ _ B).
        * injection B as <- _. left.
          exact (proj2 (ui_additional_quiet _ _ _ _ A) _ eq_refl).
      + injection B as <- _. right. left. exact (ui_goto_scan_raises _ _ _ _ _ _ S).
    - injection B as <- _. right. right. exact (page_appears_raise _ _ _ _ _ _ P). }
  unfold bind at 1 in H. destruct skip.
  - cbn [ret] in H. exact (Body _ H).
  - unfold screenshot in H. world_simpl_in H.
    destruct (pending w) as [|f rest]; [discriminate H|].
    exact (Body _ H).
Qed.

Lemma ui_goto_raises (T : PageTable) (fuel : nat) (destination : Page) (get_ship : bool)
      (off : Offset) (skip : bool) (w : World) (e : Exn) (w' : World) :
  ui_goto T fuel destination get_ship off skip w = (Raise e, w') ->
  e = RequestHumanTakeover \/ e = KeyError \/ e = AttributeError "name".
Proof.
  rewrite ui_goto_unfold. cbv zeta.
  match goal with
  | |- context [ui_goto_loop T fuel destination get_ship off skip ?w2] =>
      destruct (ui_goto_loop T fuel destination get_ship off skip w2)
        as [[[]|e0|] w3] eqn:L
  end; try discriminate.
  intros [= <- _]. exact (ui_goto_loop_raises _ _ _ _ _ _ _ _ _ L).
Qed.

Lemma ui_get_current_page_loop_raises (T : PageTable) (fuel : nat) :
  forall (skip : bool) (tm ot : Timer.t) (ac mc : bool) (w : World) (e : Exn)
         (w' : World),
    ui_get_current_page_loop T fuel skip tm ot ac mc w = (Raise e, w') ->
    e = GamePageUnknownError \/ e = GameNotRunningError
    \/ e = RequestHumanTakeover \/ e = AttributeError "name".
Proof.
  induction fuel as [|fuel IH]; intros skip tm ot ac mc w e w' H; [discriminate H|].
  cbn [ui_get_current_page_loop] in H. unfold bind at 1 in H.
  destruct (first_screenshot skip w) as [[[]|e0|] w1] eqn:FS.
  2:{ exfalso. unfold first_screenshot, bind, screenshot in FS.
      destruct skip; [destruct (has_cached_image w)|];
        try discriminate FS; destruct (pending w); discriminate FS. }
  2:{ discriminate H. }
  unfold bind at 1, clock in H.
  destruct (Timer.reached (now (image w1)) tm) as [expired tm'].
  destruct expired.
  { rewrite unknown_page_eq in H. injection H as <- _. left. reflexivity. }
  unfold bind at 1 in H. rewrite scan_current_page_eq in H.
  destruct (identify T (iter_pages T) (image w1)) as [[p|]|e0|] eqn:Id.
  - discriminate H.
  - repeat (unfold bind at 1, appear_then_click in H; unfold bind at 1 in H;
            rewrite appear_eq in H;
            match type of H with
            | context [if ?c then _ else _] =>
                lazymatch c with
                | context [if _ then _ else _] => fail
                | _ => destruct c
                end
            end;
            [ unfold bind at 1, click, emit in H; cbn [ret] in H;
              unfold bind at 1, clock in H; exact (IH _ _ _ _ _ _ _ _ H)
            | cbn [ret] in H ]).
    unfold bind at 1 in H.
    destruct (ui_additional true w1) as [[[|]|e1|] w2] eqn:A.
    + unfold bind at 1, clock in H. exact (IH _ _ _ _ _ _ _ _ H).
    + unfold bind at 1 in H.
      destruct ((if ac then ret tt else app_check) w2) as [[[]|e1|] w3] eqn:AC.
      * unfold bind at 1 in H.
        destruct ((if mc then ret tt else minicap_check) w3) as [[[]|e1|] w4] eqn:MC.
        -- unfold bind at 1, clock in H.
           destruct (Timer.reached (now (image w4)) ot) as [due ot'].
           destruct due.
           ++ unfold bind at 1, emit in H. unfold bind at 1, clock in H.
              exact (IH _ _ _ _ _ _ _ _ H).
           ++ exact (IH _ _ _ _ _ _ _ _ H).
        -- exfalso. destruct mc; [discriminate MC|].
           unfold minicap_check, bind, emit in MC.
           destruct (String.eqb _ _) in MC; discriminate MC.
        -- discriminate H.
      * injection H as <- _. destruct ac; [discriminate AC|].
        unfold app_check, bind, frame in AC.
        destruct (app_is_running (image w2)); [discriminate AC|].
        injection AC as <- _. right. left. reflexivity.
      * discriminate H.
    + injection H as <- _. right. right. left.
      exact (proj2 (ui_additional_quiet _ _ _ _ A) _ eq_refl).
    + discriminate H.
  - injection H as <- _. right. right. right. exact (identify_raise _ _ _ _ Id).
  - exfalso. exact (identify_not_starved _ _ _ Id).
Qed.

(** X26. The exceptions of the navigation calls, read off their loops.
    [ui_get_current_page] raises nothing but [GamePageUnknownError] (its
    timeout), [GameNotRunningError] (its app check),
    [RequestHumanTakeover] (the OpSi budget of [ui_additional]) and the
    [AttributeError] of a page table without [page_main_white].
    [ui_goto] has no timeout and no app check: it raises nothing but
    [RequestHumanTakeover], the [KeyError] of [page.links[page.parent]] and
    the same [AttributeError], so on a screen it cannot leave it never
    gives up with [GamePageUnknownError].  [ui_ensure] raises what the two
    raise. *)
Theorem navigation_exceptions :
  forall (T : PageTable) (fuel : nat) (destination : Page) (get_ship : bool)
         (off : Offset) (skip : bool) (w : World) (e : Exn) (w' : World),
    (ui_get_current_page T fuel skip w = (Raise e, w') ->
     e = GamePageUnknownError \/ e = GameNotRunningError
     \/ e = RequestHumanTakeover \/ e = AttributeError "name")
    /\ (ui_goto T fuel destination get_ship off skip w = (Raise e, w') ->
        e = RequestHumanTakeover \/ e = KeyError \/ e = AttributeError "name")
    /\ (ui_ensure T fuel destination skip w = (Raise e, w') ->
        e = GamePageUnknownError \/ e = GameNotRunningError
        \/ e = RequestHumanTakeover \/ e = KeyError \/ e = AttributeError "name").
Proof.
  intros T fuel destination get_ship off skip w e w'.
  assert (G : forall s w0 e0 w1,
             ui_get_current_page T fuel s w0 = (Raise e0, w1) ->
             e0 = GamePageUnknownError \/ e0 = GameNotRunningError
             \/ e0 = RequestHumanTakeover \/ e0 = AttributeError "name").
  { intros s w0 e0 w1. unfold ui_get_current_page, bind at 1, clock.
    apply ui_get_current_page_loop_raises. }
  split; [apply G|]. split; [apply ui_goto_raises|].
  intros H. unfold ui_ensure in H. unfold bind at 1 in H.
  destruct (ui_get_current_page T fuel skip w) as [[p|e0|] w1] eqn:C.
  - unfold bind at 1 in H.
    destruct (match ui_current w1 with
              | Some n => String.eqb n (name destination)
              | None => false
              end); [discriminate H|].
    unfold bind at 1 in H.
    destruct (ui_goto T fuel destination true (Offset2 30 30) true w1)
      as [[[]|e1|] w2] eqn:Go; try discriminate H.
    injection H as <- _.
    destruct (ui_goto_raises _ _ _ _ _ _ _ _ _ Go) as [E|[E|E]]; auto 6.
  - injection H as <- _. destruct (G _ _ _ _ C) as [E|[E|[E|E]]]; auto 6.
  - discriminate H.
Qed.
